(** * Reconciliation of Databricks job workflows: a model of [workflow/]

    The Python package [workflow] reads a YAML description of job
    workflows, compares it with the state file last written to S3 and with
    the jobs the Databricks workspace lists, and updates, deletes and
    creates jobs.  This file embeds the package's modules
    [version_utils], [json_utils], [get_jobs], [update_jobs],
    [delete_jobs], [create_jobs] and [main] and proves what they do.

    Python values are dynamically typed, so every value the package
    handles is a [json]: [None], booleans, integers, strings, lists and
    dictionaries (insertion ordered, as Python's are).  The S3 bucket and
    the Databricks workspace are the two parts of a [world] that every
    effectful function threads; exceptions are results of their own. *)

From Stdlib Require Import ZArith List String Ascii Bool Lia.
From Stdlib Require Decimal DecimalString DecimalZ.
Import ListNotations.
Set Warnings "-register-all".
Local Open Scope string_scope.
Local Open Scope Z_scope.

(** ** Python values *)

Inductive json : Type :=
| JNone
| JBool (b : bool)
| JInt (z : Z)
| JStr (s : string)
| JList (l : list json)
| JDict (d : list (string * json)).

(** The exceptions the package can meet. *)
Inductive exn : Type :=
| ValueError
| TypeError
| AttributeError
| KeyError
| FileNotFoundError
| JSONDecodeError.

(** A call returns, raises, or (the paging loop of [get_jobs]) is still
    running when the fuel given to it is spent. *)
Inductive result (A : Type) : Type :=
| Ok (a : A)
| Raise (e : exn)
| Diverges.
Arguments Ok {A} a.
Arguments Raise {A} e.
Arguments Diverges {A}.

Definition rbind {A B : Type} (r : result A) (k : A -> result B) : result B :=
  match r with
  | Ok a => k a
  | Raise e => Raise e
  | Diverges => Diverges
  end.

Declare Scope result_scope.
Delimit Scope result_scope with result.
Notation "x <- c ;; k" := (rbind c (fun x => k))
  (at level 61, c at next level, right associativity) : result_scope.
Notation "' p <- c ;; k" := (rbind c (fun x => let p := x in k))
  (at level 61, p pattern, c at next level, right associativity) : result_scope.

(** Truthiness, as [if x:] tests it. *)
Definition truthy (v : json) : bool :=
  match v with
  | JNone => false
  | JBool b => b
  | JInt z => negb (z =? 0)
  | JStr s => negb (String.eqb s "")
  | JList l => match l with [] => false | _ => true end
  | JDict d => match d with [] => false | _ => true end
  end.

(** Dictionaries: first binding of a key is the binding. *)
Fixpoint lookup {A : Type} (k : string) (d : list (string * A)) : option A :=
  match d with
  | [] => None
  | (k', v) :: d' => if String.eqb k k' then Some v else lookup k d'
  end.

Definition has_key {A : Type} (k : string) (d : list (string * A)) : bool :=
  match lookup k d with Some _ => true | None => false end.

(** [d[k] = v]: overwrite in place, or append a new key at the end. *)
Fixpoint dict_set {A : Type} (k : string) (v : A) (d : list (string * A))
  : list (string * A) :=
  match d with
  | [] => [(k, v)]
  | (k', v') :: d' =>
      if String.eqb k k' then (k', v) :: d' else (k', v') :: dict_set k v d'
  end.

Fixpoint dict_remove {A : Type} (k : string) (d : list (string * A))
  : list (string * A) :=
  match d with
  | [] => []
  | (k', v') :: d' =>
      if String.eqb k k' then d' else (k', v') :: dict_remove k d'
  end.

(** [d.get(k, default)] on a dictionary. *)
Definition dict_get {A : Type} (k : string) (dflt : A) (d : list (string * A)) : A :=
  match lookup k d with Some v => v | None => dflt end.

(** [v.get(k, default)] on any value: only dictionaries have [get]. *)
Definition py_get (v : json) (k : string) (dflt : json) : result json :=
  match v with
  | JDict d => Ok (dict_get k dflt d)
  | _ => Raise AttributeError
  end.

(** [v[k]] with a string key. *)
Definition py_subscript (v : json) (k : string) : result json :=
  match v with
  | JDict d => match lookup k d with Some x => Ok x | None => Raise KeyError end
  | _ => Raise TypeError
  end.

(** [==] on values.  Dictionaries are equal when they have the same keys
    and equal values under each key, whatever the order; [True == 1]. *)
Fixpoint py_eq (a b : json) {struct a} : bool :=
  match a, b with
  | JNone, JNone => true
  | JBool x, JBool y => Bool.eqb x y
  | JBool x, JInt y => Z.b2z x =? y
  | JInt x, JBool y => x =? Z.b2z y
  | JInt x, JInt y => x =? y
  | JStr x, JStr y => String.eqb x y
  | JList xs, JList ys =>
      (fix list_eq (xs ys : list json) {struct xs} : bool :=
         match xs, ys with
         | [], [] => true
         | x :: xs', y :: ys' => py_eq x y && list_eq xs' ys'
         | _, _ => false
         end) xs ys
  | JDict xs, JDict ys =>
      (fix sub (l : list (string * json)) {struct l} : bool :=
         match l with
         | [] => true
         | (k, v) :: l' =>
             match lookup k ys with
             | Some w => py_eq v w
             | None => false
             end && sub l'
         end) xs
      && forallb (fun kv => has_key (fst kv) xs) ys
  | _, _ => false
  end.

Fixpoint is_substring (x s : string) : bool :=
  String.prefix x s
  || match s with
     | EmptyString => false
     | String _ s' => is_substring x s'
     end.

(** [x in c], and its failure on a value that is not a container. *)
Definition py_in (x : json) (c : json) : result bool :=
  match c with
  | JList l => Ok (existsb (py_eq x) l)
  | JDict d => match x with
               | JStr k => Ok (has_key k d)
               | JList _ | JDict _ => Raise TypeError (* unhashable *)
               | _ => Ok false
               end
  | JStr s => match x with
              | JStr t => Ok (is_substring t s)
              | _ => Raise TypeError
              end
  | _ => Raise TypeError
  end.

(** ** [version_utils.generate_version] *)

Module Version.

(** [int(s)] on a string of ASCII characters: surrounding white space is
    dropped, one sign is allowed, and the digits may be grouped by single
    underscores.  The white space [int] drops from an ASCII string is the
    tab, the line feed, the vertical tab, the form feed, the carriage
    return and the space (bytes 9 to 13 and 32); the separators 28 to 31,
    which [str.isspace] accepts, are not dropped.

    Two things Python's [int] and [str] do are outside this model: in a
    string with characters beyond ASCII, [int] also reads the decimal
    digits and the white space of other scripts; and an interpreter may
    bound the number of digits it converts
    ([sys.int_info.default_max_str_digits], 4300 since CPython 3.11),
    raising [ValueError] beyond the bound, where the language itself has
    no bound.  What is stated of [generate_version] on arbitrary strings
    is stated for [ascii_only] strings, and [within_conversion_limit]
    where a result is promised. *)
Definition is_space (c : ascii) : bool :=
  let n := nat_of_ascii c in
  ((9 <=? n) && (n <=? 13) || (n =? 32))%nat.

Definition digit_of (c : ascii) : option Z :=
  let n := nat_of_ascii c in
  if ((48 <=? n) && (n <=? 57))%nat then Some (Z.of_nat n - 48) else None.

Fixpoint lstrip (l : list ascii) : list ascii :=
  match l with
  | c :: l' => if is_space c then lstrip l' else l
  | [] => []
  end.

Definition strip (l : list ascii) : list ascii :=
  List.rev (lstrip (List.rev (lstrip l))).

(** Digits after the sign; [after_digit] says whether the previous
    character was a digit, which is where an underscore or the end of the
    literal may stand. *)
Fixpoint digits (l : list ascii) (acc : Z) (after_digit : bool) : option Z :=
  match l with
  | [] => if after_digit then Some acc else None
  | c :: l' =>
      match digit_of c with
      | Some d => digits l' (10 * acc + d) true
      | None =>
          if Ascii.eqb c "_" && after_digit then digits l' acc false else None
      end
  end.

Definition signed (l : list ascii) : option Z :=
  match l with
  | c :: l' =>
      if Ascii.eqb c "-" then option_map Z.opp (digits l' 0 false)
      else if Ascii.eqb c "+" then digits l' 0 false
      else digits l 0 false
  | [] => None
  end.

Definition py_int (l : list ascii) : result Z :=
  match signed (strip l) with
  | Some z => Ok z
  | None => Raise ValueError
  end.

(** [s.split('.')]: every dot separates, and empty pieces are kept. *)
Fixpoint split_dot (l : list ascii) : list (list ascii) :=
  match l with
  | [] => [[]]
  | c :: l' =>
      if Ascii.eqb c "."
      then [] :: split_dot l'
      else match split_dot l' with
           | p :: ps => (c :: p) :: ps
           | [] => [[c]]
           end
  end.

(** [str(n)] for an integer. *)
Definition py_str (z : Z) : string := DecimalString.NilZero.string_of_int (Z.to_int z).

(** [major, minor = map(int, parts)]: [map] is lazy, so the pieces are
    converted as the unpacking asks for them, and a third piece is asked
    for (and converted) before the count is found wrong.  Every failure
    here is a [ValueError]. *)
Definition unpack2 (parts : list (list ascii)) : result (Z * Z) :=
  match parts with
  | [] => Raise ValueError
  | a :: rest =>
      (major <- py_int a ;;
       match rest with
       | [] => Raise ValueError
       | b :: rest' =>
           minor <- py_int b ;;
           match rest' with
           | [] => Ok (major, minor)
           | c :: _ => _ <- py_int c ;; Raise ValueError
           end
       end)%result
  end.

Definition generate_version (current_version : json) : result string :=
  if truthy current_version then
    match current_version with
    | JStr s =>
        ('(major, minor) <- unpack2 (split_dot (list_ascii_of_string s)) ;;
         let '(major, minor) :=
           if minor =? 9 then (major + 1, 0) else (major, minor + 1) in
         Ok (py_str major ++ "." ++ py_str minor))%result
    | _ => Raise AttributeError (* other values have no [split] *)
    end
  else Ok "1.0".

End Version.


(** ** The world: the S3 service, the workspace's REST API, the clock *)

Inductive http_result : Type :=
| HttpError                              (* [requests.exceptions.RequestException] *)
| HttpResponse (status : Z) (body : json).

(** A [GET] carries the page token put after [?page_token=] ([JNone] when
    the bare URL is asked); a [POST] carries its JSON body.  The
    authorisation header is the same in every call of a run and is left
    to the server. *)
Inductive request : Type :=
| Get (url : string) (page_token : json)
| Post (url : string) (body : json).

(** The server answers a request knowing the requests it was sent before;
    its answer is otherwise arbitrary.  A bucket maps keys to the JSON
    documents stored under them ([json.dumps] followed by [json.loads]
    gives back the value, for the values here).  [written] records every
    [put_object] that went through. *)
Record world : Type := mkWorld {
  server : list request -> request -> http_result;
  sent : list request;
  s3 : list (string * list (string * json));
  written : list (string * string * json);
  clock : nat -> string;
  ticks : nat
}.

Definition M (A : Type) : Type := world -> result A * world.

Definition ret {A : Type} (a : A) : M A := fun w => (Ok a, w).
Definition raise {A : Type} (e : exn) : M A := fun w => (Raise e, w).
Definition lift {A : Type} (r : result A) : M A := fun w => (r, w).

Definition bind {A B : Type} (m : M A) (k : A -> M B) : M B :=
  fun w =>
    match m w with
    | (Ok a, w') => k a w'
    | (Raise e, w') => (Raise e, w')
    | (Diverges, w') => (Diverges, w')
    end.

(** [try: m  except <the exceptions handler answers>: ...] *)
Definition try_except {A : Type} (m : M A) (handler : exn -> option (M A)) : M A :=
  fun w =>
    match m w with
    | (Raise e, w') =>
        match handler e with
        | Some h => h w'
        | None => (Raise e, w')
        end
    | r => r
    end.

Declare Scope monad_scope.
Delimit Scope monad_scope with monad.
Notation "x <- c ;; k" := (bind c (fun x => k))
  (at level 61, c at next level, right associativity) : monad_scope.
Notation "' p <- c ;; k" := (bind c (fun x => let p := x in k))
  (at level 61, p pattern, c at next level, right associativity) : monad_scope.
Notation "c ;;; k" := (bind c (fun _ => k))
  (at level 61, right associativity) : monad_scope.

(** [for x in l: s = body(s, x)] *)
Fixpoint for_each {A S : Type} (body : S -> A -> M S) (l : list A) (s : S) : M S :=
  match l with
  | [] => ret s
  | x :: l' => (s' <- body s x ;; for_each body l' s')%monad
  end.

Fixpoint rfor_each {A S : Type} (body : S -> A -> result S) (l : list A) (s : S)
  : result S :=
  match l with
  | [] => Ok s
  | x :: l' => (s' <- body s x ;; rfor_each body l' s')%result
  end.

(** [requests.get] and [requests.post]. *)
Definition http (r : request) : M http_result :=
  fun w =>
    (Ok (server w (sent w) r),
     mkWorld (server w) (sent w ++ [r]) (s3 w) (written w) (clock w) (ticks w)).

(** [datetime.now().strftime(...)] *)
Definition now : M string :=
  fun w =>
    (Ok (clock w (ticks w)),
     mkWorld (server w) (sent w) (s3 w) (written w) (clock w) (S (ticks w))).

(** [s3.get_object] followed by reading and decoding the body: [None] is
    any of the exceptions this can end in (no such bucket, no such key). *)
Definition get_object (bucket key : string) (w : world) : option json :=
  match lookup bucket (s3 w) with
  | Some objects => lookup key objects
  | None => None
  end.

(** [s3.put_object]: [None] when it raises; the client refuses an empty
    bucket name or key before anything is sent. *)
Definition put_object (bucket key : string) (content : json) (w : world)
  : option world :=
  if String.eqb bucket "" || String.eqb key "" then None
  else match lookup bucket (s3 w) with
       | Some objects =>
           Some (mkWorld (server w) (sent w)
                   (dict_set bucket (dict_set key content objects) (s3 w))
                   (written w ++ [(bucket, key, content)])
                   (clock w) (ticks w))
       | None => None
       end.

(** ** [consts] *)

Definition DATABRICKS_API_URL := "https://api.databricks.com".
Definition CREATE_JOB_ENDPOINT := DATABRICKS_API_URL ++ "/api/2.0/jobs/create".
Definition DELETE_JOB_ENDPOINT := DATABRICKS_API_URL ++ "/api/2.0/jobs/delete".
Definition GET_JOB_ENDPOINT := DATABRICKS_API_URL ++ "/api/2.0/jobs/get".
Definition UPDATE_JOB_ENDPOINT := DATABRICKS_API_URL ++ "/api/2.0/jobs/reset".
Definition BUCKET_NAME := "databricks-workflow".
Definition CURRENT_STATE_FILEPATH := "current_state.json".
Definition HISTORIC_STATE_FILEPATH := "historic_state.json".

(** ** [json_utils] *)

Definition write_json_to_s3 (data : json) (bucket_name s3_key : string) : M bool :=
  if negb (truthy (JStr bucket_name)) || truthy (JStr s3_key)
  then raise ValueError
  else fun w =>
         match put_object bucket_name s3_key data w with
         | Some w' => (Ok true, w')
         | None => (Ok false, w)
         end.

Definition read_json_file_from_s3 (bucket_name s3_key : string) : M json :=
  if negb (truthy (JStr bucket_name)) || negb (truthy (JStr s3_key))
  then raise ValueError
  else fun w =>
         match get_object bucket_name s3_key w with
         | Some doc => (Ok doc, w)
         | None => (Ok JNone, w)
         end.

(** ** [version_utils.get_current_version] *)

Definition get_current_version (bucket_name file_path : string) : M json :=
  try_except
    (data <- read_json_file_from_s3 bucket_name file_path ;;
     match data with
     | JNone =>
         metadata <- lift (py_subscript data "metadata") ;;
         version <- lift (py_subscript metadata "version") ;;
         ret version
     | _ => ret JNone
     end)%monad
    (fun e =>
       match e with
       | FileNotFoundError | JSONDecodeError | KeyError => Some (ret JNone)
       | _ => None
       end).

(** Iterating over a value: a list gives its items, a dictionary its
    keys, a string its characters; other values are not iterable. *)
Definition py_iter (v : json) : result (list json) :=
  match v with
  | JList l => Ok l
  | JDict d => Ok (map (fun kv => JStr (fst kv)) d)
  | JStr s => Ok (map (fun c => JStr (String c EmptyString)) (list_ascii_of_string s))
  | _ => Raise TypeError
  end.

(** ** [get_jobs] *)

(** One turn of the [while True] loop for each unit of fuel. *)
Fixpoint get_jobs_loop (fuel : nat) (api_url_job_list : string)
    (page_token : json) (all_job_names : list json) : M json :=
  match fuel with
  | O => lift Diverges
  | S fuel' =>
      (response <- http (Get api_url_job_list
                           (if truthy page_token then page_token else JNone)) ;;
       match response with
       | HttpError => ret JNone
       | HttpResponse status data =>
           if status =? 200 then
             jobs <- lift (py_get data "jobs" (JList [])) ;;
             items <- lift (py_iter jobs) ;;
             names <- lift (rfor_each
                              (fun (acc : list json) job =>
                                 (settings <- py_get job "settings" (JDict []) ;;
                                  name <- py_get settings "name" (JStr "unknown job name") ;;
                                  Ok (acc ++ [name])%list)%result)
                              items all_job_names) ;;
             page_token' <- lift (py_get data "next_page_token" JNone) ;;
             if negb (truthy page_token') then ret (JList names)
             else get_jobs_loop fuel' api_url_job_list page_token' names
           else ret JNone
       end)%monad
  end.

Definition get_jobs (fuel : nat) (api_url_job_list : string) : M json :=
  get_jobs_loop fuel api_url_job_list JNone [].

(** ** [update_jobs], [delete_jobs], [create_jobs] *)

Definition update_jobs (api_url_job_update : string)
    (job_ids jobs_update_data : list json) : M bool :=
  for_each
    (fun success '(job_id, job_data) =>
       (response <- http (Post api_url_job_update
                            (JDict [("job_id", job_id); ("new_settings", job_data)])) ;;
        match response with
        | HttpResponse status _ => if status =? 200 then ret success else ret false
        | HttpError => ret false
        end)%monad)
    (combine job_ids jobs_update_data) true.

Definition delete_jobs (api_url_job_delete : string) (jobs_ids : list json) : M bool :=
  for_each
    (fun success job_id =>
       (response <- http (Post api_url_job_delete (JDict [("job_id", job_id)])) ;;
        match response with
        | HttpResponse status _ => if negb (status =? 200) then ret false else ret success
        | HttpError => ret false
        end)%monad)
    jobs_ids true.

Definition create_jobs (existing_jobs : json) (api_url_job_create : string)
    (jobs_data : list json) : M (list json) :=
  for_each
    (fun (new_job_ids : list json) data =>
       (job_name <- lift (py_subscript data "name") ;;
        present <- lift (py_in job_name existing_jobs) ;;
        if negb present then
          response <- http (Post api_url_job_create data) ;;
          match response with
          | HttpResponse status body =>
              if status =? 200 then
                new_job_id <- lift (py_get body "job_id" JNone) ;;
                if truthy new_job_id then ret (new_job_ids ++ [new_job_id])%list
                else ret new_job_ids
              else ret new_job_ids
          | HttpError => ret new_job_ids
          end
        else ret new_job_ids)%monad)
    jobs_data [].

(** ** [main] *)

(** A value as an f-string prints it.  (The [repr] of a list or of a
    dictionary is not modelled; no value formatted here is one.) *)
Definition py_format (v : json) : string :=
  match v with
  | JStr s => s
  | JInt z => Version.py_str z
  | JNone => "None"
  | JBool true => "True"
  | JBool false => "False"
  | JList _ | JDict _ => ""
  end.

(** [v.copy()]: dictionaries and lists have it. *)
Definition py_copy (v : json) : result json :=
  match v with
  | JDict _ | JList _ => Ok v
  | _ => Raise AttributeError
  end.

(** [v.pop(k, default)] with a string key, as the value popped and what is
    left: a list's [pop] takes one argument at most. *)
Definition py_pop (v : json) (k : string) (dflt : json) : result (json * json) :=
  match v with
  | JDict d => Ok (dict_get k dflt d, JDict (dict_remove k d))
  | JList _ => Raise TypeError
  | _ => Raise AttributeError
  end.

(** [extended_workflow_data[workflow_name]["job_id"] = job_id] *)
Definition set_job_id (extended_workflow_data : list (string * json))
    (workflow_name : string) (job_id : json) : result (list (string * json)) :=
  match lookup workflow_name extended_workflow_data with
  | None => Raise KeyError
  | Some (JDict details) =>
      Ok (dict_set workflow_name (JDict (dict_set "job_id" job_id details))
            extended_workflow_data)
  | Some _ => Raise TypeError
  end.

(** The loop changes the caller's [extended_workflow_data] and
    [new_job_ids] in place; both are given back. *)
Definition update_extended_workflow_data_with_job_ids
    (extended_workflow_data workflow_data : list (string * json))
    (state_file_workflow_details existing_jobs_names : json)
    (new_job_ids : option (list json))
  : result (list (string * json) * option (list json)) :=
  rfor_each
    (fun '(extended, fresh) '(workflow_name, workflow_details) =>
       (job_name <- py_get workflow_details "job_name" (JStr "") ;;
        live <- py_in job_name existing_jobs_names ;;
        if (live : bool) then
          entry <- py_get state_file_workflow_details workflow_name (JDict []) ;;
          job_id <- py_get entry "job_id" JNone ;;
          extended' <- set_job_id extended workflow_name job_id ;;
          Ok (extended', fresh)
        else
          match fresh with
          | Some (job_id :: rest) =>
              extended' <- set_job_id extended workflow_name job_id ;;
              Ok (extended', Some rest)
          | _ => Ok (extended, fresh)
          end)%result)
    workflow_data (extended_workflow_data, new_job_ids).

Definition create_json_with_metadata (extended_workflow_data : list (string * json))
    (current_version : json) : M json :=
  (version <- lift (Version.generate_version current_version) ;;
   timestamp <- now ;;
   ret (JDict [("metadata", JDict [("version", JStr version);
                                   ("timestamp", JStr timestamp)]);
               ("config", JDict extended_workflow_data)]))%monad.

Definition update_state_file (extended_workflow_data : list (string * json)) : M unit :=
  (current_version <- get_current_version BUCKET_NAME CURRENT_STATE_FILEPATH ;;
   json_data <- create_json_with_metadata extended_workflow_data current_version ;;
   version_name <- lift (metadata <- py_get json_data "metadata" (JDict []) ;;
                         py_get metadata "version" (JStr ""))%result ;;
   write_json_to_s3 json_data BUCKET_NAME
     (HISTORIC_STATE_FILEPATH ++ "/state_file_" ++ py_format version_name ++ ".json") ;;;
   write_json_to_s3 json_data BUCKET_NAME CURRENT_STATE_FILEPATH ;;;
   ret tt)%monad.

Definition identify_removed_jobs (extended_workflow_data : list (string * json))
    (state_file_workflow_details : json) : result (list json) :=
  match state_file_workflow_details with
  | JDict entries =>
      rfor_each
        (fun (removed_jobs_ids : list json) '(workflow_name, workflow_details) =>
           if negb (has_key workflow_name extended_workflow_data) then
             (job_id <- py_get workflow_details "job_id" JNone ;;
              Ok (removed_jobs_ids ++ [job_id])%list)%result
           else Ok removed_jobs_ids)
        entries []
  | _ => Raise AttributeError (* no [items] *)
  end.

Section Main.

(** [task_payload.create_task_payload], which reads cluster configuration
    files and builds one task of the job; its second argument is the
    [gcp_connection] block, [JNone] when the task has none. *)
Variable create_task_payload : json -> json -> result json.

(** The job of one workflow, as sent to the workspace. *)
Definition render_job (workflow_details : json) : result json :=
  (tasks <- py_get workflow_details "tasks" (JList []) ;;
   task_list <- py_iter tasks ;;
   '(tasks_payload, email_on_success, email_on_failure) <-
     rfor_each
       (fun '(tasks_payload, email_on_success, email_on_failure) task_configurations =>
          has_gcp <- py_in (JStr "gcp_connection") task_configurations ;;
          task_payload <-
            (if (has_gcp : bool) then
               gcp_connection_required <- py_subscript task_configurations "gcp_connection" ;;
               create_task_payload task_configurations gcp_connection_required
             else create_task_payload task_configurations JNone) ;;
          on_success <- py_get task_configurations "email_on_success" (JList []) ;;
          on_success <- py_iter on_success ;;
          on_failure <- py_get task_configurations "email_on_failure" (JList []) ;;
          on_failure <- py_iter on_failure ;;
          Ok (tasks_payload ++ [task_payload],
              email_on_success ++ on_success,
              email_on_failure ++ on_failure)%list)
       task_list ([], [], []) ;;
   job_name <- py_get workflow_details "job_name" (JStr "") ;;
   schedule <- py_get workflow_details "schedule" (JStr "") ;;
   Ok (JDict
         [("name", job_name);
          ("email_notifications",
           JDict [("on_success", JList email_on_success);
                  ("on_failure", JList email_on_failure)]);
          ("webhook_notifications", JDict []);
          ("timeout_seconds", JInt 0);
          ("schedule",
           JDict [("quartz_cron_expression", schedule);
                  ("timezon_id", JStr "Europe/London");
                  ("pause_status", JStr "UNPAUSED")]);
          ("max_concurrent_runs", JInt 1);
          ("tasks", JList tasks_payload);
          ("format", JStr "MULTI_TASK");
          ("access_control_list",
           JList [JDict [("group_name", JStr "Uk");
                         ("permission_level", JStr "CAN_MANAGE")]])]))%result.

(** [config] is what [read_config] parsed from the YAML file. *)
Definition process_workflow (config : list (string * json))
  : M (list (string * json) * list (string * json) * json) :=
  (current <- read_json_file_from_s3 BUCKET_NAME CURRENT_STATE_FILEPATH ;;
   state_file_workflow_details <- lift (py_get current "config" (JDict [])) ;;
   let workflow_data :=
     filter (fun kv => String.prefix "workflow" (fst kv)) config in
   extended_workflow_data <-
     lift (rfor_each
             (fun extended '(workflow_name, workflow_details) =>
                (data <- render_job workflow_details ;;
                 Ok (dict_set workflow_name data extended))%result)
             workflow_data []) ;;
   ret (extended_workflow_data, workflow_data, state_file_workflow_details))%monad.

(** The queue of Phase A: for each workflow to update, the job identifier
    of its entry in the state file and the job to send. *)
Definition jobs_to_update (extended_workflow_data : list (string * json))
    (state_file_workflow_details : json) : result (list (string * (json * json))) :=
  rfor_each
    (fun queue '(name, details) =>
       (entry <- py_get state_file_workflow_details name (JDict []) ;;
        current_sate_data <- py_copy entry ;;
        if py_eq details current_sate_data then Ok queue
        else
          '(job_id, _) <- py_pop current_sate_data "job_id" JNone ;;
          Ok (dict_set name (job_id, details) queue))%result)
    extended_workflow_data [].

(** Each phase gives back [extended_workflow_data], which the
    reattachment changes in place and the next phase reads. *)
Definition update_jobs_workflow
    (extended_workflow_data workflow_data : list (string * json))
    (state_file_workflow_details existing_jobs_names : json)
  : M (list (string * json)) :=
  (queue <- lift (jobs_to_update extended_workflow_data state_file_workflow_details) ;;
   match queue with
   | _ :: _ =>
       let job_ids_to_update := map (fun e => fst (snd e)) queue in
       let job_data_to_update := map (fun e => snd (snd e)) queue in
       update_status <- update_jobs UPDATE_JOB_ENDPOINT job_ids_to_update job_data_to_update ;;
       if (update_status : bool) then
         '(extended, _) <- lift (update_extended_workflow_data_with_job_ids
                                   extended_workflow_data workflow_data
                                   state_file_workflow_details existing_jobs_names None) ;;
         update_state_file extended ;;;
         ret extended
       else ret extended_workflow_data
   | [] => ret extended_workflow_data
   end)%monad.

Definition delete_jobs_workflow
    (extended_workflow_data workflow_data : list (string * json))
    (state_file_workflow_details existing_jobs_names : json)
  : M (list (string * json)) :=
  (jobs_to_delete <- lift (identify_removed_jobs extended_workflow_data
                             state_file_workflow_details) ;;
   match jobs_to_delete with
   | _ :: _ =>
       delete_status <- delete_jobs DELETE_JOB_ENDPOINT jobs_to_delete ;;
       if (delete_status : bool) then
         '(extended, _) <- lift (update_extended_workflow_data_with_job_ids
                                   extended_workflow_data workflow_data
                                   state_file_workflow_details existing_jobs_names None) ;;
         update_state_file extended ;;;
         ret extended
       else ret extended_workflow_data
   | [] => ret extended_workflow_data
   end)%monad.

Definition create_jobs_workflow
    (extended_workflow_data workflow_data : list (string * json))
    (state_file_workflow_details existing_jobs_names : json)
  : M (list (string * json)) :=
  (if truthy existing_jobs_names then
     new_job_ids <- create_jobs existing_jobs_names CREATE_JOB_ENDPOINT
                      (map snd extended_workflow_data) ;;
     match new_job_ids with
     | _ :: _ =>
         '(extended, _) <- lift (update_extended_workflow_data_with_job_ids
                                   extended_workflow_data workflow_data
                                   state_file_workflow_details existing_jobs_names
                                   (Some new_job_ids)) ;;
         update_state_file extended ;;;
         ret extended
     | [] => ret extended_workflow_data
     end
   else ret extended_workflow_data)%monad.

Definition run_workflow (fuel : nat) (config : list (string * json)) : M unit :=
  ('(extended_workflow_data, workflow_data, state_file_workflow_details) <-
     process_workflow config ;;
   existing_jobs_names <- get_jobs fuel GET_JOB_ENDPOINT ;;
   extended <- update_jobs_workflow extended_workflow_data workflow_data
                 state_file_workflow_details existing_jobs_names ;;
   extended <- delete_jobs_workflow extended workflow_data
                 state_file_workflow_details existing_jobs_names ;;
   create_jobs_workflow extended workflow_data
     state_file_workflow_details existing_jobs_names ;;;
   ret tt)%monad.

End Main.

(** ** Worlds and inputs the statements below are run on *)

Module Scenario.

(** No task of these workflows needs a payload. *)
Definition no_tasks : json -> json -> result json := fun _ _ => Raise ValueError.

Definition alpha_details : json :=
  JDict [("job_name", JStr "alpha"); ("schedule", JStr "0 0 6 * * ?")].

Definition config : list (string * json) :=
  [("defaults", JDict [("owner", JStr "data")]); ("workflow1", alpha_details)].

Definition alpha_job : json :=
  Eval cbv in
    match render_job no_tasks alpha_details with
    | Ok job => job
    | _ => JNone
    end.

(** The same job as an earlier configuration scheduled it. *)
Definition earlier_alpha_job : json :=
  Eval cbv in
    match render_job no_tasks
            (JDict [("job_name", JStr "alpha"); ("schedule", JStr "0 0 5 * * ?")]) with
    | Ok job => job
    | _ => JNone
    end.

Definition with_job_id (job_id : json) (job : json) : json :=
  match job with
  | JDict d => JDict (dict_set "job_id" job_id d)
  | _ => job
  end.

(** A workspace that lists the jobs named [names] on one page, accepts
    every update and delete, and gives every created job the identifier
    [new_id]. *)
Definition listing (names : list string) : json :=
  JDict [("jobs",
          JList (map (fun n => JDict [("job_id", JInt 7);
                                      ("settings", JDict [("name", JStr n)])])
                   names))].

Definition workspace (names : list string) (new_id : Z)
  : list request -> request -> http_result :=
  fun _ r =>
    match r with
    | Get _ _ => HttpResponse 200 (listing names)
    | Post url _ =>
        if String.eqb url CREATE_JOB_ENDPOINT
        then HttpResponse 200 (JDict [("job_id", JInt new_id)])
        else HttpResponse 200 (JDict [])
    end.

(** The same workspace, refusing every update. *)
Definition workspace_refusing_updates (names : list string) (new_id : Z)
  : list request -> request -> http_result :=
  fun history r =>
    match r with
    | Post url _ =>
        if String.eqb url UPDATE_JOB_ENDPOINT
        then HttpResponse 400 (JDict [("error_code", JStr "INVALID_PARAMETER_VALUE")])
        else workspace names new_id history r
    | _ => workspace names new_id history r
    end.

(** A workspace whose list call fails and whose other calls succeed. *)
Definition workspace_not_listing (new_id : Z)
  : list request -> request -> http_result :=
  fun history r =>
    match r with
    | Get _ _ => HttpError
    | _ => workspace [] new_id history r
    end.

Definition wall_clock : nat -> string := fun _ => "2024-01-01 00:00:00".

Definition snapshot (version : string) (entries : list (string * json)) : json :=
  JDict [("metadata", JDict [("version", JStr version);
                             ("timestamp", JStr "2023-12-31 00:00:00")]);
         ("config", JDict entries)].

Definition bucket_with (objects : list (string * json))
  : list (string * list (string * json)) :=
  [(BUCKET_NAME, objects)].

Definition start (srv : list request -> request -> http_result)
    (objects : list (string * json)) : world :=
  mkWorld srv [] (bucket_with objects) [] wall_clock 0.

(** The desired set {workflow1}, rendered and as configured. *)
Definition desired : list (string * json) := [("workflow1", alpha_job)].
Definition definitions : list (string * json) := [("workflow1", alpha_details)].

(** A bucket whose current state file records workflow1 as it is desired
    now, under job 7; the workspace lists that job. *)
Definition settled : world :=
  start (workspace ["alpha"] 42)
    [(CURRENT_STATE_FILEPATH,
      snapshot "1.0" [("workflow1", with_job_id (JInt 7) alpha_job)])].

(** A bucket whose state file records an earlier schedule of workflow1
    and a workflow that is configured no more. *)
Definition outdated (srv : list request -> request -> http_result) : world :=
  start srv
    [(CURRENT_STATE_FILEPATH,
      snapshot "1.4" [("workflow1", with_job_id (JInt 7) earlier_alpha_job);
                      ("workflow0", with_job_id (JInt 3) earlier_alpha_job)])].

Definition outdated_entries : json :=
  JDict [("workflow1", with_job_id (JInt 7) earlier_alpha_job);
         ("workflow0", with_job_id (JInt 3) earlier_alpha_job)].

(** Two desired workflows: "jobA" is in the inventory and recorded under
    job 7, "jobB" is neither. *)
Definition job_a : list (string * json) := [("name", JStr "jobA")].
Definition job_b : list (string * json) := [("name", JStr "jobB")].
Definition two_desired : list (string * json) :=
  [("workflowA", JDict job_a); ("workflowB", JDict job_b)].
Definition two_definitions : list (string * json) :=
  [("workflowA", JDict [("job_name", JStr "jobA")]);
   ("workflowB", JDict [("job_name", JStr "jobB")])].
Definition recorded_a : list (string * json) :=
  [("workflowA", JDict [("name", JStr "jobA"); ("job_id", JInt 7)])].

(** The requests of a trace that change the workspace. *)
Definition is_post_to (url : string) (r : request) : bool :=
  match r with
  | Post u _ => String.eqb u url
  | Get _ _ => false
  end.

Definition update_calls (l : list request) : list request :=
  filter (is_post_to UPDATE_JOB_ENDPOINT) l.
Definition delete_calls (l : list request) : list request :=
  filter (is_post_to DELETE_JOB_ENDPOINT) l.
Definition create_calls (l : list request) : list request :=
  filter (is_post_to CREATE_JOB_ENDPOINT) l.

End Scenario.

(** ** Notions the statements use *)

(** The number a decimal numeral denotes after the digits read so far
    came to [acc]. *)
Fixpoint uint_value (d : Decimal.uint) (acc : Z) : Z :=
  match d with
  | Decimal.Nil => acc
  | Decimal.D0 d' => uint_value d' (10 * acc)
  | Decimal.D1 d' => uint_value d' (10 * acc + 1)
  | Decimal.D2 d' => uint_value d' (10 * acc + 2)
  | Decimal.D3 d' => uint_value d' (10 * acc + 3)
  | Decimal.D4 d' => uint_value d' (10 * acc + 4)
  | Decimal.D5 d' => uint_value d' (10 * acc + 5)
  | Decimal.D6 d' => uint_value d' (10 * acc + 6)
  | Decimal.D7 d' => uint_value d' (10 * acc + 7)
  | Decimal.D8 d' => uint_value d' (10 * acc + 8)
  | Decimal.D9 d' => uint_value d' (10 * acc + 9)
  end.

(** The characters [str] writes an integer with. *)
Definition numeral_char (c : ascii) : bool :=
  match Version.digit_of c with
  | Some _ => true
  | None => Ascii.eqb c "-"
  end.

(** The odometer step on a pair of integers. *)
Definition successor (major minor : Z) : Z * Z :=
  if minor =? 9 then (major + 1, 0) else (major, minor + 1).

Definition label (v : Z * Z) : string :=
  Version.py_str (fst v) ++ "." ++ Version.py_str (snd v).

(** *** Version strings

    The strings the model of [int] and [str] speaks for: those of ASCII
    characters, short enough for no conversion to meet the bound an
    interpreter may put on the number of digits.  A version string is
    longer than each of its two numerals, and than the numerals of the
    next version. *)
Definition ascii_only (s : string) : Prop :=
  Forall (fun c => (nat_of_ascii c < 128)%nat) (list_ascii_of_string s).

(** [sys.int_info.default_max_str_digits] *)
Definition int_max_str_digits : nat := 4300.

Definition within_conversion_limit (s : string) : Prop :=
  (String.length s <= int_max_str_digits)%nat.

(** Two integers separated by a dot, written out without the parser.  An
    integer is what [int] reads in base ten: white space, an optional
    sign, digits with single underscores allowed between two digits,
    white space. *)
Definition blank (c : ascii) : Prop :=
  In c [" "; "009"; "010"; "011"; "012"; "013"]%char.

Definition decimal_digits : list ascii :=
  ["0"; "1"; "2"; "3"; "4"; "5"; "6"; "7"; "8"; "9"]%char.

Definition decimal_digit (c : ascii) : Prop := In c decimal_digits.

Inductive digit_groups : list ascii -> Prop :=
| last_digit (c : ascii) :
    decimal_digit c -> digit_groups [c]
| next_digit (c : ascii) (l : list ascii) :
    decimal_digit c -> digit_groups l -> digit_groups (c :: l)
| next_group (c : ascii) (l : list ascii) :
    decimal_digit c -> digit_groups l -> digit_groups (c :: "_"%char :: l).

Definition integer_literal (l : list ascii) : Prop :=
  exists before sign groups after : list ascii,
    l = (before ++ sign ++ groups ++ after)%list
    /\ Forall blank before
    /\ (sign = [] \/ sign = ["+"%char] \/ sign = ["-"%char])
    /\ digit_groups groups
    /\ Forall blank after.

Definition two_integers_around_a_dot (s : string) : Prop :=
  exists a b : list ascii,
    list_ascii_of_string s = (a ++ "."%char :: b)%list
    /\ integer_literal a /\ integer_literal b.

(** The number a literal denotes: its digits read in base ten, negated
    under a minus sign. *)
Fixpoint position (c : ascii) (l : list ascii) : option Z :=
  match l with
  | [] => None
  | x :: l' => if Ascii.eqb c x then Some 0 else option_map Z.succ (position c l')
  end.

Definition read_digit (n : Z) (c : ascii) : Z :=
  match position c decimal_digits with
  | Some d => 10 * n + d
  | None => n
  end.

Definition denoted (l : list ascii) : Z :=
  let magnitude := fold_left read_digit l 0 in
  if existsb (Ascii.eqb "-") l then - magnitude else magnitude.

(** Strings that are not two integers around a dot. *)
Definition malformed_versions : list string :=
  ["1"; "1."; ".5"; "."; "1.2.3"; "1..2"; "v1.0"; "1.0-rc"; "one.two"; "1,5";
   "1.5e3"; "0x1.2"; "1.-"; "+.1"; "1. 2 3"; "1.2_"; "1._2"; "1.2__3"; "--1.2";
   "1.+-2"; " "; String "028" "1.5"; "1.5" ++ String "031" ""; "1.5" ++ String "000" ""].

(** Whether the job of a workflow definition is in the inventory. *)
Definition is_live (names : list json) (workflow_details : json) : bool :=
  match workflow_details with
  | JDict d => existsb (py_eq (dict_get "job_name" (JStr "") d)) names
  | _ => false
  end.

(** The identifier the state file records under a workflow name. *)
Definition recorded_id (entries : list (string * json)) (workflow_name : string) : json :=
  match lookup workflow_name entries with
  | Some (JDict entry) => dict_get "job_id" JNone entry
  | _ => JNone
  end.

(** How many of the workflows are not in the inventory. *)
Definition absent_count (names : list json) (workflows : list (string * json)) : nat :=
  List.length (filter (fun kv => negb (is_live names (snd kv))) workflows).

Definition queue_of (new_job_ids : option (list json)) : list json :=
  match new_job_ids with
  | Some ids => ids
  | None => []
  end.

Definition is_dict (v : json) : Prop := exists d, v = JDict d.

(** [k] is bound to a dictionary. *)
Definition bound_dict (extended : list (string * json)) (k : string) : Prop :=
  exists d, lookup k extended = Some (JDict d).

(** One turn of the reattachment loop, when nothing in it can raise. *)
Definition attach_one (names : list json) (entries : list (string * json))
    (acc : list (string * json) * option (list json)) (kv : string * json)
  : list (string * json) * option (list json) :=
  let '(extended, fresh) := acc in
  let '(workflow_name, workflow_details) := kv in
  match lookup workflow_name extended with
  | Some (JDict d) =>
      if is_live names workflow_details then
        (dict_set workflow_name
           (JDict (dict_set "job_id" (recorded_id entries workflow_name) d)) extended,
         fresh)
      else
        match fresh with
        | Some (job_id :: rest) =>
            (dict_set workflow_name (JDict (dict_set "job_id" job_id d)) extended,
             Some rest)
        | _ => acc
        end
  | _ => acc
  end.

(** The world after more requests were sent and nothing else happened. *)
Definition after_requests (w : world) (requests : list request) : world :=
  mkWorld (server w) (sent w ++ requests) (s3 w) (written w) (clock w) (ticks w).

(** The requests an update queue is sent as. *)
Definition update_batch (queue : list (string * (json * json))) : list request :=
  map (fun e => Post UPDATE_JOB_ENDPOINT
                  (JDict [("job_id", fst (snd e)); ("new_settings", snd (snd e))]))
    queue.

(** A computation that sends nothing. *)
Definition silent {A : Type} (m : M A) : Prop :=
  forall w, sent (snd (m w)) = sent w.

(** ** Batches and their answers *)

(** The answers the server gives to requests sent one after the other,
    starting from a history. *)
Fixpoint answers (srv : list request -> request -> http_result)
    (history requests : list request) : list http_result :=
  match requests with
  | [] => []
  | r :: rest => srv history r :: answers srv (history ++ [r]) rest
  end.

(** An answer with status 200. *)
Definition accepted (a : http_result) : bool :=
  match a with
  | HttpResponse status _ => status =? 200
  | HttpError => false
  end.

Definition delete_batch (jobs_ids : list json) : list request :=
  map (fun job_id => Post DELETE_JOB_ENDPOINT (JDict [("job_id", job_id)])) jobs_ids.

(** The identifier a state entry carries, [None] when it carries none. *)
Definition entry_job_id (entry : json) : json :=
  match entry with
  | JDict e => dict_get "job_id" JNone e
  | _ => JNone
  end.

(** The version labels of successive state files: [generate_version]
    applied again and again, starting from no version. *)
Fixpoint nth_version (n : nat) : result string :=
  match n with
  | O => Version.generate_version JNone
  | S n' => (v <- nth_version n' ;; Version.generate_version (JStr v))%result
  end.

(** The name a job is created under. *)
Definition job_name_of (job : json) : option json :=
  match job with
  | JDict d => lookup "name" d
  | _ => None
  end.

(** A job whose name the inventory does not list. *)
Definition unlisted (names : list json) (job : json) : bool :=
  match job_name_of job with
  | Some n => negb (existsb (py_eq n) names)
  | None => false
  end.

(** The identifier a create request brought back, if it brought one. *)
Definition new_id (a : http_result) : list json :=
  match a with
  | HttpResponse status (JDict body) =>
      if (status =? 200) && truthy (dict_get "job_id" JNone body)
      then [dict_get "job_id" JNone body] else []
  | _ => []
  end.

(** An answer whose body, if the status is 200, is a JSON object. *)
Definition object_if_accepted (a : http_result) : Prop :=
  match a with
  | HttpResponse status body => status = 200 -> is_dict body
  | HttpError => True
  end.

(** An answer [create_jobs] cannot read: status 200 and a body that is
    not a JSON object, which has no [get]. *)
Definition unreadable (a : http_result) : bool :=
  match a with
  | HttpResponse status (JDict _) => false
  | HttpResponse status _ => status =? 200
  | HttpError => false
  end.

(** The place of the first unreadable answer among the answers. *)
Fixpoint first_unreadable (l : list http_result) : option nat :=
  match l with
  | [] => None
  | a :: l' => if unreadable a then Some O else option_map S (first_unreadable l')
  end.

(** A workspace that answers every call with status 200 and a JSON list. *)
Definition workspace_answering_lists : list request -> request -> http_result :=
  fun _ _ => HttpResponse 200 (JList [JInt 42]).

(** ** Pages of the job list *)

(** The name [get_jobs] takes from one listed job. *)
Definition listed_name (job : json) : json :=
  match job with
  | JDict j =>
      match dict_get "settings" (JDict []) j with
      | JDict settings => dict_get "name" (JStr "unknown job name") settings
      | _ => JNone
      end
  | _ => JNone
  end.

(** A listed job that is an object whose settings, if any, are one. *)
Definition well_formed_job (job : json) : Prop :=
  exists j, job = JDict j /\ is_dict (dict_get "settings" (JDict []) j).

Definition page_jobs (body : list (string * json)) : list json :=
  match dict_get "jobs" (JList []) body with
  | JList jobs => jobs
  | _ => []
  end.

Definition well_formed_page (body : list (string * json)) : Prop :=
  (exists jobs, dict_get "jobs" (JList []) body = JList jobs)
  /\ Forall well_formed_job (page_jobs body).

Definition next_page_token (body : list (string * json)) : json :=
  dict_get "next_page_token" JNone body.

(** The server answers the list call with these pages, one after the
    other: each is asked for with the token of the one before, and every
    page but the last one names a next page. *)
Fixpoint serves (srv : list request -> request -> http_result) (url : string)
    (history : list request) (page_token : json)
    (pages : list (list (string * json))) : Prop :=
  match pages with
  | [] => False
  | body :: rest =>
      srv history (Get url page_token) = HttpResponse 200 (JDict body)
      /\ well_formed_page body
      /\ match rest with
         | [] => truthy (next_page_token body) = false
         | _ :: _ =>
             truthy (next_page_token body) = true
             /\ serves srv url (history ++ [Get url page_token])
                  (next_page_token body) rest
         end
  end.

(** The list calls that fetch the pages. *)
Fixpoint page_requests (url : string) (page_token : json)
    (pages : list (list (string * json))) : list request :=
  match pages with
  | [] => []
  | body :: rest => Get url page_token :: page_requests url (next_page_token body) rest
  end.

(** The server answers with these pages, each naming a next page, and
    then fails the call for the page after them. *)
Fixpoint fails_after (srv : list request -> request -> http_result) (url : string)
    (history : list request) (page_token : json)
    (pages : list (list (string * json))) : Prop :=
  match pages with
  | [] => accepted (srv history (Get url page_token)) = false
  | body :: rest =>
      srv history (Get url page_token) = HttpResponse 200 (JDict body)
      /\ well_formed_page body
      /\ truthy (next_page_token body) = true
      /\ fails_after srv url (history ++ [Get url page_token])
           (next_page_token body) rest
  end.

Fixpoint last_token (page_token : json) (pages : list (list (string * json))) : json :=
  match pages with
  | [] => page_token
  | body :: rest => last_token (next_page_token body) rest
  end.

(** A workspace that lists its jobs on two pages. *)
Definition first_page : list (string * json) :=
  [("jobs", JList [JDict [("job_id", JInt 7);
                          ("settings", JDict [("name", JStr "alpha")])];
                   JDict [("job_id", JInt 8)]]);
   ("next_page_token", JStr "p2")].

Definition second_page : list (string * json) :=
  [("jobs", JList [JDict [("job_id", JInt 9);
                          ("settings", JDict [("name", JStr "gamma")])]])].

Definition paged_workspace : list request -> request -> http_result :=
  fun _ r =>
    match r with
    | Get _ JNone => HttpResponse 200 (JDict first_page)
    | Get _ _ => HttpResponse 200 (JDict second_page)
    | Post _ _ => HttpResponse 200 (JDict [])
    end.

(** The same workspace, out of reach once the first page is served. *)
Definition paged_workspace_failing : list request -> request -> http_result :=
  fun _ r =>
    match r with
    | Get _ JNone => HttpResponse 200 (JDict first_page)
    | _ => HttpError
    end.

(** ** What a computation leaves alone, and what it sends *)

(** A computation that never changes an observation [f] of the world. *)
Definition keeps {A X : Type} (f : world -> X) (m : M A) : Prop :=
  forall w, f (snd (m w)) = f w.

(** What the bucket holds and the writes made to it so far. *)
Definition bucket_state (w : world) :
  list (string * list (string * json)) * list (string * string * json) :=
  (s3 w, written w).

Definition is_get_to (url : string) (r : request) : bool :=
  match r with
  | Get u _ => String.eqb u url
  | Post _ _ => false
  end.

(** A computation that sends requests of one kind only. *)
Definition emits {A : Type} (kind : request -> bool) (m : M A) : Prop :=
  forall w, exists l : list request,
    sent (snd (m w)) = (sent w ++ l)%list /\ forallb kind l = true.

(** A computation whose requests come in stages: first requests of the
    first kind only, then of the second kind only, and so on. *)
Definition staged {A : Type} (kinds : list (request -> bool)) (m : M A) : Prop :=
  forall w, exists stages : list (list request),
    sent (snd (m w)) = (sent w ++ List.concat stages)%list
    /\ Forall2 (fun kind stage => forallb kind stage = true) kinds stages.

(** ** Phase A, workflow by workflow *)

(** What Phase A does with one desired workflow: nothing when its job
    equals the entry of the state file, otherwise one item of the queue,
    with the identifier of the entry. *)
Definition classify (entries : list (string * json)) (kv : string * json)
  : list (string * (json * json)) :=
  let entry := dict_get (fst kv) (JDict []) entries in
  if py_eq (snd kv) entry then []
  else [(fst kv, (entry_job_id entry, snd kv))].

(** The keys of a rendered job. *)
Definition job_keys : list string :=
  ["name"; "email_notifications"; "webhook_notifications"; "timeout_seconds";
   "schedule"; "max_concurrent_runs"; "tasks"; "format"; "access_control_list"].

(** ** [task_payload] *)

Inductive TaskType : Type := NOTEBOOK | PYTHON | SQL | DBT.

(** [TaskType(value)]: the member with that value, [ValueError] when
    there is none. *)
Definition task_type_of (value : json) : result TaskType :=
  match value with
  | JStr s =>
      if String.eqb s "NOTEBOOK" then Ok NOTEBOOK
      else if String.eqb s "PYTHON" then Ok PYTHON
      else if String.eqb s "SQL" then Ok SQL
      else if String.eqb s "DBT" then Ok DBT
      else Raise ValueError
  | _ => Raise ValueError
  end.

(** [d.update(other)] on dictionaries. *)
Definition dict_update (d other : list (string * json)) : list (string * json) :=
  fold_left (fun acc kv => dict_set (fst kv) (snd kv) acc) other d.

(** [v.update(other)]: only dictionaries have it. *)
Definition py_update (v : json) (other : list (string * json)) : result json :=
  match v with
  | JDict d => Ok (JDict (dict_update d other))
  | _ => Raise AttributeError
  end.

(** [x or []] *)
Definition or_empty_list (x : json) : json :=
  if truthy x then x else JList [].

Section TaskPayload.

(** [open(path, "r")] followed by [json.load]: the parsed content of the
    file, or the exception the two end in. *)
Variable load_json_file : json -> result json.

(** [str(v)], as an f-string inserts a value. *)
Variable format_value : json -> string.

(** The cluster configuration is changed in place; it is given back. *)
Definition add_gcp_spark_conf (cluster_config gcp_connection_required : json)
  : result json :=
  (email <- py_get gcp_connection_required "service_account_email" JNone ;;
   project <- py_get gcp_connection_required "project_id" JNone ;;
   key <- py_get gcp_connection_required "service_account_private_key" JNone ;;
   key_id <- py_get gcp_connection_required "service_account_private_id" JNone ;;
   let spark_conf :=
     [("spark.hadoop.google.cloud.auth.service.account.enable", JStr "true");
      ("spark.hadoop.fs.gs.auth.service.account.email", email);
      ("spark.hadoop.fs.gs.project.id", project);
      ("spark.hadoop.fs.gs.auth.service.account.private.key",
       JStr ("{{secrets/scope/" ++ format_value key ++ "}}"));
      ("spark.hadoop.fs.gs.auth.service.account.private.key.id",
       JStr ("{{secrets/scope/" ++ format_value key_id ++ "}}"))] in
   current <- py_subscript cluster_config "spark_conf" ;;
   updated <- py_update current spark_conf ;;
   match cluster_config with
   | JDict c => Ok (JDict (dict_set "spark_conf" updated c))
   | _ => Raise TypeError
   end)%result.

(** The builders give back the payload; those that take the cluster
    configuration give it back too. *)
Definition build_notebook_payload (task_config cluster_config gcp_connection_required : json)
  : result (json * json) :=
  (filepath <- py_get task_config "filepath" JNone ;;
   if negb (truthy filepath) then Raise ValueError
   else
     cluster_config' <-
       (if truthy gcp_connection_required
        then add_gcp_spark_conf cluster_config gcp_connection_required
        else Ok cluster_config) ;;
     notebook_path <- py_subscript task_config "filepath" ;;
     Ok (JDict [("notebook_task",
                 JDict [("notebook_path", notebook_path); ("source", JStr "GIT")])],
         cluster_config'))%result.

Definition build_python_payload (task_config cluster_config gcp_connection_required : json)
  : result (json * json) :=
  (filepath <- py_get task_config "filepath" JNone ;;
   if negb (truthy filepath) then Raise ValueError
   else
     cluster_config' <-
       (if truthy gcp_connection_required
        then add_gcp_spark_conf cluster_config gcp_connection_required
        else Ok cluster_config) ;;
     python_file <- py_subscript task_config "filepath" ;;
     parameters <- py_get task_config "parameters" (JList []) ;;
     Ok (JDict [("spark_python_task",
                 JDict [("python_file", python_file);
                        ("parameters", or_empty_list parameters);
                        ("source", JStr "GIT")])],
         cluster_config'))%result.

Definition build_sql_payload (task_config : json) : result json :=
  (filepath <- py_get task_config "filepath" JNone ;;
   if negb (truthy filepath) then Raise ValueError
   else
     path <- py_subscript task_config "sql_file_path" ;;
     Ok (JDict [("sql_task",
                 JDict [("file", JDict [("path", path)]);
                        ("warehoouse_id", JStr "warehouse_id")])]))%result.

Definition build_dbt_payload (task_config : json) : result json :=
  (filepath <- py_get task_config "filepath" JNone ;;
   if negb (truthy filepath) then Raise ValueError
   else
     project_directory <- py_subscript task_config "filepath" ;;
     commands <- py_get task_config "commands" (JList []) ;;
     Ok (JDict [("dbt_task",
                 JDict [("project_directory", project_directory);
                        ("commands", commands);
                        ("warehouse_id", JStr "warehouse_id")]);
                ("libraries",
                 JList [JDict [("pypi",
                                JDict [("package",
                                        JStr "dbt-databricks>=1.0.0,<2.0.0")])]])]))%result.

(** The functions of the dispatch table take three arguments or one. *)
Inductive builder : Type :=
| Builder3 (f : json -> json -> json -> result (json * json))
| Builder1 (f : json -> result json).

Definition payload_builder (task_type : TaskType) : builder :=
  match task_type with
  | NOTEBOOK => Builder3 build_notebook_payload
  | PYTHON => Builder3 build_notebook_payload
  | SQL => Builder1 build_sql_payload
  | DBT => Builder1 build_dbt_payload
  end.

(** A call with three positional arguments. *)
Definition call3 (b : builder) (x y z : json) : result (json * json) :=
  match b with
  | Builder3 f => f x y z
  | Builder1 _ => Raise TypeError
  end.

Definition create_task_payload (task_config gcp_connection_required : json)
  : result json :=
  (task_name <- py_get task_config "task_name" JNone ;;
   if negb (truthy task_name) then Raise ValueError
   else
     cluster_config_path <- py_get task_config "cluster_config_path" JNone ;;
     cluster_config <-
       (if truthy cluster_config_path then
          match load_json_file cluster_config_path with
          | Raise FileNotFoundError | Raise JSONDecodeError => Raise ValueError
          | loaded => loaded
          end
        else Ok (JDict [])) ;;
     task_type_value <- py_subscript task_config "tasktype" ;;
     task_type <- task_type_of task_type_value ;;
     '(payload, cluster_config) <-
       call3 (payload_builder task_type) task_config cluster_config
         gcp_connection_required ;;
     task_key <- py_subscript task_config "task_name" ;;
     timeout_seconds <- py_get task_config "timeout_seconds" (JInt 0) ;;
     on_success <- py_get task_config "email_on_success" (JList []) ;;
     on_failure <- py_get task_config "email_on_failure" (JList []) ;;
     has_libraries <- py_in (JStr "libraries") task_config ;;
     libraries <-
       (if (has_libraries : bool) then
          given <- py_subscript task_config "libraries" ;;
          py_iter given
        else Ok []) ;;
     let common_payload :=
       [("task_key", task_key);
        ("new_cluster", cluster_config);
        ("libraries", JList libraries);
        ("timeout_seconds", timeout_seconds);
        ("email_notifications",
         JDict [("on_success", or_empty_list on_success);
                ("on_failure", or_empty_list on_failure)])] in
     payload <- py_update payload common_payload ;;
     depends_on <- py_get task_config "depends_on" JNone ;;
     if truthy depends_on then
       match payload with
       | JDict p =>
           Ok (JDict (dict_set "depends_on"
                        (JList [JDict [("task_key", depends_on)]]) p))
       | _ => Raise TypeError
       end
     else Ok payload)%result.

End TaskPayload.

(** ** The tasks of a rendered job *)

(** The GCP block handed to the payload builder with a task. *)
Definition task_gcp (task : json) : json :=
  match task with
  | JDict t => dict_get "gcp_connection" JNone t
  | _ => JNone
  end.

(** The addresses a task lists under a key. *)
Definition task_emails (key : string) (task : json) : list json :=
  match task with
  | JDict t =>
      match py_iter (dict_get key (JList []) t) with
      | Ok l => l
      | _ => []
      end
  | _ => []
  end.

(** ** Listing the bucket: [list_all_objects_in_s3_path] and
    [get_previous_version_file] *)

(** [s.split(sep)] for a separator of one character. *)
Fixpoint split_on (sep : ascii) (l : list ascii) : list (list ascii) :=
  match l with
  | [] => [[]]
  | c :: l' =>
      if Ascii.eqb c sep
      then [] :: split_on sep l'
      else match split_on sep l' with
           | p :: ps => (c :: p) :: ps
           | [] => [[c]]
           end
  end.

(** [s.endswith(suffix)] *)
Definition ends_with (suffix s : string) : bool :=
  (String.length suffix <=? String.length s)%nat
  && String.eqb
       (String.substring (String.length s - String.length suffix)
          (String.length suffix) s)
       suffix.

(** [file_path.split('/')[-1]] *)
Definition basename (file_path : string) : string :=
  string_of_list_ascii (List.last (split_on "/" (list_ascii_of_string file_path)) []).

(** [os.path.join(a, b)] *)
Definition path_join (a b : string) : string :=
  if String.prefix "/" b then b
  else if String.eqb a "" || ends_with "/" a then a ++ b
  else a ++ "/" ++ b.

(** [int(f.split("_")[-1].split(".")[0])] *)
Definition file_version (f : string) : result Z :=
  Version.py_int
    (List.hd [] (split_on "."
                   (List.last (split_on "_" (list_ascii_of_string f)) []))).

(** The test of the comprehension in [get_previous_version_file]. *)
Definition is_version_file (f : string) : bool :=
  String.prefix "sate_file_" f && ends_with ".json" f.

(** [l.sort(key=...)]: the sort is stable. *)
Fixpoint insert_by_version (x : string * Z) (l : list (string * Z)) : list (string * Z) :=
  match l with
  | [] => [x]
  | y :: l' => if snd x <? snd y then x :: l else y :: insert_by_version x l'
  end.

Definition sort_by_version (l : list (string * Z)) : list (string * Z) :=
  fold_left (fun sorted x => insert_by_version x sorted) l [].

Section Listing.

(** The pages [paginator.paginate(Bucket=..., Prefix=...)] yields, or the
    exception it ends in. *)
Variable list_objects_v2 : string -> string -> result (list json).

Definition list_all_objects_in_s3_path (bucket_name s3_path : string)
  : result (list string) :=
  if negb (truthy (JStr bucket_name)) || negb (truthy (JStr s3_path))
  then Raise ValueError
  else
    let s3_path := if negb (ends_with "/" s3_path) then s3_path ++ "/" else s3_path in
    (pages <- list_objects_v2 bucket_name s3_path ;;
     rfor_each
       (fun (files : list string) page =>
          has_contents <- py_in (JStr "Contents") page ;;
          if (has_contents : bool) then
            contents <- py_subscript page "Contents" ;;
            objects <- py_iter contents ;;
            rfor_each
              (fun (files : list string) obj =>
                 file_path <- py_subscript obj "Key" ;;
                 match file_path with
                 | JStr file_path => Ok (files ++ [basename file_path])%list
                 | _ => Raise AttributeError (* no [split] *)
                 end)
              objects files
          else Ok files)
       pages [])%result.

Definition get_previous_version_file (bucket_name historic_state_path : string)
  : result (option string) :=
  (files <- list_all_objects_in_s3_path bucket_name historic_state_path ;;
   files_with_version <-
     rfor_each
       (fun (acc : list (string * Z)) f =>
          if is_version_file f then
            version <- file_version f ;;
            Ok (acc ++ [(f, version)])%list
          else Ok acc)
       files [] ;;
   let files_with_version := sort_by_version files_with_version in
   if (1 <? List.length files_with_version)%nat then
     let index_to_retrieve :=
       if (List.length files_with_version =? 1)%nat then 1%nat else 2%nat in
     match nth_error files_with_version
             (List.length files_with_version - index_to_retrieve) with
     | Some (f, _) => Ok (Some (path_join historic_state_path f))
     | None => Raise TypeError (* not reached: the index is within the list *)
     end
   else Ok None)%result.

End Listing.

(** The prefix the listing is asked for: the path, closed by a "/". *)
Definition listing_prefix (s3_path : string) : string :=
  if ends_with "/" s3_path then s3_path else s3_path ++ "/".

(** The keys of the objects a page lists. *)
Definition object_key (obj : json) : list string :=
  match obj with
  | JDict o => match lookup "Key" o with
               | Some (JStr key) => [key]
               | _ => []
               end
  | _ => []
  end.

Definition page_keys (page : json) : list string :=
  match page with
  | JDict p => match lookup "Contents" p with
               | Some (JList objects) => flat_map object_key objects
               | _ => []
               end
  | _ => []
  end.

(** [name] is what stands in [key] after its last "/", all of [key] when
    it has none. *)
Definition after_last_slash (key name : string) : Prop :=
  let k := list_ascii_of_string key in
  let n := list_ascii_of_string name in
  ~ In "/"%char n
  /\ (k = n \/ exists dir : list ascii, k = (dir ++ "/"%char :: n)%list).

(** The version files among the listed names, each with its version. *)
Definition version_files (files : list string) : list (string * Z) :=
  flat_map
    (fun f =>
       if is_version_file f then
         match file_version f with
         | Ok version => [(f, version)]
         | _ => []
         end
       else [])
    files.

(** * Properties *)

(** ** The version sequencer *)



Section VersionFacts.
Import Version.

Lemma chars_app (s t : string) :
  list_ascii_of_string (s ++ t)
  = (list_ascii_of_string s ++ list_ascii_of_string t)%list.
Proof.
  induction s as [|c s IH]; simpl; [reflexivity|].
  now rewrite IH.
Qed.

Lemma numeral_char_plain (c : ascii) :
  numeral_char c = true ->
  is_space c = false /\ Ascii.eqb c "." = false /\ Ascii.eqb c "+" = false.
Proof.
  destruct c as [[] [] [] [] [] [] [] []]; vm_compute; intros H;
    repeat split; congruence.
Qed.

Lemma digits_after_digit (d : Decimal.uint) (acc : Z) :
  digits (list_ascii_of_string (DecimalString.NilEmpty.string_of_uint d)) acc true
  = Some (uint_value d acc).
Proof.
  revert acc.
  induction d as [|d IH|d IH|d IH|d IH|d IH|d IH|d IH|d IH|d IH|d IH];
    intros acc; cbn [DecimalString.NilEmpty.string_of_uint list_ascii_of_string
                       digits uint_value];
    try reflexivity;
    match goal with
    | |- context [digit_of ?c] =>
        let v := eval vm_compute in (digit_of c) in change (digit_of c) with v
    end;
    cbv iota beta; rewrite IH; do 2 f_equal; lia.
Qed.

Lemma digits_numeral (d : Decimal.uint) :
  digits (list_ascii_of_string (DecimalString.NilZero.string_of_uint d)) 0 false
  = Some (uint_value d 0).
Proof.
  destruct d; try reflexivity; simpl;
    (etransitivity; [|apply digits_after_digit]); reflexivity.
Qed.

Lemma pos_of_uint_acc_value (d : Decimal.uint) (p : positive) :
  Z.pos (Pos.of_uint_acc d p) = uint_value d (Z.pos p).
Proof.
  revert p.
  induction d as [|d IH|d IH|d IH|d IH|d IH|d IH|d IH|d IH|d IH|d IH];
    intros p; cbn [Pos.of_uint_acc uint_value]; try reflexivity;
    rewrite IH; f_equal; cbv zeta; lia.
Qed.

Lemma of_uint_value (d : Decimal.uint) : Z.of_uint d = uint_value d 0.
Proof.
  unfold Z.of_uint.
  induction d as [|d IH|d IH|d IH|d IH|d IH|d IH|d IH|d IH|d IH|d IH];
    cbn [Pos.of_uint uint_value Z.of_N]; try reflexivity;
    try (rewrite IH; f_equal; lia);
    rewrite pos_of_uint_acc_value; f_equal; lia.
Qed.

Lemma uint_chars_numeral (d : Decimal.uint) :
  Forall (fun c => numeral_char c = true)
    (list_ascii_of_string (DecimalString.NilEmpty.string_of_uint d)).
Proof.
  induction d; simpl; constructor; auto.
Qed.

Lemma py_str_chars_numeral (z : Z) :
  Forall (fun c => numeral_char c = true) (list_ascii_of_string (py_str z)).
Proof.
  unfold py_str.
  destruct (Z.to_int z) as [d|d]; simpl.
  - destruct d; try apply (uint_chars_numeral (_ d)).
    repeat constructor.
  - constructor; [reflexivity|].
    destruct d; try apply (uint_chars_numeral (_ d)).
    repeat constructor.
Qed.

Lemma lstrip_plain (l : list ascii) :
  match l with c :: _ => is_space c = false | [] => True end -> lstrip l = l.
Proof.
  destruct l as [|c l]; simpl; [reflexivity|].
  now intros ->.
Qed.

Lemma strip_numeral (l : list ascii) :
  Forall (fun c => numeral_char c = true) l -> strip l = l.
Proof.
  intros H. unfold strip.
  rewrite (lstrip_plain l).
  - rewrite lstrip_plain; [apply rev_involutive|].
    apply Forall_rev in H.
    destruct H as [|c r Hc _]; [exact I|].
    now apply numeral_char_plain in Hc.
  - destruct H as [|c r Hc _]; [exact I|].
    now apply numeral_char_plain in Hc.
Qed.

(** [int(str(z))] is [z]. *)
Lemma py_int_py_str (z : Z) : py_int (list_ascii_of_string (py_str z)) = Ok z.
Proof.
  unfold py_int.
  rewrite strip_numeral by apply py_str_chars_numeral.
  rewrite <- (DecimalZ.of_to z) at 2.
  unfold py_str.
  destruct (Z.to_int z) as [d|d]; cbn [DecimalString.NilZero.string_of_int Z.of_int].
  - assert (E : signed (list_ascii_of_string (DecimalString.NilZero.string_of_uint d))
                = digits (list_ascii_of_string (DecimalString.NilZero.string_of_uint d))
                    0 false).
    { destruct d; reflexivity. }
    rewrite E, digits_numeral, of_uint_value. reflexivity.
  - cbn [list_ascii_of_string signed].
    change (Ascii.eqb "-" "-") with true. cbv iota.
    rewrite digits_numeral, of_uint_value. reflexivity.
Qed.

Lemma split_dot_no_dot (l : list ascii) :
  Forall (fun c => Ascii.eqb c "." = false) l -> split_dot l = [l].
Proof.
  induction 1 as [|c l Hc _ IH]; simpl; [reflexivity|].
  now rewrite Hc, IH.
Qed.

Lemma split_dot_app (l r : list ascii) :
  Forall (fun c => Ascii.eqb c "." = false) l ->
  split_dot (l ++ "."%char :: r) = l :: split_dot r.
Proof.
  induction 1 as [|c l Hc _ IH]; simpl; [reflexivity|].
  now rewrite Hc, IH.
Qed.

Lemma numeral_no_dot (l : list ascii) :
  Forall (fun c => numeral_char c = true) l ->
  Forall (fun c => Ascii.eqb c "." = false) l.
Proof.
  apply Forall_impl. intros c Hc. now apply numeral_char_plain in Hc.
Qed.

Lemma split_label (v : Z * Z) :
  split_dot (list_ascii_of_string (label v))
  = [list_ascii_of_string (py_str (fst v)); list_ascii_of_string (py_str (snd v))].
Proof.
  unfold label. rewrite chars_app.
  change (list_ascii_of_string ("." ++ py_str (snd v)))
    with ("."%char :: list_ascii_of_string (py_str (snd v))).
  rewrite split_dot_app by (apply numeral_no_dot, py_str_chars_numeral).
  rewrite split_dot_no_dot by (apply numeral_no_dot, py_str_chars_numeral).
  reflexivity.
Qed.

Lemma label_truthy (v : Z * Z) : truthy (JStr (label v)) = true.
Proof.
  unfold label, truthy, py_str.
  destruct (Z.to_int (fst v)) as [d|d]; simpl; [|reflexivity].
  destruct d; reflexivity.
Qed.

(** The sequencer on a well-formed label. *)
Lemma generate_version_label (v : Z * Z) :
  generate_version (JStr (label v)) = Ok (label (successor (fst v) (snd v))).
Proof.
  unfold generate_version.
  rewrite label_truthy, split_label.
  unfold unpack2. rewrite !py_int_py_str. cbn [rbind].
  unfold successor, label.
  destruct (snd v =? 9); reflexivity.
Qed.

End VersionFacts.

Lemma py_int_cases (l : list ascii) :
  (exists z, Version.py_int l = Ok z) \/ Version.py_int l = Raise ValueError.
Proof.
  unfold Version.py_int.
  destruct (Version.signed (Version.strip l)) as [z|]; eauto.
Qed.

(** The sequencer on any string: the empty string is no version, and
    every other string is split at its dots and its pieces are parsed. *)
Lemma generate_version_cases (s : string) :
  Version.generate_version (JStr s)
  = if String.eqb s "" then Ok "1.0"
    else match Version.split_dot (list_ascii_of_string s) with
         | [a; b] =>
             match Version.py_int a, Version.py_int b with
             | Ok major, Ok minor => Ok (label (successor major minor))
             | _, _ => Raise ValueError
             end
         | _ => Raise ValueError
         end.
Proof.
  unfold Version.generate_version, truthy.
  destruct (String.eqb s ""); cbn [negb]; [reflexivity|].
  unfold Version.unpack2.
  destruct (Version.split_dot (list_ascii_of_string s)) as [|a [|b [|c rest]]];
    try reflexivity.
  - destruct (py_int_cases a) as [[x ->]| ->]; reflexivity.
  - destruct (py_int_cases a) as [[x ->]| ->]; [|reflexivity].
    destruct (py_int_cases b) as [[y ->]| ->]; [|reflexivity].
    cbn [rbind]. unfold successor, label.
    destruct (y =? 9); reflexivity.
  - destruct (py_int_cases a) as [[x ->]| ->]; [|reflexivity].
    destruct (py_int_cases b) as [[y ->]| ->]; [|reflexivity].
    destruct (py_int_cases c) as [[z ->]| ->]; reflexivity.
Qed.

(** *** Integer literals against the parser *)

Section VersionStrings.
Import Version.

Lemma In_existsb (c : ascii) (l : list ascii) :
  In c l <-> existsb (Ascii.eqb c) l = true.
Proof.
  rewrite existsb_exists. split.
  - intros H. exists c. split; [exact H|apply Ascii.eqb_refl].
  - intros (x & H & E). apply Ascii.eqb_eq in E. now subst.
Qed.

Lemma is_space_blank (c : ascii) : is_space c = true <-> blank c.
Proof.
  unfold blank. rewrite In_existsb.
  destruct c as [[] [] [] [] [] [] [] []]; vm_compute; tauto.
Qed.

Lemma digit_of_position (c : ascii) : digit_of c = position c decimal_digits.
Proof.
  destruct c as [[] [] [] [] [] [] [] []]; vm_compute; reflexivity.
Qed.

Lemma decimal_digit_position (c : ascii) :
  decimal_digit c <-> exists d, position c decimal_digits = Some d.
Proof.
  unfold decimal_digit. rewrite In_existsb.
  destruct c as [[] [] [] [] [] [] [] []]; vm_compute; split; intros H;
    try discriminate H; try reflexivity; try (now eexists);
    destruct H as [d H]; discriminate H.
Qed.

Lemma blank_plain (c : ascii) :
  blank c ->
  position c decimal_digits = None
  /\ Ascii.eqb "-" c = false /\ Ascii.eqb c "." = false.
Proof.
  unfold blank. cbn [In]. intros H.
  repeat (destruct H as [<-|H]; [repeat split; reflexivity|]).
  contradiction.
Qed.

Lemma digit_plain (c : ascii) :
  decimal_digit c ->
  is_space c = false
  /\ Ascii.eqb c "-" = false /\ Ascii.eqb c "+" = false
  /\ Ascii.eqb "-" c = false /\ Ascii.eqb c "." = false.
Proof.
  unfold decimal_digit, decimal_digits. cbn [In]. intros H.
  repeat (destruct H as [<-|H]; [repeat split; reflexivity|]).
  contradiction.
Qed.

Lemma read_digit_digit (n d : Z) (c : ascii) :
  position c decimal_digits = Some d -> read_digit n c = 10 * n + d.
Proof. unfold read_digit. now intros ->. Qed.

Lemma read_digit_other (n : Z) (c : ascii) :
  position c decimal_digits = None -> read_digit n c = n.
Proof. unfold read_digit. now intros ->. Qed.

Lemma digit_groups_head (g : list ascii) :
  digit_groups g -> exists c r, g = c :: r /\ decimal_digit c.
Proof. destruct 1; eauto. Qed.

Lemma digit_groups_last (g : list ascii) :
  digit_groups g -> exists r c, g = (r ++ [c])%list /\ decimal_digit c.
Proof.
  induction 1 as [c Hc|c l Hc _ (r & c' & -> & Hc')|c l Hc _ (r & c' & -> & Hc')].
  - now exists [], c.
  - now exists (c :: r), c'.
  - now exists (c :: "_"%char :: r), c'.
Qed.

Lemma digit_groups_chars (g : list ascii) :
  digit_groups g -> Forall (fun c => decimal_digit c \/ c = "_"%char) g.
Proof.
  induction 1 as [c Hc|c l Hc _ IH|c l Hc _ IH].
  - constructor; [now left|constructor].
  - constructor; [now left|exact IH].
  - constructor; [now left|]. constructor; [now right|exact IH].
Qed.

(** The parser reads what the grammar describes, and gives the number
    the digits denote. *)
Lemma digits_groups (g : list ascii) :
  digit_groups g ->
  forall (acc : Z) (b : bool), digits g acc b = Some (fold_left read_digit g acc).
Proof.
  induction 1 as [c Hc|c l Hc _ IH|c l Hc _ IH]; intros acc b;
    apply decimal_digit_position in Hc; destruct Hc as [d Hd];
    cbn [digits fold_left]; rewrite digit_of_position, Hd;
    rewrite (read_digit_digit acc d c Hd).
  - reflexivity.
  - apply IH.
  - change (digit_of "_"%char) with (@None Z).
    change (Ascii.eqb "_" "_" && true) with true. cbv iota.
    rewrite read_digit_other by reflexivity. apply IH.
Qed.

Lemma digits_inv (l : list ascii) :
  forall (acc : Z) (b : bool) (v : Z),
    digits l acc b = Some v ->
    (b = true /\ l = [])
    \/ digit_groups l
    \/ (b = true /\ exists g, l = "_"%char :: g /\ digit_groups g).
Proof.
  induction l as [|c l IH]; intros acc b v H; cbn [digits] in H.
  - destruct b; [now left|discriminate].
  - right. rewrite digit_of_position in H.
    destruct (position c decimal_digits) as [d|] eqn:Hd.
    + left.
      assert (Hc : decimal_digit c) by (apply decimal_digit_position; eauto).
      destruct (IH _ _ _ H) as [[_ ->]|[Hg|[_ (g & -> & Hg)]]].
      * now apply last_digit.
      * now apply next_digit.
      * now apply next_group.
    + right.
      destruct (Ascii.eqb_spec c "_") as [->|N]; [|discriminate].
      destruct b; [|discriminate]. cbn [andb] in H.
      split; [reflexivity|]. exists l. split; [reflexivity|].
      destruct (IH _ _ _ H) as [[E _]|[Hg|[E _]]]; [discriminate|exact Hg|discriminate].
Qed.

Lemma lstrip_blanks (ws l : list ascii) :
  Forall blank ws -> lstrip (ws ++ l) = lstrip l.
Proof.
  induction 1 as [|c ws Hc _ IH]; [reflexivity|].
  apply is_space_blank in Hc. cbn [app lstrip]. now rewrite Hc.
Qed.

Lemma lstrip_split (l : list ascii) :
  exists ws, Forall blank ws /\ l = (ws ++ lstrip l)%list.
Proof.
  induction l as [|c l (ws & Hws & E)]; [now exists []|].
  cbn [lstrip]. destruct (is_space c) eqn:Hc.
  - exists (c :: ws). split; [|cbn [app]; now f_equal].
    constructor; [now apply is_space_blank|exact Hws].
  - now exists [].
Qed.

Lemma strip_split (l : list ascii) :
  exists before after,
    Forall blank before /\ Forall blank after
    /\ l = (before ++ strip l ++ after)%list.
Proof.
  destruct (lstrip_split l) as (before & Hb & E).
  destruct (lstrip_split (List.rev (lstrip l))) as (ws & Hws & E').
  exists before, (List.rev ws). split; [exact Hb|]. split; [now apply Forall_rev|].
  unfold strip. rewrite <- rev_app_distr, <- E', rev_involutive. exact E.
Qed.

Lemma strip_literal (before sign groups after : list ascii) :
  Forall blank before ->
  sign = [] \/ sign = ["+"%char] \/ sign = ["-"%char] ->
  digit_groups groups ->
  Forall blank after ->
  strip (before ++ sign ++ groups ++ after) = (sign ++ groups)%list.
Proof.
  intros Hb Hs Hg Ha. unfold strip.
  rewrite lstrip_blanks by exact Hb.
  assert (H1 : lstrip (sign ++ groups ++ after) = (sign ++ groups ++ after)%list).
  { apply lstrip_plain.
    destruct Hs as [->|[->| ->]]; [|reflexivity|reflexivity].
    destruct (digit_groups_head groups Hg) as (c & r & -> & Hc).
    cbn [app]. now apply digit_plain in Hc. }
  rewrite H1, app_assoc, rev_app_distr.
  rewrite lstrip_blanks by (now apply Forall_rev).
  rewrite lstrip_plain; [apply rev_involutive|].
  destruct (digit_groups_last groups Hg) as (r & c & -> & Hc).
  rewrite app_assoc, rev_app_distr. cbn [List.rev app].
  now apply digit_plain in Hc.
Qed.

Lemma fold_left_other (l : list ascii) (n : Z) :
  Forall (fun c => position c decimal_digits = None) l ->
  fold_left read_digit l n = n.
Proof.
  induction 1 as [|c l Hc _ IH]; cbn [fold_left]; [reflexivity|].
  now rewrite read_digit_other.
Qed.

Lemma existsb_none (p : ascii -> bool) (l : list ascii) :
  Forall (fun c => p c = false) l -> existsb p l = false.
Proof.
  induction 1 as [|c l Hc _ IH]; cbn [existsb]; [reflexivity|].
  now rewrite Hc.
Qed.

Lemma blanks_plain (l : list ascii) :
  Forall blank l ->
  Forall (fun c => position c decimal_digits = None) l
  /\ Forall (fun c => Ascii.eqb "-" c = false) l
  /\ Forall (fun c => Ascii.eqb c "." = false) l.
Proof.
  intros H. repeat split; eapply Forall_impl; try exact H;
    intros c Hc; now apply blank_plain in Hc.
Qed.

Lemma groups_plain (g : list ascii) :
  digit_groups g ->
  Forall (fun c => Ascii.eqb "-" c = false) g
  /\ Forall (fun c => Ascii.eqb c "." = false) g.
Proof.
  intros H. apply digit_groups_chars in H.
  split; eapply Forall_impl; try exact H;
    intros c [Hc| ->]; try reflexivity; now apply digit_plain in Hc.
Qed.

(** [int] accepts every integer literal, with the number it denotes. *)
Lemma py_int_literal (l : list ascii) :
  integer_literal l -> py_int l = Ok (denoted l).
Proof.
  intros (before & sign & groups & after & -> & Hb & Hs & Hg & Ha).
  unfold py_int. rewrite strip_literal by assumption.
  destruct (blanks_plain before Hb) as (Pb & Mb & _).
  destruct (blanks_plain after Ha) as (Pa & Ma & _).
  destruct (groups_plain groups Hg) as (Mg & _).
  unfold denoted. rewrite !fold_left_app, !existsb_app.
  rewrite (fold_left_other before) by exact Pb.
  rewrite (fold_left_other after) by exact Pa.
  rewrite (existsb_none _ before Mb), (existsb_none _ after Ma),
    (existsb_none _ groups Mg).
  cbn [orb]. rewrite !orb_false_r.
  destruct Hs as [->|[->| ->]]; cbn [app fold_left existsb].
  - destruct (digit_groups_head groups Hg) as (c & r & E & Hc).
    apply digit_plain in Hc. destruct Hc as (_ & M & P & _).
    assert (S : signed groups = digits groups 0 false).
    { rewrite E. cbn [signed]. now rewrite M, P. }
    rewrite S, (digits_groups groups Hg). reflexivity.
  - cbn [signed]. change (Ascii.eqb "+" "-") with false.
    change (Ascii.eqb "+" "+") with true. cbv iota.
    rewrite (digits_groups groups Hg).
    rewrite (read_digit_other 0 "+") by reflexivity. reflexivity.
  - cbn [signed]. change (Ascii.eqb "-" "-") with true. cbv iota.
    rewrite (digits_groups groups Hg).
    rewrite (read_digit_other 0 "-") by reflexivity. reflexivity.
Qed.

(** [int] accepts nothing else. *)
Lemma py_int_inv (l : list ascii) (z : Z) :
  py_int l = Ok z -> integer_literal l.
Proof.
  unfold py_int. intros H.
  destruct (signed (strip l)) as [v|] eqn:S; [clear H|discriminate].
  destruct (strip_split l) as (before & after & Hb & Ha & E).
  assert (G : forall m acc v, digits m acc false = Some v -> digit_groups m).
  { intros m acc v' D.
    destruct (digits_inv m _ _ _ D) as [[F _]|[Hg|[F _]]];
      [discriminate|exact Hg|discriminate]. }
  destruct (strip l) as [|c m]; [discriminate|]. cbn [signed] in S.
  destruct (Ascii.eqb_spec c "-") as [->|_].
  - destruct (digits m 0 false) as [v'|] eqn:D; [|discriminate].
    exists before, ["-"%char], m, after. rewrite E.
    repeat split; eauto.
  - destruct (Ascii.eqb_spec c "+") as [->|_].
    + exists before, ["+"%char], m, after. rewrite E.
      repeat split; eauto.
    + exists before, [], (c :: m), after. rewrite E.
      repeat split; eauto.
Qed.

Lemma literal_no_dot (l : list ascii) :
  integer_literal l -> Forall (fun c => Ascii.eqb c "." = false) l.
Proof.
  intros (before & sign & groups & after & -> & Hb & Hs & Hg & Ha).
  rewrite !Forall_app. repeat split.
  - now apply blanks_plain.
  - destruct Hs as [->|[->| ->]]; repeat constructor.
  - now apply groups_plain.
  - now apply blanks_plain.
Qed.

Lemma split_dot_nonempty (l : list ascii) : split_dot l <> [].
Proof.
  destruct l as [|c l]; cbn [split_dot]; [discriminate|].
  destruct (Ascii.eqb c "."); [discriminate|].
  destruct (split_dot l); discriminate.
Qed.

Lemma split_dot_one (l b : list ascii) : split_dot l = [b] -> l = b.
Proof.
  revert b. induction l as [|c l IH]; intros b H; cbn [split_dot] in H.
  - now injection H as <-.
  - pose proof (split_dot_nonempty l) as NE.
    destruct (Ascii.eqb c ".").
    + injection H as _ H. congruence.
    + destruct (split_dot l) as [|p ps]; [congruence|].
      injection H as <- ->. f_equal. now apply IH.
Qed.

(** A string that splits in two has exactly one dot, between the two. *)
Lemma split_dot_two (l a b : list ascii) :
  split_dot l = [a; b] -> l = (a ++ "."%char :: b)%list.
Proof.
  revert a. induction l as [|c l IH]; intros a H; cbn [split_dot] in H.
  - discriminate.
  - destruct (Ascii.eqb_spec c ".") as [->|_].
    + injection H as <- H. cbn [app]. f_equal. now apply split_dot_one.
    + destruct (split_dot l) as [|p ps]; [discriminate|].
      injection H as <- ->. cbn [app]. f_equal. now apply IH.
Qed.

Lemma generate_version_well_formed (s : string) (a b : list ascii) :
  list_ascii_of_string s = (a ++ "."%char :: b)%list ->
  integer_literal a -> integer_literal b ->
  generate_version (JStr s) = Ok (label (successor (denoted a) (denoted b))).
Proof.
  intros E Ha Hb. rewrite generate_version_cases.
  destruct (String.eqb_spec s "") as [->|_].
  - destruct a; discriminate.
  - rewrite E, split_dot_app by (now apply literal_no_dot).
    rewrite split_dot_no_dot by (now apply literal_no_dot).
    now rewrite (py_int_literal a Ha), (py_int_literal b Hb).
Qed.

Lemma generate_version_malformed (s : string) :
  s <> "" -> ~ two_integers_around_a_dot s ->
  generate_version (JStr s) = Raise ValueError.
Proof.
  intros N M. rewrite generate_version_cases.
  destruct (String.eqb_spec s "") as [->|_]; [congruence|].
  destruct (split_dot (list_ascii_of_string s)) as [|a [|b [|c rest]]] eqn:E;
    try reflexivity.
  destruct (py_int a) as [major| |] eqn:Ea; try reflexivity.
  destruct (py_int b) as [minor| |] eqn:Eb; try reflexivity.
  exfalso. apply M. exists a, b.
  split; [now apply split_dot_two|].
  split; eapply py_int_inv; eassumption.
Qed.

End VersionStrings.

(** C10.  The version sequencer is a function of its argument alone: no
    version ([None] or the empty string) gives "1.0"; "1.9" gives "2.0"
    and "3.4" gives "3.5"; a label written from two integers gives the
    label of their odometer successor (minor 9 wraps to major + 1, minor
    0; otherwise minor + 1), and so does every string that is two integer
    literals around one dot, whatever white space, sign, leading zeros or
    underscores [int] lets them have; a string that is not two integers
    around a dot (one piece, three pieces, an empty piece, a piece that
    is no integer, as the strings of [malformed_versions]) gives a
    [ValueError], never "1.0".  The general statements are for strings
    within the reach of the model of [int] and [str]: ASCII characters,
    and no more than [int_max_str_digits] of them where a result is
    promised. *)
Theorem C10_generate_version :
  Version.generate_version JNone = Ok "1.0"
  /\ Version.generate_version (JStr "") = Ok "1.0"
  /\ Version.generate_version (JStr "1.9") = Ok "2.0"
  /\ Version.generate_version (JStr "3.4") = Ok "3.5"
  /\ (forall major minor : Z,
        within_conversion_limit (label (major, minor)) ->
        Version.generate_version (JStr (label (major, minor)))
        = Ok (label (if minor =? 9 then (major + 1, 0) else (major, minor + 1))))
  /\ (forall (s : string) (a b : list ascii),
        list_ascii_of_string s = (a ++ "."%char :: b)%list ->
        integer_literal a -> integer_literal b ->
        within_conversion_limit s ->
        Version.generate_version (JStr s)
        = Ok (label (successor (denoted a) (denoted b))))
  /\ Version.generate_version (JStr " 7 .+9") = Ok "8.0"
  /\ Version.generate_version (JStr "1_0.004") = Ok "10.5"
  /\ Version.generate_version (JStr "-1.9") = Ok "0.0"
  /\ (forall s : string,
        ascii_only s -> s <> "" -> ~ two_integers_around_a_dot s ->
        Version.generate_version (JStr s) = Raise ValueError)
  /\ Forall (fun s => Version.generate_version (JStr s) = Raise ValueError)
       malformed_versions.
Proof.
  repeat match goal with |- _ /\ _ => split end; try reflexivity.
  - intros major minor _. apply (generate_version_label (major, minor)).
  - intros s a b E Ha Hb _. now apply generate_version_well_formed.
  - intros s _ N M. now apply generate_version_malformed.
  - repeat constructor.
Qed.

Lemma C10_generate_version_witness :
  (within_conversion_limit (label (12, 9))
   /\ Version.generate_version (JStr (label (12, 9))) = Ok (label (13, 0)))
  /\ (list_ascii_of_string "+12. 9" = (["+"; "1"; "2"] ++ "." :: [" "; "9"])%char%list
      /\ integer_literal ["+"; "1"; "2"]%char
      /\ integer_literal [" "; "9"]%char
      /\ within_conversion_limit "+12. 9"
      /\ Version.generate_version (JStr "+12. 9") = Ok "13.0")
  /\ (ascii_only "1,5" /\ "1,5" <> "" /\ ~ two_integers_around_a_dot "1,5"
      /\ Version.generate_version (JStr "1,5") = Raise ValueError).
Proof.
  destruct C10_generate_version
    as (_ & _ & _ & _ & Hlabel & Hwell & _ & _ & _ & Hmal & _).
  assert (L : within_conversion_limit (label (12, 9))).
  { vm_compute. repeat constructor. }
  assert (A : integer_literal ["+"; "1"; "2"]%char).
  { exists [], ["+"%char], ["1"; "2"]%char, [].
    repeat split; auto.
    apply next_digit; [|apply last_digit]; vm_compute; tauto. }
  assert (B : integer_literal [" "; "9"]%char).
  { exists [" "%char], [], ["9"%char], [].
    repeat split; auto.
    - repeat constructor.
    - apply last_digit. vm_compute. tauto. }
  assert (W : within_conversion_limit "+12. 9").
  { vm_compute. repeat constructor. }
  assert (O : ascii_only "1,5").
  { repeat constructor. }
  assert (N : "1,5" <> "") by discriminate.
  assert (M : ~ two_integers_around_a_dot "1,5").
  { intros (a & b & E & _).
    assert (D : In "."%char (list_ascii_of_string "1,5")).
    { rewrite E. apply in_elt. }
    cbn in D. intuition discriminate. }
  split; [split; [exact L|exact (Hlabel 12 9 L)]|].
  split; [repeat (split; [assumption || reflexivity|]);
          exact (Hwell "+12. 9" ["+"; "1"; "2"]%char [" "; "9"]%char eq_refl A B W)|].
  repeat (split; [assumption|]). exact (Hmal "1,5" O N M).
Defined.

(** ** Dictionaries *)

Section DictFacts.
Context {A : Type}.

Lemma lookup_dict_set_same (k : string) (v : A) (d : list (string * A)) :
  lookup k (dict_set k v d) = Some v.
Proof.
  induction d as [|[k' v'] d IH]; simpl.
  - now rewrite String.eqb_refl.
  - destruct (String.eqb k k') eqn:E; simpl; rewrite E; [reflexivity|exact IH].
Qed.

Lemma lookup_dict_set_other (k k' : string) (v : A) (d : list (string * A)) :
  k <> k' -> lookup k' (dict_set k v d) = lookup k' d.
Proof.
  intros N.
  induction d as [|[k0 v0] d IH]; simpl.
  - destruct (String.eqb_spec k' k); [congruence|reflexivity].
  - destruct (String.eqb_spec k k0) as [->|N0]; simpl.
    + destruct (String.eqb_spec k' k0); [congruence|reflexivity].
    + destruct (String.eqb_spec k' k0); [reflexivity|exact IH].
Qed.

Lemma lookup_In (k : string) (v : A) (d : list (string * A)) :
  lookup k d = Some v -> In (k, v) d.
Proof.
  induction d as [|[k' v'] d IH]; simpl; [discriminate|].
  destruct (String.eqb_spec k k') as [->|N].
  - intros [= ->]. now left.
  - intros H. right. auto.
Qed.

End DictFacts.

(** ** Reattachment of job identifiers *)

Section Reattachment.
Variable names : list json.
Variable entries : list (string * json).
Hypothesis entries_dicts : Forall (fun kv => is_dict (snd kv)) entries.

Let body :=
  (fun '(extended, fresh) '(workflow_name, workflow_details) =>
     (job_name <- py_get workflow_details "job_name" (JStr "") ;;
      live <- py_in job_name (JList names) ;;
      if (live : bool) then
        entry <- py_get (JDict entries) workflow_name (JDict []) ;;
        job_id <- py_get entry "job_id" JNone ;;
        extended' <- set_job_id extended workflow_name job_id ;;
        Ok (extended', fresh)
      else
        match fresh with
        | Some (job_id :: rest) =>
            extended' <- set_job_id extended workflow_name job_id ;;
            Ok (extended', Some rest)
        | _ => Ok (extended, fresh)
        end)%result)
  : list (string * json) * option (list json) -> string * json ->
    result (list (string * json) * option (list json)).

Lemma recorded_entry {B : Type} (workflow_name : string) (k : json -> result B) :
  (entry <- py_get (JDict entries) workflow_name (JDict []) ;;
   job_id <- py_get entry "job_id" JNone ;;
   k job_id)%result
  = k (recorded_id entries workflow_name).
Proof.
  unfold recorded_id, py_get, dict_get at 1. cbn [rbind].
  destruct (lookup workflow_name entries) as [e|] eqn:E; [|reflexivity].
  apply lookup_In in E.
  rewrite Forall_forall in entries_dicts.
  destruct (entries_dicts _ E) as [d Hd]. simpl in Hd. subst e. reflexivity.
Qed.

Lemma body_attach_one extended fresh workflow_name details d :
  is_dict details ->
  lookup workflow_name extended = Some (JDict d) ->
  body (extended, fresh) (workflow_name, details)
  = Ok (attach_one names entries (extended, fresh) (workflow_name, details)).
Proof.
  intros [dd ->] Hb.
  unfold body, attach_one. rewrite Hb.
  simpl (py_get (JDict dd) _ _). simpl (py_in _ (JList names)).
  cbn [rbind is_live].
  destruct (existsb _ names).
  - rewrite recorded_entry.
    unfold set_job_id. rewrite Hb. reflexivity.
  - destruct fresh as [[|i rest]|]; try reflexivity.
    unfold set_job_id. rewrite Hb. reflexivity.
Qed.

Lemma attach_one_other acc kv (k : string) :
  k <> fst kv ->
  lookup k (fst (attach_one names entries acc kv)) = lookup k (fst acc).
Proof.
  destruct acc as [extended fresh], kv as [n details]. simpl fst. intros N.
  unfold attach_one.
  destruct (lookup n extended) as [[| | | | |d]|]; try reflexivity.
  destruct (is_live names details); simpl fst.
  - apply lookup_dict_set_other. congruence.
  - destruct fresh as [[|i rest]|]; simpl fst; try reflexivity.
    apply lookup_dict_set_other. congruence.
Qed.

Lemma attach_one_bound acc kv (k : string) :
  bound_dict (fst acc) k -> bound_dict (fst (attach_one names entries acc kv)) k.
Proof.
  destruct acc as [extended fresh], kv as [n details]. simpl fst. intros Hk.
  destruct (String.eqb_spec k n) as [->|N].
  - unfold attach_one.
    destruct (lookup n extended) as [[| | | | |d]|] eqn:E; try exact Hk.
    destruct (is_live names details); simpl fst.
    + eexists. apply lookup_dict_set_same.
    + destruct fresh as [[|i rest]|]; simpl fst; try exact Hk.
      eexists. apply lookup_dict_set_same.
  - destruct Hk as [d Hd]. exists d.
    rewrite <- Hd. apply (attach_one_other (extended, fresh) (n, details)).
    exact N.
Qed.

Lemma attach_one_queue extended fresh n details :
  bound_dict extended n ->
  snd (attach_one names entries (extended, fresh) (n, details))
  = option_map (skipn (absent_count names [(n, details)])) fresh.
Proof.
  intros [d Hd]. unfold attach_one, absent_count. rewrite Hd. simpl.
  destruct (is_live names details); simpl.
  - now destruct fresh.
  - now destruct fresh as [[|i rest]|].
Qed.

Lemma absent_count_cons kv l :
  absent_count names (kv :: l)
  = (absent_count names [kv] + absent_count names l)%nat.
Proof.
  unfold absent_count. simpl.
  destruct (negb (is_live names (snd kv))); reflexivity.
Qed.

Lemma attach_all l : forall extended fresh,
  Forall (fun kv => bound_dict extended (fst kv)) l ->
  let r := fold_left (attach_one names entries) l (extended, fresh) in
  (forall k, ~ In k (map fst l) -> lookup k (fst r) = lookup k extended)
  /\ (forall k, bound_dict extended k -> bound_dict (fst r) k)
  /\ snd r = option_map (skipn (absent_count names l)) fresh.
Proof.
  induction l as [|[n details] l IH]; intros extended fresh Hb;
    cbv zeta; cbn [fold_left map].
  - repeat split; auto. now destruct fresh.
  - inversion Hb as [|? ? Hn Hl]; subst. simpl in Hn.
    pose proof (attach_one_queue extended fresh n details Hn) as Q.
    destruct (attach_one names entries (extended, fresh) (n, details))
      as [extended1 fresh1] eqn:E.
    simpl in Q. subst fresh1.
    assert (K : forall k, bound_dict extended k -> bound_dict extended1 k).
    { intros k Hk.
      change extended1 with (fst (extended1,
        option_map (skipn (absent_count names [(n, details)])) fresh)).
      rewrite <- E. now apply attach_one_bound. }
    destruct (IH extended1
                (option_map (skipn (absent_count names [(n, details)])) fresh))
      as (I1 & I2 & I3).
    { eapply Forall_impl; [|exact Hl]. intros kv. apply K. }
    repeat split.
    + intros k Hk. simpl in Hk. rewrite I1 by tauto.
      change extended1 with (fst (extended1,
        option_map (skipn (absent_count names [(n, details)])) fresh)).
      rewrite <- E.
      apply (attach_one_other (extended, fresh) (n, details)).
      simpl. intros ->. tauto.
    + intros k Hk. apply I2, K, Hk.
    + rewrite I3, (absent_count_cons (n, details) l).
      destruct fresh as [ids|]; simpl; [|reflexivity].
      now rewrite skipn_skipn, Nat.add_comm.
Qed.

Lemma loop_attach_all l : forall extended fresh,
  Forall (fun kv => is_dict (snd kv)) l ->
  Forall (fun kv => bound_dict extended (fst kv)) l ->
  rfor_each body l (extended, fresh)
  = Ok (fold_left (attach_one names entries) l (extended, fresh)).
Proof.
  induction l as [|[n details] l IH]; intros extended fresh Hd Hb;
    [reflexivity|].
  inversion Hd as [|? ? Hd1 Hd2]; inversion Hb as [|? ? Hb1 Hb2]; subst.
  simpl in Hd1, Hb1. destruct Hb1 as [d Hb1].
  cbn [rfor_each fold_left].
  rewrite (body_attach_one _ _ _ _ _ Hd1 Hb1). cbn [rbind].
  destruct (attach_one names entries (extended, fresh) (n, details))
    as [extended1 fresh1] eqn:E.
  apply IH; [exact Hd2|].
  eapply Forall_impl; [|exact Hb2].
  intros kv Hkv.
  change extended1 with (fst (extended1, fresh1)). rewrite <- E.
  now apply attach_one_bound.
Qed.

End Reattachment.

Lemma attach_one_here names entries extended fresh n details d :
  lookup n extended = Some (JDict d) ->
  lookup n (fst (attach_one names entries (extended, fresh) (n, details)))
  = Some (if is_live names details
          then JDict (dict_set "job_id" (recorded_id entries n) d)
          else match hd_error (queue_of fresh) with
               | Some job_id => JDict (dict_set "job_id" job_id d)
               | None => JDict d
               end).
Proof.
  intros Hd. unfold attach_one. rewrite Hd.
  destruct (is_live names details); simpl fst.
  - apply lookup_dict_set_same.
  - destruct fresh as [[|i rest]|]; simpl; try exact Hd.
    apply lookup_dict_set_same.
Qed.

(** C9.  Reattachment, for workflow definitions and state entries that
    are dictionaries and an inventory that is a list: the loop returns,
    and every desired workflow ends with this under its name: if its
    display name is in the inventory, its job with the identifier the
    state file records under the workflow name ([None] when it records
    none); otherwise its job with the next fresh identifier, the k-th of
    the queue for the k-th workflow outside the inventory; and its job
    as it was when no queue was given or the queue has run out. *)
Theorem C9_reattachment
    (extended workflow_data entries : list (string * json))
    (names : list json) (new_job_ids : option (list json)) :
  NoDup (map fst workflow_data) ->
  Forall (fun kv => is_dict (snd kv)) workflow_data ->
  Forall (fun kv => is_dict (snd kv)) entries ->
  Forall (fun kv => bound_dict extended (fst kv)) workflow_data ->
  exists extended' left_over,
    update_extended_workflow_data_with_job_ids
      extended workflow_data (JDict entries) (JList names) new_job_ids
    = Ok (extended', left_over)
    /\ forall before workflow_name details after d,
         workflow_data = (before ++ (workflow_name, details) :: after)%list ->
         lookup workflow_name extended = Some (JDict d) ->
         lookup workflow_name extended'
         = Some (if is_live names details
                 then JDict (dict_set "job_id" (recorded_id entries workflow_name) d)
                 else match nth_error (queue_of new_job_ids)
                              (absent_count names before) with
                      | Some job_id => JDict (dict_set "job_id" job_id d)
                      | None => JDict d
                      end).
Proof.
  intros Hnd Hwf Hst Hb.
  unfold update_extended_workflow_data_with_job_ids.
  rewrite (loop_attach_all names entries Hst workflow_data extended new_job_ids Hwf Hb).
  destruct (fold_left (attach_one names entries) workflow_data (extended, new_job_ids))
    as [extended' left_over] eqn:E.
  exists extended', left_over. split; [reflexivity|].
  intros before n details after d -> Hd.
  rewrite fold_left_app in E. cbn [fold_left] in E.
  apply Forall_app in Hb. destruct Hb as [Hb1 Hb2].
  inversion Hb2 as [|? ? _ Hb3]; subst.
  rewrite map_app in Hnd. cbn [map fst] in Hnd.
  pose proof (NoDup_remove_2 _ _ _ Hnd) as Hfresh.
  rewrite in_app_iff in Hfresh.
  destruct (attach_all names entries before extended new_job_ids Hb1) as (P1 & P2 & P3).
  destruct (fold_left (attach_one names entries) before (extended, new_job_ids))
    as [extended1 fresh1] eqn:E1.
  cbn [fst snd] in P1, P2, P3.
  assert (H1 : lookup n extended1 = Some (JDict d)).
  { rewrite P1 by tauto. exact Hd. }
  pose proof (attach_one_here names entries extended1 fresh1 n details d H1) as Here.
  assert (B2 : forall k, bound_dict extended1 k ->
                 bound_dict (fst (attach_one names entries (extended1, fresh1) (n, details))) k).
  { intros k. apply (attach_one_bound names entries (extended1, fresh1) (n, details)). }
  destruct (attach_one names entries (extended1, fresh1) (n, details))
    as [extended2 fresh2] eqn:E2.
  cbn [fst] in Here, B2.
  destruct (attach_all names entries after extended2 fresh2) as (Q1 & _ & _).
  { eapply Forall_impl; [|exact Hb3]. intros kv Hkv. apply B2, P2, Hkv. }
  rewrite E in Q1. cbn [fst] in Q1.
  rewrite Q1 by tauto. rewrite Here.
  subst fresh1.
  assert (N : hd_error (queue_of (option_map (skipn (absent_count names before)) new_job_ids))
              = nth_error (queue_of new_job_ids) (absent_count names before)).
  { destruct new_job_ids as [ids|]; simpl.
    - apply hd_error_skipn.
    - now destruct (absent_count names before). }
  now rewrite N.
Qed.

(** ** What reaches the workspace and the bucket *)

Lemma after_requests_nil (w : world) : after_requests w [] = w.
Proof.
  destruct w. unfold after_requests. simpl. now rewrite app_nil_r.
Qed.

Lemma after_requests_app (w : world) (l r : list request) :
  after_requests (after_requests w l) r = after_requests w (l ++ r).
Proof.
  unfold after_requests. simpl. now rewrite app_assoc.
Qed.

Section Silent.
Context {A B : Type}.

Lemma silent_ret (a : A) : silent (ret a).
Proof. intros w. reflexivity. Qed.

Lemma silent_raise (e : exn) : silent (@raise A e).
Proof. intros w. reflexivity. Qed.

Lemma silent_lift (r : result A) : silent (lift r).
Proof. intros w. reflexivity. Qed.

Lemma silent_bind (m : M A) (k : A -> M B) :
  silent m -> (forall a, silent (k a)) -> silent (bind m k).
Proof.
  intros Hm Hk w. unfold bind.
  specialize (Hm w). destruct (m w) as [[a|e|] w']; simpl in *; auto.
  now rewrite Hk.
Qed.

Lemma silent_try_except (m : M A) (handler : exn -> option (M A)) :
  silent m -> (forall e h, handler e = Some h -> silent h) ->
  silent (try_except m handler).
Proof.
  intros Hm Hh w. unfold try_except.
  specialize (Hm w). destruct (m w) as [[a|e|] w']; simpl in *; auto.
  destruct (handler e) as [h|] eqn:E; simpl; auto.
  now rewrite (Hh e h E).
Qed.

End Silent.

Lemma silent_now : silent now.
Proof. intros w. reflexivity. Qed.

Lemma silent_read (bucket key : string) : silent (read_json_file_from_s3 bucket key).
Proof.
  intros w. unfold read_json_file_from_s3.
  destruct (_ || _); [reflexivity|].
  destruct (get_object bucket key w); reflexivity.
Qed.

Lemma silent_write (data : json) (bucket key : string) :
  silent (write_json_to_s3 data bucket key).
Proof.
  intros w. unfold write_json_to_s3.
  destruct (_ || _); [reflexivity|].
  unfold put_object.
  destruct (_ || _); [reflexivity|].
  destruct (lookup bucket (s3 w)); reflexivity.
Qed.

Lemma silent_get_current_version (bucket path : string) :
  silent (get_current_version bucket path).
Proof.
  unfold get_current_version.
  apply silent_try_except.
  - apply silent_bind; [apply silent_read|].
    intros [| | | | |]; try apply silent_ret.
    repeat (apply silent_bind; [apply silent_lift|intros ?]).
    apply silent_ret.
  - intros e h H. destruct e; inversion H; apply silent_ret.
Qed.

Lemma silent_update_state_file (extended : list (string * json)) :
  silent (update_state_file extended).
Proof.
  unfold update_state_file, create_json_with_metadata.
  apply silent_bind; [apply silent_get_current_version|intros cv].
  apply silent_bind.
  { apply silent_bind; [apply silent_lift|intros v].
    apply silent_bind; [apply silent_now|intros t]. apply silent_ret. }
  intros json_data.
  apply silent_bind; [apply silent_lift|intros v].
  apply silent_bind; [apply silent_write|intros _].
  apply silent_bind; [apply silent_write|intros _].
  apply silent_ret.
Qed.

(** The update batch: every item is sent, whatever the answers. *)
Lemma update_jobs_sends (url : string) (items : list (json * json)) :
  forall (success : bool) (w : world),
  exists status,
    for_each
      (fun success '(job_id, job_data) =>
         (response <- http (Post url
                              (JDict [("job_id", job_id); ("new_settings", job_data)])) ;;
          match response with
          | HttpResponse status _ => if status =? 200 then ret success else ret false
          | HttpError => ret false
          end)%monad)
      items success w
    = (Ok status,
       after_requests w
         (map (fun it => Post url (JDict [("job_id", fst it); ("new_settings", snd it)]))
            items)).
Proof.
  induction items as [|[job_id job_data] items IH]; intros success w.
  - exists success. simpl. now rewrite after_requests_nil.
  - cbn [for_each map fst snd].
    unfold bind at 1. unfold bind at 1. unfold http at 1.
    fold (after_requests w [Post url (JDict [("job_id", job_id); ("new_settings", job_data)])]).
    set (w1 := after_requests w _).
    destruct (server w (sent w) _) as [|status body].
    + unfold ret at 1.
      destruct (IH false w1) as [st Hst]. exists st.
      rewrite Hst. unfold w1. now rewrite after_requests_app.
    + destruct (status =? 200); unfold ret at 1;
        [destruct (IH success w1) as [st Hst] | destruct (IH false w1) as [st Hst]];
        exists st; rewrite Hst; unfold w1; now rewrite after_requests_app.
Qed.

Lemma queue_columns (queue : list (string * (json * json))) :
  combine (map (fun e => fst (snd e)) queue) (map (fun e => snd (snd e)) queue)
  = map snd queue.
Proof.
  induction queue as [|[n [i d]] queue IH]; simpl; [reflexivity|].
  now rewrite IH.
Qed.

Lemma update_jobs_queue (queue : list (string * (json * json))) (w : world) :
  exists status,
    update_jobs UPDATE_JOB_ENDPOINT
      (map (fun e => fst (snd e)) queue) (map (fun e => snd (snd e)) queue) w
    = (Ok status, after_requests w (update_batch queue)).
Proof.
  unfold update_jobs. rewrite queue_columns.
  destruct (update_jobs_sends UPDATE_JOB_ENDPOINT (map snd queue) true w) as [st H].
  exists st. rewrite H. unfold update_batch. now rewrite map_map.
Qed.

(** [process_workflow] only reads the bucket. *)
Lemma process_workflow_reads ctp (config : list (string * json)) (w : world) :
  snd (process_workflow ctp config w) = w
  /\ forall w', s3 w' = s3 w ->
       fst (process_workflow ctp config w') = fst (process_workflow ctp config w).
Proof.
  assert (G : forall w0,
             process_workflow ctp config w0
             = (match
                  (state <- py_get (match get_object BUCKET_NAME CURRENT_STATE_FILEPATH w0 with
                                    | Some doc => doc
                                    | None => JNone
                                    end) "config" (JDict []) ;;
                   extended <-
                     rfor_each
                       (fun extended '(workflow_name, workflow_details) =>
                          (data <- render_job ctp workflow_details ;;
                           Ok (dict_set workflow_name data extended))%result)
                       (filter (fun kv => String.prefix "workflow" (fst kv)) config) [] ;;
                   Ok (extended,
                       filter (fun kv => String.prefix "workflow" (fst kv)) config,
                       state))%result
                with r => r end, w0)).
  { intros w0. unfold process_workflow, bind, read_json_file_from_s3, lift, ret.
    change (negb (truthy (JStr BUCKET_NAME))
            || negb (truthy (JStr CURRENT_STATE_FILEPATH))) with false.
    cbv beta iota.
    destruct (get_object BUCKET_NAME CURRENT_STATE_FILEPATH w0) as [doc|];
      (destruct (py_get _ "config" (JDict [])) as [st| |]; cbn [rbind];
       [|reflexivity|reflexivity];
       destruct (rfor_each _ _ _) as [e| |]; reflexivity). }
  split.
  - now rewrite G.
  - intros w' H. rewrite !G. cbn [fst].
    unfold get_object. now rewrite H.
Qed.

(** Phase A sends its queue as one batch and nothing else. *)
Lemma update_jobs_workflow_sent extended workflow_data state existing queue w :
  jobs_to_update extended state = Ok queue ->
  sent (snd (update_jobs_workflow extended workflow_data state existing w))
  = (sent w ++ update_batch queue)%list.
Proof.
  intros Hq. unfold update_jobs_workflow.
  unfold bind at 1. unfold lift at 1. rewrite Hq.
  destruct queue as [|q queue].
  - simpl. now rewrite app_nil_r.
  - destruct (update_jobs_queue (q :: queue) w) as [status Hs].
    unfold bind at 1. rewrite Hs.
    destruct status; [|reflexivity].
    set (w1 := after_requests w (update_batch (q :: queue))).
    change (sent w ++ update_batch (q :: queue))%list with (sent w1).
    apply (silent_bind (lift _)); [apply silent_lift|].
    intros [e f].
    apply silent_bind; [apply silent_update_state_file|intros _; apply silent_ret].
Qed.

(** C8.  When the update batch of Phase A returns false, the phase ends
    without raising and without a write: the bucket holds what it held
    and no [put_object] was made.  A repeat run that finds the bucket as
    it was reads the same state file, renders the same jobs and sends the
    same (non-empty) batch of update requests again, whatever the
    workspace has become. *)
Theorem C8_failed_update_batch ctp (config : list (string * json))
    (existing : json) (w : world)
    (extended workflow_data : list (string * json)) (state : json)
    (queue : list (string * (json * json))) :
  fst (process_workflow ctp config w) = Ok (extended, workflow_data, state) ->
  jobs_to_update extended state = Ok queue ->
  fst (update_jobs UPDATE_JOB_ENDPOINT
         (map (fun e => fst (snd e)) queue) (map (fun e => snd (snd e)) queue) w)
  = Ok false ->
  exists w1,
    update_jobs_workflow extended workflow_data state existing w = (Ok extended, w1)
    /\ s3 w1 = s3 w
    /\ written w1 = written w
    /\ sent w1 = (sent w ++ update_batch queue)%list
    /\ update_batch queue <> []
    /\ forall (w2 : world) (existing' : json),
         s3 w2 = s3 w ->
         fst (process_workflow ctp config w2) = Ok (extended, workflow_data, state)
         /\ sent (snd (update_jobs_workflow extended workflow_data state existing' w2))
            = (sent w2 ++ update_batch queue)%list.
Proof.
  intros Hp Hq Hf.
  destruct (update_jobs_queue queue w) as [status Hs].
  rewrite Hs in Hf. cbn [fst] in Hf. injection Hf as ->.
  exists (after_requests w (update_batch queue)).
  assert (Hne : queue <> []).
  { intros ->. cbv in Hs. discriminate. }
  repeat split; try reflexivity.
  - unfold update_jobs_workflow.
    unfold bind at 1. unfold lift at 1. rewrite Hq.
    destruct queue as [|q queue]; [congruence|].
    unfold bind at 1. rewrite Hs. reflexivity.
  - destruct queue; [congruence|discriminate].
  - rewrite <- Hp. now apply process_workflow_reads.
  - now apply update_jobs_workflow_sent.
Qed.

(** ** Phase A: what counts as unchanged *)

(** Dictionaries with different key sets are unequal. *)
Lemma py_eq_extra_key (d e : list (string * json)) (k : string) :
  has_key k e = true -> has_key k d = false -> py_eq (JDict d) (JDict e) = false.
Proof.
  intros He Hd. cbn [py_eq].
  apply andb_false_iff. right.
  unfold has_key in He.
  destruct (lookup k e) as [v|] eqn:E; [|discriminate].
  apply lookup_In in E.
  destruct (forallb _ e) eqn:F; [|reflexivity].
  rewrite forallb_forall in F. specialize (F _ E). simpl in F. congruence.
Qed.

(** A rendered job has no "job_id" key, so it is unequal to every state
    entry that carries one, and is queued under that identifier. *)
Lemma tracked_job_is_queued (workflow_name : string)
    (job entry : list (string * json)) (entries : list (string * json)) :
  has_key "job_id" job = false ->
  has_key "job_id" entry = true ->
  lookup workflow_name entries = Some (JDict entry) ->
  jobs_to_update [(workflow_name, JDict job)] (JDict entries)
  = Ok [(workflow_name, (dict_get "job_id" JNone entry, JDict job))].
Proof.
  intros Hj He Hl.
  unfold jobs_to_update. cbn [rfor_each].
  unfold py_get, dict_get at 1. rewrite Hl. cbn [rbind py_copy].
  rewrite (py_eq_extra_key job entry "job_id" He Hj).
  reflexivity.
Qed.

(** C1 (the code departs from it).  The state file records workflow1
    under job 7 with exactly the job that is desired now; the two are
    compared with the identifier still in the entry, so Phase A finds
    them unequal and queues an update of job 7. *)
Theorem C1_unchanged_job_is_queued :
  py_eq Scenario.alpha_job
    (snd (match py_pop (Scenario.with_job_id (JInt 7) Scenario.alpha_job)
                  "job_id" JNone with
          | Ok popped => popped
          | _ => (JNone, JNone)
          end)) = true
  /\ jobs_to_update Scenario.desired
       (JDict [("workflow1", Scenario.with_job_id (JInt 7) Scenario.alpha_job)])
     = Ok [("workflow1", (JInt 7, Scenario.alpha_job))].
Proof.
  split; reflexivity.
Qed.

(** ** The state file *)

(** Whatever it is given, [write_json_to_s3] stores nothing: it raises
    unless the key is empty, and an empty key is refused by the client. *)
Lemma write_json_to_s3_never_stores (data : json) (bucket key : string) (w : world) :
  write_json_to_s3 data bucket key w
  = (if String.eqb bucket "" || negb (String.eqb key "")
     then Raise ValueError else Ok false, w).
Proof.
  unfold write_json_to_s3, truthy, put_object.
  destruct (String.eqb bucket ""); cbn [negb orb]; [reflexivity|].
  destruct (String.eqb key ""); cbn [negb orb]; reflexivity.
Qed.

(** C3 (the code departs from it).  Writing any snapshot under the
    current key of the bucket raises [ValueError] and leaves the bucket
    as it was, so there is nothing to read back. *)
Theorem C3_write_raises (data : json) (w : world) :
  write_json_to_s3 data BUCKET_NAME CURRENT_STATE_FILEPATH w = (Raise ValueError, w)
  /\ forall version : string,
       write_json_to_s3 data BUCKET_NAME
         (HISTORIC_STATE_FILEPATH ++ "/state_file_" ++ version ++ ".json") w
       = (Raise ValueError, w).
Proof.
  split; [reflexivity|]. intros version. reflexivity.
Qed.

(** [get_current_version] never returns what the state file records. *)
Lemma get_current_version_cases (bucket path : string) (w : world) :
  get_current_version bucket path w = (Ok JNone, w)
  \/ get_current_version bucket path w = (Raise TypeError, w)
  \/ get_current_version bucket path w = (Raise ValueError, w).
Proof.
  unfold get_current_version, try_except, bind, read_json_file_from_s3.
  destruct (_ || _); [right; right; reflexivity|].
  destruct (get_object bucket path w) as [[| | | | |]|]; auto.
Qed.

(** C4 (the code departs from it).  With a state file of any version in
    the bucket, the version read back is [None], so the label of the
    next snapshot is "1.0" again, not the successor of the stored one. *)
Theorem C4_stored_version_ignored (version : string)
    (entries extended : list (string * json))
    (srv : list request -> request -> http_result) :
  let w := Scenario.start srv
             [(CURRENT_STATE_FILEPATH, Scenario.snapshot version entries)] in
  get_current_version BUCKET_NAME CURRENT_STATE_FILEPATH w = (Ok JNone, w)
  /\ fst (create_json_with_metadata extended JNone w)
     = Ok (JDict [("metadata", JDict [("version", JStr "1.0");
                                      ("timestamp", JStr (Scenario.wall_clock 0))]);
                  ("config", JDict extended)]).
Proof.
  split; reflexivity.
Qed.

(** The state file is never written: the update of it always raises. *)
Lemma update_state_file_raises (extended : list (string * json)) (w : world) :
  exists e w', update_state_file extended w = (Raise e, w')
               /\ s3 w' = s3 w /\ written w' = written w.
Proof.
  unfold update_state_file. unfold bind at 1.
  destruct (get_current_version_cases BUCKET_NAME CURRENT_STATE_FILEPATH w)
    as [H|[H|H]]; rewrite H.
  - eexists _, _. split; [reflexivity|]. split; reflexivity.
  - eexists _, _. split; [reflexivity|]. split; reflexivity.
  - eexists _, _. split; [reflexivity|]. split; reflexivity.
Qed.

(** A read that fails ends [process_workflow], in any world. *)
Lemma process_workflow_without_state ctp (config : list (string * json)) (w : world) :
  get_object BUCKET_NAME CURRENT_STATE_FILEPATH w = None ->
  process_workflow ctp config w = (Raise AttributeError, w).
Proof.
  intros H. unfold process_workflow, bind, read_json_file_from_s3.
  change (negb (truthy (JStr BUCKET_NAME))
          || negb (truthy (JStr CURRENT_STATE_FILEPATH))) with false.
  cbv beta iota. rewrite H. reflexivity.
Qed.

(** C5 (the code departs from it).  With no state file to read, reading
    the last-applied configuration raises [AttributeError], and so does
    the run, before any request is sent. *)
Theorem C5_missing_state_raises ctp (config : list (string * json))
    (srv : list request -> request -> http_result) (fuel : nat) :
  let w := Scenario.start srv [] in
  read_json_file_from_s3 BUCKET_NAME CURRENT_STATE_FILEPATH w = (Ok JNone, w)
  /\ process_workflow ctp config w = (Raise AttributeError, w)
  /\ run_workflow ctp fuel config w = (Raise AttributeError, w).
Proof.
  repeat split; reflexivity.
Qed.

(** ** Runs *)

(** C2 (the code departs from it).  The bucket records workflow1 under
    job 7 exactly as desired and the workspace lists the job.  The first
    run still sends an update of job 7, then raises in the write of the
    state file, which leaves the bucket as it was; the second run, on
    the same configuration, sends the same update again. *)
Theorem C2_second_run_updates_again :
  let first := run_workflow Scenario.no_tasks 3 Scenario.config Scenario.settled in
  let second := run_workflow Scenario.no_tasks 3 Scenario.config (snd first) in
  fst first = Raise ValueError
  /\ s3 (snd first) = s3 Scenario.settled
  /\ fst second = Raise ValueError
  /\ Scenario.update_calls (skipn (List.length (sent (snd first))) (sent (snd second)))
     = [Post UPDATE_JOB_ENDPOINT
          (JDict [("job_id", JInt 7); ("new_settings", Scenario.alpha_job)])].
Proof.
  vm_compute. repeat split; reflexivity.
Qed.

(** A list call that fails, by an exception or by a status other than
    200 on its first page, makes [get_jobs] return [None]. *)
Lemma get_jobs_failure (fuel : nat) (url : string) (w : world) :
  match server w (sent w) (Get url JNone) with
  | HttpError => True
  | HttpResponse status _ => status <> 200
  end ->
  get_jobs (S fuel) url w = (Ok JNone, after_requests w [Get url JNone]).
Proof.
  intros H. unfold get_jobs. cbn [get_jobs_loop truthy].
  unfold bind at 1. unfold http at 1.
  fold (after_requests w [Get url JNone]).
  destruct (server w (sent w) (Get url JNone)) as [|status body]; [reflexivity|].
  destruct (Z.eqb_spec status 200); [contradiction|reflexivity].
Qed.

(** Without an inventory the reattachment raises at the first workflow. *)
Lemma reattachment_without_inventory
    (extended : list (string * json)) (workflow_name : string)
    (details : list (string * json)) (rest : list (string * json))
    (state : json) (new_job_ids : option (list json)) :
  update_extended_workflow_data_with_job_ids
    extended ((workflow_name, JDict details) :: rest) state JNone new_job_ids
  = Raise TypeError.
Proof.
  reflexivity.
Qed.

(** C7 (the code departs from it).  The list call fails, and the state
    file records an earlier schedule of workflow1 and a workflow0 that
    is configured no more.  The create phase is skipped, but the update
    phase, once its batch has succeeded, raises [TypeError] when it looks
    a job name up in the missing inventory; so does the delete phase;
    and the run ends there, in the update phase. *)
Theorem C7_phases_raise_without_inventory :
  let w := Scenario.outdated (Scenario.workspace_not_listing 42) in
  get_jobs 3 GET_JOB_ENDPOINT w
  = (Ok JNone, after_requests w [Get GET_JOB_ENDPOINT JNone])
  /\ create_jobs_workflow Scenario.desired Scenario.definitions
       Scenario.outdated_entries JNone w
     = (Ok Scenario.desired, w)
  /\ update_jobs_workflow Scenario.desired Scenario.definitions
       Scenario.outdated_entries JNone w
     = (Raise TypeError,
        after_requests w
          [Post UPDATE_JOB_ENDPOINT
             (JDict [("job_id", JInt 7); ("new_settings", Scenario.alpha_job)])])
  /\ delete_jobs_workflow Scenario.desired Scenario.definitions
       Scenario.outdated_entries JNone w
     = (Raise TypeError,
        after_requests w [Post DELETE_JOB_ENDPOINT (JDict [("job_id", JInt 3)])])
  /\ fst (run_workflow Scenario.no_tasks 3 Scenario.config w) = Raise TypeError
  /\ Scenario.delete_calls (sent (snd (run_workflow Scenario.no_tasks 3 Scenario.config w)))
     = [].
Proof.
  vm_compute. repeat split; reflexivity.
Qed.

(** ** Phase C *)



(** ** The statements at work *)


(** C8 on a workspace that refuses the update of job 7. *)
Lemma C8_failed_update_batch_witness :
  let w := Scenario.outdated (Scenario.workspace_refusing_updates ["alpha"] 42) in
  let queue := [("workflow1", (JInt 7, Scenario.alpha_job))] in
  fst (process_workflow Scenario.no_tasks Scenario.config w)
  = Ok (Scenario.desired, Scenario.definitions, Scenario.outdated_entries)
  /\ jobs_to_update Scenario.desired Scenario.outdated_entries = Ok queue
  /\ fst (update_jobs UPDATE_JOB_ENDPOINT
            (map (fun e => fst (snd e)) queue) (map (fun e => snd (snd e)) queue) w)
     = Ok false
  /\ exists w1,
       update_jobs_workflow Scenario.desired Scenario.definitions
         Scenario.outdated_entries (JList [JStr "alpha"]) w
       = (Ok Scenario.desired, w1)
       /\ s3 w1 = s3 w
       /\ written w1 = written w
       /\ sent w1 = (sent w ++ update_batch queue)%list.
Proof.
  intros w queue.
  split; [reflexivity|].
  split; [reflexivity|].
  split; [reflexivity|].
  destruct (C8_failed_update_batch Scenario.no_tasks Scenario.config
              (JList [JStr "alpha"]) w
              Scenario.desired Scenario.definitions Scenario.outdated_entries queue
              eq_refl eq_refl eq_refl)
    as (w1 & H1 & H2 & H3 & H4 & _).
  exists w1. repeat split; assumption.
Defined.

(** C9 with liveNames = {"jobA"} and the state file carrying job 7 for
    workflowA: workflowA gets 7, and the fresh identifier 99 goes to
    workflowB. *)
Lemma C9_reattachment_witness :
  NoDup (map fst Scenario.two_definitions)
  /\ Forall (fun kv => is_dict (snd kv)) Scenario.two_definitions
  /\ Forall (fun kv => is_dict (snd kv)) Scenario.recorded_a
  /\ Forall (fun kv => bound_dict Scenario.two_desired (fst kv)) Scenario.two_definitions
  /\ exists extended' left_over,
       update_extended_workflow_data_with_job_ids
         Scenario.two_desired Scenario.two_definitions
         (JDict Scenario.recorded_a) (JList [JStr "jobA"]) (Some [JInt 99])
       = Ok (extended', left_over)
       /\ lookup "workflowA" extended'
          = Some (JDict [("name", JStr "jobA"); ("job_id", JInt 7)])
       /\ lookup "workflowB" extended'
          = Some (JDict [("name", JStr "jobB"); ("job_id", JInt 99)]).
Proof.
  assert (H1 : NoDup (map fst Scenario.two_definitions)).
  { repeat constructor; simpl; intuition discriminate. }
  assert (H2 : Forall (fun kv => is_dict (snd kv)) Scenario.two_definitions).
  { repeat constructor; eexists; reflexivity. }
  assert (H3 : Forall (fun kv => is_dict (snd kv)) Scenario.recorded_a).
  { repeat constructor; eexists; reflexivity. }
  assert (H4 : Forall (fun kv => bound_dict Scenario.two_desired (fst kv))
                 Scenario.two_definitions).
  { repeat constructor; eexists; reflexivity. }
  repeat split; try assumption.
  destruct (C9_reattachment Scenario.two_desired Scenario.two_definitions
              Scenario.recorded_a [JStr "jobA"] (Some [JInt 99]) H1 H2 H3 H4)
    as (extended' & left_over & Heq & Hall).
  exists extended', left_over.
  split; [exact Heq|]. split.
  - exact (Hall [] "workflowA" _ [("workflowB", JDict [("job_name", JStr "jobB")])]
             Scenario.job_a eq_refl eq_refl).
  - exact (Hall [("workflowA", JDict [("job_name", JStr "jobA")])] "workflowB" _ []
             Scenario.job_b eq_refl eq_refl).
Defined.

(** * Further properties of the package *)

(** ** The sequence of version labels *)

(** Starting from no version, the labels run 1.0, 1.1, ..., 1.9, 2.0, ...:
    the (n+1)-th label has major 1 + n / 10 and minor n mod 10. *)
Theorem version_sequence (n : nat) :
  nth_version n = Ok (label (1 + Z.of_nat n / 10, Z.of_nat n mod 10)).
Proof.
  induction n as [|n IH].
  - reflexivity.
  - cbn [nth_version]. rewrite IH. cbn [rbind].
    rewrite (generate_version_label (1 + Z.of_nat n / 10, Z.of_nat n mod 10)).
    f_equal. f_equal. cbn [fst snd]. unfold successor.
    rewrite Nat2Z.inj_succ.
    pose proof (Z.div_mod (Z.of_nat n) 10 ltac:(lia)) as D.
    pose proof (Z.mod_pos_bound (Z.of_nat n) 10 ltac:(lia)) as B.
    pose proof (Z.div_mod (Z.succ (Z.of_nat n)) 10 ltac:(lia)) as D'.
    pose proof (Z.mod_pos_bound (Z.succ (Z.of_nat n)) 10 ltac:(lia)) as B'.
    destruct (Z.eqb_spec (Z.of_nat n mod 10) 9) as [E|E]; f_equal; lia.
Qed.

(** ** The batches sent to the workspace *)

Lemma answers_app srv (history l r : list request) :
  answers srv history (l ++ r)
  = (answers srv history l ++ answers srv (history ++ l) r)%list.
Proof.
  revert history.
  induction l as [|x l IH]; intros history; cbn [answers app].
  - now rewrite app_nil_r.
  - rewrite IH. now rewrite <- app_assoc.
Qed.

Lemma for_each_ext {A S : Type} (f g : S -> A -> M S) (l : list A) :
  (forall s x w, f s x w = g s x w) ->
  forall s w, for_each f l s w = for_each g l s w.
Proof.
  intros E. induction l as [|x l IH]; intros s w; cbn [for_each]; [reflexivity|].
  unfold bind. rewrite E.
  destruct (g s x w) as [[s'| |] w']; try reflexivity. apply IH.
Qed.

(** An update or delete loop: every item is sent, and the flag that
    comes out is the one that went in, lowered by any answer that is not
    a 200. *)
Lemma batch_loop {A : Type} (mk : A -> request) (items : list A) :
  forall (success : bool) (w : world),
    for_each
      (fun (success : bool) (item : A) =>
         (response <- http (mk item) ;;
          match response with
          | HttpResponse status _ => if status =? 200 then ret success else ret false
          | HttpError => ret false
          end)%monad)
      items success w
    = (Ok (success && forallb accepted (answers (server w) (sent w) (map mk items))),
       after_requests w (map mk items)).
Proof.
  induction items as [|item items IH]; intros success w.
  - cbn. rewrite after_requests_nil. now rewrite andb_true_r.
  - cbn [for_each map answers forallb].
    unfold bind at 1. unfold bind at 1. unfold http at 1.
    fold (after_requests w [mk item]).
    destruct (server w (sent w) (mk item)) as [|status body]; cbn [accepted].
    + unfold ret at 1. rewrite IH, after_requests_app.
      cbn [app]. now rewrite andb_false_r.
    + destruct (status =? 200); unfold ret at 1; rewrite IH, after_requests_app;
        cbn [app andb]; [reflexivity|now rewrite andb_false_r].
Qed.

(** [update_jobs] pairs identifiers and settings by position, as far as
    the shorter list goes, sends every pair whatever the earlier answers
    were, and returns whether every answer was a 200. *)
Theorem update_jobs_all_attempted (url : string) (job_ids jobs_update_data : list json)
    (w : world) :
  let requests :=
    map (fun it => Post url (JDict [("job_id", fst it); ("new_settings", snd it)]))
      (combine job_ids jobs_update_data) in
  update_jobs url job_ids jobs_update_data w
  = (Ok (forallb accepted (answers (server w) (sent w) requests)),
     after_requests w requests).
Proof.
  cbv zeta. unfold update_jobs.
  rewrite <- (andb_true_l (forallb _ _)).
  rewrite <- (batch_loop
                (fun it => Post url (JDict [("job_id", fst it); ("new_settings", snd it)]))
                (combine job_ids jobs_update_data) true w).
  apply for_each_ext. intros s [job_id job_data] w0. reflexivity.
Qed.

Lemma delete_jobs_status (url : string) (jobs_ids : list json) (w : world) :
  let requests := map (fun job_id => Post url (JDict [("job_id", job_id)])) jobs_ids in
  delete_jobs url jobs_ids w
  = (Ok (forallb accepted (answers (server w) (sent w) requests)),
     after_requests w requests).
Proof.
  cbv zeta. unfold delete_jobs.
  rewrite <- (andb_true_l (forallb _ _)).
  rewrite <- (batch_loop (fun job_id => Post url (JDict [("job_id", job_id)]))
                jobs_ids true w).
  apply for_each_ext. intros s job_id w0.
  unfold bind. destruct (http _ w0) as [[[|status body]| |] w1]; try reflexivity.
  destruct (status =? 200); reflexivity.
Qed.

(** [delete_jobs] sends one request for each identifier, [None]
    identifiers too, whatever the earlier answers were, and returns
    whether every answer was a 200. *)
Theorem delete_jobs_all_attempted (url : string) (jobs_ids : list json) (w : world) :
  let requests := map (fun job_id => Post url (JDict [("job_id", job_id)])) jobs_ids in
  delete_jobs url jobs_ids w
  = (Ok (forallb accepted (answers (server w) (sent w) requests)),
     after_requests w requests).
Proof.
  exact (delete_jobs_status url jobs_ids w).
Qed.

(** ** Removed workflows *)

Lemma removed_loop (extended : list (string * json)) (entries : list (string * json)) :
  Forall (fun kv => has_key (fst kv) extended = false -> is_dict (snd kv)) entries ->
  forall acc : list json,
    rfor_each
      (fun (removed_jobs_ids : list json) '(workflow_name, workflow_details) =>
         if negb (has_key workflow_name extended) then
           (job_id <- py_get workflow_details "job_id" JNone ;;
            Ok (removed_jobs_ids ++ [job_id])%list)%result
         else Ok removed_jobs_ids)
      entries acc
    = Ok (acc ++ map (fun kv => entry_job_id (snd kv))
                   (filter (fun kv => negb (has_key (fst kv) extended)) entries))%list.
Proof.
  induction 1 as [|[n e] entries Hn _ IH]; intros acc; cbn [rfor_each filter map fst snd].
  - now rewrite app_nil_r.
  - cbn [fst snd] in Hn.
    destruct (has_key n extended); cbn [negb].
    + cbn [rbind]. apply IH.
    + destruct (Hn eq_refl) as [d ->]. cbn [py_get rbind].
      rewrite IH. cbn [map entry_job_id snd]. now rewrite <- app_assoc.
Qed.

(** [identify_removed_jobs] returns, in the order of the state file, the
    identifier of every entry whose workflow name is not configured any
    more, [None] for an entry without identifier, and nothing else.  The
    entries it reports must be dictionaries; those still configured are
    not looked into. *)
Theorem identify_removed_jobs_spec (extended entries : list (string * json)) :
  Forall (fun kv => has_key (fst kv) extended = false -> is_dict (snd kv)) entries ->
  identify_removed_jobs extended (JDict entries)
  = Ok (map (fun kv => entry_job_id (snd kv))
          (filter (fun kv => negb (has_key (fst kv) extended)) entries)).
Proof.
  intros H. unfold identify_removed_jobs.
  now rewrite (removed_loop extended entries H []).
Qed.

(** lastSnapshot = {A: id1, B: id2} and desired = {A}: the result is [id2]. *)
Lemma identify_removed_jobs_spec_witness :
  let extended := [("workflowA", JDict [("name", JStr "a")])] in
  let entries := [("workflowA", JDict [("name", JStr "a"); ("job_id", JInt 1)]);
                  ("workflowB", JDict [("name", JStr "b"); ("job_id", JInt 2)])] in
  Forall (fun kv => has_key (fst kv) extended = false -> is_dict (snd kv)) entries
  /\ identify_removed_jobs extended (JDict entries) = Ok [JInt 2].
Proof.
  intros extended entries.
  assert (H : Forall (fun kv => has_key (fst kv) extended = false -> is_dict (snd kv))
                entries).
  { repeat constructor; intros _; eexists; reflexivity. }
  split; [exact H|].
  exact (identify_removed_jobs_spec extended entries H).
Defined.

(** Phase B sends one delete request for each removed identifier and
    nothing else, whether or not it then raises. *)
Theorem delete_jobs_workflow_sent extended workflow_data state existing removed w :
  identify_removed_jobs extended state = Ok removed ->
  sent (snd (delete_jobs_workflow extended workflow_data state existing w))
  = (sent w ++ delete_batch removed)%list.
Proof.
  intros Hr. unfold delete_jobs_workflow.
  unfold bind at 1. unfold lift at 1. rewrite Hr.
  destruct removed as [|r removed].
  - simpl. now rewrite app_nil_r.
  - unfold bind at 1. rewrite delete_jobs_status.
    fold (delete_batch (r :: removed)).
    destruct (forallb accepted _); [|reflexivity].
    set (w1 := after_requests w (delete_batch (r :: removed))).
    change (sent w ++ delete_batch (r :: removed))%list with (sent w1).
    apply (silent_bind (lift _)); [apply silent_lift|].
    intros [e f].
    apply silent_bind; [apply silent_update_state_file|intros _; apply silent_ret].
Qed.

Lemma delete_jobs_workflow_sent_witness :
  let w := Scenario.outdated (Scenario.workspace ["alpha"] 42) in
  identify_removed_jobs Scenario.desired Scenario.outdated_entries = Ok [JInt 3]
  /\ sent (snd (delete_jobs_workflow Scenario.desired Scenario.definitions
                  Scenario.outdated_entries (JList [JStr "alpha"]) w))
     = [Post DELETE_JOB_ENDPOINT (JDict [("job_id", JInt 3)])].
Proof.
  intros w. split; [reflexivity|].
  exact (delete_jobs_workflow_sent Scenario.desired Scenario.definitions
           Scenario.outdated_entries (JList [JStr "alpha"]) [JInt 3] w eq_refl).
Defined.

(** ** The create batch *)

Lemma create_loop (names : list json) (url : string) (jobs : list json) :
  Forall (fun job => job_name_of job <> None) jobs ->
  forall (acc : list json) (w : world),
    Forall object_if_accepted
      (answers (server w) (sent w) (map (Post url) (filter (unlisted names) jobs))) ->
    for_each
      (fun (new_job_ids : list json) data =>
         (job_name <- lift (py_subscript data "name") ;;
          present <- lift (py_in job_name (JList names)) ;;
          if negb present then
            response <- http (Post url data) ;;
            match response with
            | HttpResponse status body =>
                if status =? 200 then
                  new_job_id <- lift (py_get body "job_id" JNone) ;;
                  if truthy new_job_id then ret (new_job_ids ++ [new_job_id])%list
                  else ret new_job_ids
                else ret new_job_ids
            | HttpError => ret new_job_ids
            end
          else ret new_job_ids)%monad)
      jobs acc w
    = (Ok (acc ++ flat_map new_id
                    (answers (server w) (sent w)
                       (map (Post url) (filter (unlisted names) jobs))))%list,
       after_requests w (map (Post url) (filter (unlisted names) jobs))).
Proof.
  induction 1 as [|job jobs Hn _ IH]; intros acc w Hb.
  - cbn. rewrite after_requests_nil. now rewrite app_nil_r.
  - cbn [for_each filter] in Hb |- *.
    destruct job as [| | | | |d]; try (now cbn in Hn).
    cbn [job_name_of] in Hn.
    assert (U : unlisted names (JDict d)
                = match lookup "name" d with
                  | Some n => negb (existsb (py_eq n) names)
                  | None => false
                  end) by reflexivity.
    rewrite U in Hb |- *. clear U.
    unfold bind at 1. unfold bind at 1. unfold lift at 1.
    change (py_subscript (JDict d) "name")
      with (match lookup "name" d with Some x => Ok x | None => Raise KeyError end).
    destruct (lookup "name" d) as [n|]; [|congruence].
    unfold bind at 1. unfold lift at 1.
    change (py_in n (JList names)) with (Ok (existsb (py_eq n) names)).
    destruct (existsb (py_eq n) names); cbn [negb] in Hb |- *.
    + unfold ret at 1. apply IH. exact Hb.
    + cbn [map answers flat_map] in Hb |- *.
      inversion Hb as [|a rest Ha Hrest]; subst.
      unfold bind at 1. unfold http at 1.
      fold (after_requests w [Post url (JDict d)]).
      specialize (IH (acc ++ new_id (server w (sent w) (Post url (JDict d))))%list
                    (after_requests w [Post url (JDict d)]) Hrest).
      change (server (after_requests w [Post url (JDict d)])) with (server w) in IH.
      change (sent (after_requests w [Post url (JDict d)]))
        with (sent w ++ [Post url (JDict d)])%list in IH.
      destruct (server w (sent w) (Post url (JDict d))) as [|status body].
      * cbn [new_id] in IH |- *.
        unfold ret at 1. rewrite app_nil_r in IH. rewrite IH, after_requests_app.
        reflexivity.
      * cbn [object_if_accepted] in Ha.
        destruct (status =? 200) eqn:E.
        -- apply Z.eqb_eq in E. destruct (Ha E) as [b ->]. subst status.
           cbn [new_id Z.eqb Pos.eqb andb] in IH |- *.
           unfold bind at 1. unfold lift at 1.
           change (py_get (JDict b) "job_id" JNone)
             with (Ok (dict_get "job_id" JNone b)).
           cbv beta iota.
           destruct (truthy (dict_get "job_id" JNone b)); cbv iota in IH |- *;
             unfold ret at 1; rewrite ?app_nil_r in IH;
             rewrite IH, after_requests_app;
             cbn [app]; now rewrite <- ?app_assoc.
        -- assert (N : new_id (HttpResponse status body) = []).
           { destruct body; cbn [new_id]; try reflexivity. now rewrite E. }
           rewrite N in IH |- *.
           unfold ret at 1. rewrite app_nil_r in IH.
           rewrite IH, after_requests_app. reflexivity.
Qed.

(** The create loop whatever is answered: it goes on after a failed call,
    a refusal and an answer without identifier, and ends at the first
    200 whose body is not an object. *)
Lemma create_loop_any (names : list json) (url : string) (jobs : list json) :
  Forall (fun job => job_name_of job <> None) jobs ->
  forall (acc : list json) (w : world),
    for_each
      (fun (new_job_ids : list json) data =>
         (job_name <- lift (py_subscript data "name") ;;
          present <- lift (py_in job_name (JList names)) ;;
          if negb present then
            response <- http (Post url data) ;;
            match response with
            | HttpResponse status body =>
                if status =? 200 then
                  new_job_id <- lift (py_get body "job_id" JNone) ;;
                  if truthy new_job_id then ret (new_job_ids ++ [new_job_id])%list
                  else ret new_job_ids
                else ret new_job_ids
            | HttpError => ret new_job_ids
            end
          else ret new_job_ids)%monad)
      jobs acc w
    = match first_unreadable
              (answers (server w) (sent w)
                 (map (Post url) (filter (unlisted names) jobs))) with
      | None =>
          (Ok (acc ++ flat_map new_id
                        (answers (server w) (sent w)
                           (map (Post url) (filter (unlisted names) jobs))))%list,
           after_requests w (map (Post url) (filter (unlisted names) jobs)))
      | Some k =>
          (Raise AttributeError,
           after_requests w
             (firstn (S k) (map (Post url) (filter (unlisted names) jobs))))
      end.
Proof.
  induction 1 as [|job jobs Hn _ IH]; intros acc w.
  - cbn. rewrite after_requests_nil. now rewrite app_nil_r.
  - cbn [for_each filter].
    destruct job as [| | | | |d]; try (now cbn in Hn).
    cbn [job_name_of] in Hn.
    assert (U : unlisted names (JDict d)
                = match lookup "name" d with
                  | Some n => negb (existsb (py_eq n) names)
                  | None => false
                  end) by reflexivity.
    rewrite U. clear U.
    unfold bind at 1. unfold bind at 1. unfold lift at 1.
    change (py_subscript (JDict d) "name")
      with (match lookup "name" d with Some x => Ok x | None => Raise KeyError end).
    destruct (lookup "name" d) as [n|]; [|congruence].
    unfold bind at 1. unfold lift at 1.
    change (py_in n (JList names)) with (Ok (existsb (py_eq n) names)).
    destruct (existsb (py_eq n) names); cbn [negb].
    + unfold ret at 1. apply IH.
    + cbn [map answers flat_map first_unreadable].
      unfold bind at 1. unfold http at 1.
      fold (after_requests w [Post url (JDict d)]).
      specialize (IH (acc ++ new_id (server w (sent w) (Post url (JDict d))))%list
                    (after_requests w [Post url (JDict d)])).
      change (server (after_requests w [Post url (JDict d)])) with (server w) in IH.
      change (sent (after_requests w [Post url (JDict d)]))
        with (sent w ++ [Post url (JDict d)])%list in IH.
      assert (Go : forall ids : list json,
                 new_id (server w (sent w) (Post url (JDict d))) = ids ->
                 unreadable (server w (sent w) (Post url (JDict d))) = false ->
                 for_each
                   (fun (new_job_ids : list json) data =>
                      (job_name <- lift (py_subscript data "name") ;;
                       present <- lift (py_in job_name (JList names)) ;;
                       if negb present then
                         response <- http (Post url data) ;;
                         match response with
                         | HttpResponse status body =>
                             if status =? 200 then
                               new_job_id <- lift (py_get body "job_id" JNone) ;;
                               if truthy new_job_id
                               then ret (new_job_ids ++ [new_job_id])%list
                               else ret new_job_ids
                             else ret new_job_ids
                         | HttpError => ret new_job_ids
                         end
                       else ret new_job_ids)%monad)
                   jobs (acc ++ ids)%list (after_requests w [Post url (JDict d)])
                 = match
                     (if unreadable (server w (sent w) (Post url (JDict d)))
                      then Some O
                      else option_map S
                             (first_unreadable
                                (answers (server w) (sent w ++ [Post url (JDict d)])
                                   (map (Post url) (filter (unlisted names) jobs)))))
                   with
                   | None =>
                       (Ok (acc ++ new_id (server w (sent w) (Post url (JDict d)))
                                ++ flat_map new_id
                                     (answers (server w) (sent w ++ [Post url (JDict d)])
                                        (map (Post url) (filter (unlisted names) jobs))))%list,
                        after_requests w
                          (Post url (JDict d)
                           :: map (Post url) (filter (unlisted names) jobs)))
                   | Some k =>
                       (Raise AttributeError,
                        after_requests w
                          (firstn (S k)
                             (Post url (JDict d)
                              :: map (Post url) (filter (unlisted names) jobs))))
                   end).
      { intros ids Ei Eu. rewrite Eu, Ei. rewrite Ei in IH. rewrite IH.
        destruct (first_unreadable _); cbn [option_map firstn];
          rewrite after_requests_app; cbn [app]; now rewrite ?app_assoc. }
      clear IH.
      destruct (server w (sent w) (Post url (JDict d))) as [|status body] eqn:Ea.
      * unfold ret at 1. rewrite <- (app_nil_r acc) at 1. now apply Go.
      * destruct (status =? 200) eqn:E.
        -- destruct body as [| | | | |b];
             try (cbn [unreadable]; rewrite E; cbn [firstn]; reflexivity).
           unfold bind at 1. unfold lift at 1.
           change (py_get (JDict b) "job_id" JNone)
             with (Ok (dict_get "job_id" JNone b)).
           cbv beta iota.
           destruct (truthy (dict_get "job_id" JNone b)) eqn:T; unfold ret at 1.
           ++ apply Go; [|reflexivity]. cbn [new_id]. now rewrite E, T.
           ++ rewrite <- (app_nil_r acc) at 1.
              apply Go; [|reflexivity]. cbn [new_id]. now rewrite E, T.
        -- unfold ret at 1. rewrite <- (app_nil_r acc) at 1.
           apply Go; destruct body; cbn [new_id unreadable]; now rewrite ?E.
Qed.

Lemma readable_answers (l : list http_result) :
  Forall object_if_accepted l <-> first_unreadable l = None.
Proof.
  induction l as [|a l IH]; cbn [first_unreadable].
  - split; [reflexivity|constructor].
  - split.
    + intros H. inversion H as [|? ? Ha Hl]; subst.
      apply IH in Hl. rewrite Hl.
      destruct a as [|status body]; [reflexivity|].
      cbn [object_if_accepted] in Ha.
      destruct body; cbn [unreadable]; try reflexivity;
        (destruct (Z.eqb_spec status 200) as [E|_]; [|reflexivity]);
        destruct (Ha E) as [o Ho]; discriminate Ho.
    + destruct (unreadable a) eqn:U; [discriminate|].
      destruct (first_unreadable l); [discriminate|]. intros _.
      constructor; [|now apply IH].
      destruct a as [|status body]; [exact I|].
      cbn [object_if_accepted]. intros ->.
      destruct body; try discriminate U. now eexists.
Qed.

(** [create_jobs], given jobs that have a name and an inventory that is a
    list, sends only jobs whose name the inventory does not list, in
    order.  It goes on to the next one after a failed call, after a
    refusal and after a 200 that brings no identifier; a 200 whose body
    is not a JSON object raises [AttributeError] at once, and the jobs
    after it are not sent.  When no answer is of that kind (which is
    what [Forall object_if_accepted] says) every unlisted job is sent and
    the result holds the identifiers that came back with a 200, in that
    order. *)
Theorem create_jobs_skips_listed (names : list json) (url : string)
    (jobs : list json) (w : world) :
  let requests := map (Post url) (filter (unlisted names) jobs) in
  let replies := answers (server w) (sent w) requests in
  Forall (fun job => job_name_of job <> None) jobs ->
  create_jobs (JList names) url jobs w
  = match first_unreadable replies with
    | None => (Ok (flat_map new_id replies), after_requests w requests)
    | Some k => (Raise AttributeError, after_requests w (firstn (S k) requests))
    end
  /\ (Forall object_if_accepted replies <-> first_unreadable replies = None)
  /\ (Forall object_if_accepted replies ->
      create_jobs (JList names) url jobs w
      = (Ok (flat_map new_id replies), after_requests w requests)).
Proof.
  cbv zeta. intros Hn. unfold create_jobs.
  split; [exact (create_loop_any names url jobs Hn [] w)|].
  split; [apply readable_answers|].
  intros Hb. exact (create_loop names url jobs Hn [] w Hb).
Qed.

(** ** Paging through the job list *)

Lemma names_loop (jobs : list json) :
  Forall well_formed_job jobs ->
  forall acc : list json,
    rfor_each
      (fun (acc : list json) job =>
         (settings <- py_get job "settings" (JDict []) ;;
          name <- py_get settings "name" (JStr "unknown job name") ;;
          Ok (acc ++ [name])%list)%result)
      jobs acc
    = Ok (acc ++ map listed_name jobs)%list.
Proof.
  induction 1 as [|job jobs (j & -> & s & Hs) _ IH]; intros acc; cbn [rfor_each map].
  - now rewrite app_nil_r.
  - change (py_get (JDict j) "settings" (JDict []))
      with (Ok (dict_get "settings" (JDict []) j)).
    assert (L : listed_name (JDict j) = dict_get "name" (JStr "unknown job name") s).
    { unfold listed_name. now rewrite Hs. }
    cbn [rbind]. rewrite Hs, L.
    change (py_get (JDict s) "name" (JStr "unknown job name"))
      with (Ok (dict_get "name" (JStr "unknown job name") s)).
    cbn [rbind]. rewrite IH. now rewrite <- app_assoc.
Qed.

Lemma pages_loop (url : string) (pages : list (list (string * json))) :
  forall (extra : nat) (page_token : json) (acc : list json) (w : world),
    (if truthy page_token then page_token else JNone) = page_token ->
    serves (server w) url (sent w) page_token pages ->
    get_jobs_loop (List.length pages + extra) url page_token acc w
    = (Ok (JList (acc ++ flat_map (fun body => map listed_name (page_jobs body)) pages)%list),
       after_requests w (page_requests url page_token pages)).
Proof.
  induction pages as [|body rest IH]; intros extra page_token acc w Ht Hs;
    [destruct Hs|].
  destruct Hs as (Ha & ((jobs & Hj) & Hw) & Hn).
  cbn [List.length Nat.add get_jobs_loop]. rewrite Ht.
  unfold bind at 1. unfold http at 1. rewrite Ha.
  fold (after_requests w [Get url page_token]).
  cbn [Z.eqb Pos.eqb].
  unfold bind at 1. unfold lift at 1.
  change (py_get (JDict body) "jobs" (JList []))
    with (Ok (dict_get "jobs" (JList []) body)).
  cbv beta iota.
  unfold page_jobs in Hw. rewrite Hj in Hw |- *. cbn [py_iter].
  unfold bind at 1. unfold lift at 1.
  rewrite (names_loop jobs Hw acc).
  change (py_get (JDict body) "next_page_token" JNone) with (Ok (next_page_token body)).
  unfold bind at 1. unfold lift at 1.
  cbn [flat_map page_requests].
  unfold page_jobs at 1. rewrite Hj.
  cbv beta iota delta [bind lift].
  destruct rest as [|body' rest].
  - rewrite Hn. cbn [negb flat_map page_requests]. unfold ret.
    now rewrite app_nil_r.
  - destruct Hn as (Hn & Hs'). rewrite Hn. cbn [negb].
    change (List.length rest + extra)%nat
      with (List.length rest + extra)%nat.
    rewrite (IH extra (next_page_token body) (acc ++ map listed_name jobs)%list
               (after_requests w [Get url page_token])).
    + rewrite after_requests_app. cbn [app]. now rewrite <- app_assoc.
    + now rewrite Hn.
    + exact Hs'.
Qed.

(** [get_jobs] on a server that answers with a run of pages: every page
    is fetched with the token the page before it named, and the result is
    the names of all listed jobs in page order, "unknown job name" for a
    job without a name. *)
Theorem get_jobs_pages (url : string) (pages : list (list (string * json)))
    (extra : nat) (w : world) :
  serves (server w) url (sent w) JNone pages ->
  get_jobs (List.length pages + extra) url w
  = (Ok (JList (flat_map (fun body => map listed_name (page_jobs body)) pages)),
     after_requests w (page_requests url JNone pages)).
Proof.
  intros Hs. unfold get_jobs.
  exact (pages_loop url pages extra JNone [] w eq_refl Hs).
Qed.

Lemma failing_pages_loop (url : string) (pages : list (list (string * json))) :
  forall (extra : nat) (page_token : json) (acc : list json) (w : world),
    (if truthy page_token then page_token else JNone) = page_token ->
    fails_after (server w) url (sent w) page_token pages ->
    get_jobs_loop (S (List.length pages) + extra) url page_token acc w
    = (Ok JNone,
       after_requests w
         (page_requests url page_token pages
          ++ [Get url (last_token page_token pages)])).
Proof.
  induction pages as [|body rest IH]; intros extra page_token acc w Ht Hs.
  - cbn [fails_after] in Hs.
    cbn [List.length Nat.add get_jobs_loop page_requests last_token app]. rewrite Ht.
    unfold bind at 1. unfold http at 1.
    fold (after_requests w [Get url page_token]).
    destruct (server w (sent w) (Get url page_token)) as [|status b];
      [reflexivity|].
    cbn [accepted] in Hs. now rewrite Hs.
  - destruct Hs as (Ha & ((jobs & Hj) & Hw) & Hn & Hs').
    change (S (List.length (body :: rest)) + extra)%nat
      with (S (S (List.length rest) + extra)).
    remember (S (List.length rest) + extra)%nat as fuel eqn:F.
    cbn [get_jobs_loop]. rewrite Ht.
    unfold bind at 1. unfold http at 1. rewrite Ha.
    fold (after_requests w [Get url page_token]).
    cbn [Z.eqb Pos.eqb].
    unfold bind at 1. unfold lift at 1.
    change (py_get (JDict body) "jobs" (JList []))
      with (Ok (dict_get "jobs" (JList []) body)).
    cbv beta iota.
    unfold page_jobs in Hw. rewrite Hj in Hw |- *. cbn [py_iter].
    unfold bind at 1. unfold lift at 1.
    rewrite (names_loop jobs Hw acc).
    change (py_get (JDict body) "next_page_token" JNone)
      with (Ok (next_page_token body)).
    cbv beta iota delta [bind lift].
    rewrite Hn. cbn [negb page_requests last_token]. subst fuel.
    rewrite (IH extra (next_page_token body) (acc ++ map listed_name jobs)%list
               (after_requests w [Get url page_token])).
    + rewrite after_requests_app. reflexivity.
    + now rewrite Hn.
    + exact Hs'.
Qed.

(** A list call that fails on any page, by an exception or a status other
    than 200, makes [get_jobs] return [None]: the names of the pages
    fetched before are dropped. *)
Theorem get_jobs_fails_on_any_page (url : string) (pages : list (list (string * json)))
    (extra : nat) (w : world) :
  fails_after (server w) url (sent w) JNone pages ->
  get_jobs (S (List.length pages) + extra) url w
  = (Ok JNone,
     after_requests w
       (page_requests url JNone pages ++ [Get url (last_token JNone pages)])).
Proof.
  intros Hs. unfold get_jobs.
  exact (failing_pages_loop url pages extra JNone [] w eq_refl Hs).
Qed.

(** ** Nothing is ever written *)

Section Keeps.
Context {X : Type} (f : world -> X).

Lemma keeps_ret {A : Type} (a : A) : keeps f (ret a).
Proof. intros w. reflexivity. Qed.

Lemma keeps_raise {A : Type} (e : exn) : keeps f (@raise A e).
Proof. intros w. reflexivity. Qed.

Lemma keeps_lift {A : Type} (r : result A) : keeps f (lift r).
Proof. intros w. reflexivity. Qed.

Lemma keeps_bind {A B : Type} (m : M A) (k : A -> M B) :
  keeps f m -> (forall a, keeps f (k a)) -> keeps f (bind m k).
Proof.
  intros Hm Hk w. unfold bind.
  specialize (Hm w). destruct (m w) as [[a|e|] w']; simpl in *; auto.
  now rewrite Hk.
Qed.

Lemma keeps_try_except {A : Type} (m : M A) (handler : exn -> option (M A)) :
  keeps f m -> (forall e h, handler e = Some h -> keeps f h) ->
  keeps f (try_except m handler).
Proof.
  intros Hm Hh w. unfold try_except.
  specialize (Hm w). destruct (m w) as [[a|e|] w']; simpl in *; auto.
  destruct (handler e) as [h|] eqn:E; simpl; auto.
  now rewrite (Hh e h E).
Qed.

Lemma keeps_for_each {A S : Type} (body : S -> A -> M S) (l : list A) :
  (forall s x, keeps f (body s x)) -> forall s, keeps f (for_each body l s).
Proof.
  intros Hb. induction l as [|x l IH]; intros s; cbn [for_each].
  - apply keeps_ret.
  - apply keeps_bind; [apply Hb|exact IH].
Qed.

End Keeps.

Lemma keeps_bucket_http (r : request) : keeps bucket_state (http r).
Proof. intros w. reflexivity. Qed.

Lemma keeps_bucket_now : keeps bucket_state now.
Proof. intros w. reflexivity. Qed.

Lemma keeps_bucket_read (bucket key : string) :
  keeps bucket_state (read_json_file_from_s3 bucket key).
Proof.
  intros w. unfold read_json_file_from_s3.
  destruct (_ || _); [reflexivity|].
  destruct (get_object bucket key w); reflexivity.
Qed.

Lemma keeps_bucket_write (data : json) (bucket key : string) :
  keeps bucket_state (write_json_to_s3 data bucket key).
Proof.
  intros w. now rewrite write_json_to_s3_never_stores.
Qed.

Lemma keeps_bucket_get_current_version (bucket path : string) :
  keeps bucket_state (get_current_version bucket path).
Proof.
  intros w.
  destruct (get_current_version_cases bucket path w) as [H|[H|H]];
    now rewrite H.
Qed.

Lemma keeps_bucket_update_state_file (extended : list (string * json)) :
  keeps bucket_state (update_state_file extended).
Proof.
  unfold update_state_file, create_json_with_metadata.
  apply keeps_bind; [apply keeps_bucket_get_current_version|intros cv].
  apply keeps_bind.
  { apply keeps_bind; [apply keeps_lift|intros v].
    apply keeps_bind; [apply keeps_bucket_now|intros t]. apply keeps_ret. }
  intros json_data.
  apply keeps_bind; [apply keeps_lift|intros v].
  apply keeps_bind; [apply keeps_bucket_write|intros _].
  apply keeps_bind; [apply keeps_bucket_write|intros _].
  apply keeps_ret.
Qed.

Lemma keeps_bucket_get_jobs_loop (fuel : nat) (url : string) :
  forall (page_token : json) (acc : list json),
    keeps bucket_state (get_jobs_loop fuel url page_token acc).
Proof.
  induction fuel as [|fuel IH]; intros page_token acc; cbn [get_jobs_loop].
  - apply keeps_lift.
  - apply keeps_bind; [apply keeps_bucket_http|].
    intros [|status data]; [apply keeps_ret|].
    destruct (status =? 200); [|apply keeps_ret].
    repeat (apply keeps_bind; [apply keeps_lift|intros ?]).
    destruct (negb _); [apply keeps_ret|apply IH].
Qed.

Lemma keeps_bucket_update_jobs url ids data :
  keeps bucket_state (update_jobs url ids data).
Proof.
  apply keeps_for_each. intros s [i d].
  apply keeps_bind; [apply keeps_bucket_http|].
  intros [|status body]; [apply keeps_ret|].
  destruct (status =? 200); apply keeps_ret.
Qed.

Lemma keeps_bucket_delete_jobs url ids :
  keeps bucket_state (delete_jobs url ids).
Proof.
  apply keeps_for_each. intros s i.
  apply keeps_bind; [apply keeps_bucket_http|].
  intros [|status body]; [apply keeps_ret|].
  destruct (negb _); apply keeps_ret.
Qed.

Lemma keeps_bucket_create_jobs existing url jobs :
  keeps bucket_state (create_jobs existing url jobs).
Proof.
  apply keeps_for_each. intros s job.
  apply keeps_bind; [apply keeps_lift|intros n].
  apply keeps_bind; [apply keeps_lift|intros present].
  destruct (negb present); [|apply keeps_ret].
  apply keeps_bind; [apply keeps_bucket_http|].
  intros [|status body]; [apply keeps_ret|].
  destruct (status =? 200); [|apply keeps_ret].
  apply keeps_bind; [apply keeps_lift|intros i].
  destruct (truthy i); apply keeps_ret.
Qed.

Lemma keeps_bucket_persist
    (r : result (list (string * json) * option (list json))) :
  keeps bucket_state
    ('(extended, _) <- lift r ;; update_state_file extended ;;; ret extended)%monad.
Proof.
  apply keeps_bind; [apply keeps_lift|intros [e l]].
  apply keeps_bind; [apply keeps_bucket_update_state_file|intros _; apply keeps_ret].
Qed.

(** No run writes to the bucket: whatever the configuration, the
    workspace and the fuel, the bucket holds after [run_workflow] what it
    held before, and no [put_object] went through. *)
Theorem run_workflow_never_writes ctp (fuel : nat) (config : list (string * json))
    (w : world) :
  s3 (snd (run_workflow ctp fuel config w)) = s3 w
  /\ written (snd (run_workflow ctp fuel config w)) = written w.
Proof.
  assert (K : keeps bucket_state (run_workflow ctp fuel config)).
  { unfold run_workflow.
    apply keeps_bind.
    { intros w0. now rewrite (proj1 (process_workflow_reads ctp config w0)). }
    intros [[extended workflow_data] state].
    apply keeps_bind; [apply keeps_bucket_get_jobs_loop|intros existing].
    apply keeps_bind.
    { unfold update_jobs_workflow.
      apply keeps_bind; [apply keeps_lift|intros [|q queue]]; [apply keeps_ret|].
      apply keeps_bind; [apply keeps_bucket_update_jobs|intros [|]];
        [apply keeps_bucket_persist|apply keeps_ret]. }
    intros extended1.
    apply keeps_bind.
    { unfold delete_jobs_workflow.
      apply keeps_bind; [apply keeps_lift|intros [|q queue]]; [apply keeps_ret|].
      apply keeps_bind; [apply keeps_bucket_delete_jobs|intros [|]];
        [apply keeps_bucket_persist|apply keeps_ret]. }
    intros extended2.
    apply keeps_bind; [|intros _; apply keeps_ret].
    unfold create_jobs_workflow.
    destruct (truthy existing); [|apply keeps_ret].
    apply keeps_bind; [apply keeps_bucket_create_jobs|intros [|i ids]];
      [apply keeps_ret|apply keeps_bucket_persist]. }
  specialize (K w). unfold bucket_state in K.
  now injection K.
Qed.

(** [update_state_file] never completes: with no state file to read it
    raises [TypeError], with one it raises [ValueError] at the first
    write. *)
Theorem update_state_file_outcome (extended : list (string * json)) (w : world) :
  fst (update_state_file extended w)
  = Raise (match get_object BUCKET_NAME CURRENT_STATE_FILEPATH w with
           | Some JNone | None => TypeError
           | Some _ => ValueError
           end).
Proof.
  unfold update_state_file. unfold bind at 1.
  unfold get_current_version, try_except, bind at 1, read_json_file_from_s3.
  change (negb (truthy (JStr BUCKET_NAME))
          || negb (truthy (JStr CURRENT_STATE_FILEPATH))) with false.
  cbv beta iota.
  destruct (get_object BUCKET_NAME CURRENT_STATE_FILEPATH w) as [[| | | | |]|];
    reflexivity.
Qed.

(** ** The order of the requests of a run *)

Section Emits.
Variable kind : request -> bool.

Lemma emits_silent {A : Type} (m : M A) : silent m -> emits kind m.
Proof.
  intros H w. exists []. split; [|reflexivity].
  now rewrite H, app_nil_r.
Qed.

Lemma emits_bind {A B : Type} (m : M A) (k : A -> M B) :
  emits kind m -> (forall a, emits kind (k a)) -> emits kind (bind m k).
Proof.
  intros Hm Hk w. unfold bind.
  destruct (Hm w) as (l & Hl & Pl).
  destruct (m w) as [[a|e|] w']; cbn [snd] in *; try (exists l; now split).
  destruct (Hk a w') as (l' & Hl' & Pl').
  exists (l ++ l')%list. split.
  - now rewrite Hl', Hl, app_assoc.
  - now rewrite forallb_app, Pl, Pl'.
Qed.

Lemma emits_for_each {A S : Type} (body : S -> A -> M S) (l : list A) :
  (forall s x, emits kind (body s x)) -> forall s, emits kind (for_each body l s).
Proof.
  intros Hb. induction l as [|x l IH]; intros s; cbn [for_each].
  - apply emits_silent. intros w. reflexivity.
  - apply emits_bind; [apply Hb|exact IH].
Qed.

Lemma emits_http (r : request) : kind r = true -> emits kind (http r).
Proof.
  intros H w. exists [r]. split; [reflexivity|].
  cbn. now rewrite H.
Qed.

Lemma emits_ret {A : Type} (a : A) : emits kind (ret a).
Proof. apply emits_silent. intros w. reflexivity. Qed.

Lemma emits_lift {A : Type} (r : result A) : emits kind (lift r).
Proof. apply emits_silent. intros w. reflexivity. Qed.

Lemma emits_persist (r : result (list (string * json) * option (list json))) :
  emits kind
    ('(extended, _) <- lift r ;; update_state_file extended ;;; ret extended)%monad.
Proof.
  apply emits_bind; [apply emits_lift|intros [e l]].
  apply emits_bind; [|intros _; apply emits_ret].
  apply emits_silent, silent_update_state_file.
Qed.

End Emits.

Lemma staged_quiet {A : Type} (kinds : list (request -> bool)) (m : M A) (w : world) :
  sent (snd (m w)) = sent w ->
  exists stages : list (list request),
    sent (snd (m w)) = (sent w ++ List.concat stages)%list
    /\ Forall2 (fun kind stage => forallb kind stage = true) kinds stages.
Proof.
  intros H. exists (map (fun _ => []) kinds). split.
  - rewrite H. induction kinds; cbn; [now rewrite app_nil_r|exact IHkinds].
  - induction kinds; cbn; constructor; auto.
Qed.

Lemma staged_cons_bind {A B : Type} (kind : request -> bool)
    (kinds : list (request -> bool)) (m : M A) (k : A -> M B) :
  emits kind m -> (forall a, staged kinds (k a)) -> staged (kind :: kinds) (bind m k).
Proof.
  intros Hm Hk w. unfold bind.
  destruct (Hm w) as (l & Hl & Pl).
  destruct (m w) as [[a|e|] w'] eqn:E; cbn [snd] in *.
  - destruct (Hk a w') as (stages & Hs & Fs).
    exists (l :: stages). split.
    + cbn [List.concat]. now rewrite Hs, Hl, app_assoc.
    + now constructor.
  - exists (l :: map (fun _ => []) kinds). split.
    + cbn [List.concat]. rewrite Hl. f_equal.
      clear. induction kinds; cbn; [now rewrite app_nil_r|exact IHkinds].
    + constructor; [exact Pl|]. clear. induction kinds; cbn; constructor; auto.
  - exists (l :: map (fun _ => []) kinds). split.
    + cbn [List.concat]. rewrite Hl. f_equal.
      clear. induction kinds; cbn; [now rewrite app_nil_r|exact IHkinds].
    + constructor; [exact Pl|]. clear. induction kinds; cbn; constructor; auto.
Qed.

Lemma staged_silent_bind {A B : Type} (kinds : list (request -> bool))
    (m : M A) (k : A -> M B) :
  silent m -> (forall a, staged kinds (k a)) -> staged kinds (bind m k).
Proof.
  intros Hm Hk w. unfold bind.
  specialize (Hm w).
  destruct (m w) as [[a|e|] w'] eqn:E; cbn [snd] in *.
  - destruct (Hk a w') as (stages & Hs & Fs).
    exists stages. split; [now rewrite Hs, Hm|exact Fs].
  - apply (staged_quiet kinds (fun _ => (@Raise B e, w')) w). exact Hm.
  - apply (staged_quiet kinds (fun _ => (@Diverges B, w')) w). exact Hm.
Qed.

Lemma emits_get_jobs_loop (fuel : nat) (url : string) :
  forall (page_token : json) (acc : list json),
    emits (is_get_to url) (get_jobs_loop fuel url page_token acc).
Proof.
  induction fuel as [|fuel IH]; intros page_token acc; cbn [get_jobs_loop].
  - apply emits_lift.
  - apply emits_bind; [apply emits_http; cbn; apply String.eqb_refl|].
    intros [|status data]; [apply emits_ret|].
    destruct (status =? 200); [|apply emits_ret].
    repeat (apply emits_bind; [apply emits_lift|intros ?]).
    destruct (negb _); [apply emits_ret|apply IH].
Qed.

Lemma emits_update_jobs_workflow extended workflow_data state existing :
  emits (Scenario.is_post_to UPDATE_JOB_ENDPOINT)
    (update_jobs_workflow extended workflow_data state existing).
Proof.
  unfold update_jobs_workflow.
  apply emits_bind; [apply emits_lift|intros [|q queue]]; [apply emits_ret|].
  apply emits_bind; [|intros [|]; [apply emits_persist|apply emits_ret]].
  apply emits_for_each. intros s [i d].
  apply emits_bind; [apply emits_http; reflexivity|].
  intros [|status body]; [apply emits_ret|].
  destruct (status =? 200); apply emits_ret.
Qed.

Lemma emits_delete_jobs_workflow extended workflow_data state existing :
  emits (Scenario.is_post_to DELETE_JOB_ENDPOINT)
    (delete_jobs_workflow extended workflow_data state existing).
Proof.
  unfold delete_jobs_workflow.
  apply emits_bind; [apply emits_lift|intros [|q queue]]; [apply emits_ret|].
  apply emits_bind; [|intros [|]; [apply emits_persist|apply emits_ret]].
  apply emits_for_each. intros s i.
  apply emits_bind; [apply emits_http; reflexivity|].
  intros [|status body]; [apply emits_ret|].
  destruct (negb _); apply emits_ret.
Qed.

Lemma emits_create_jobs_workflow extended workflow_data state existing :
  emits (Scenario.is_post_to CREATE_JOB_ENDPOINT)
    (create_jobs_workflow extended workflow_data state existing).
Proof.
  unfold create_jobs_workflow.
  destruct (truthy existing); [|apply emits_ret].
  apply emits_bind; [|intros [|i ids]; [apply emits_ret|apply emits_persist]].
  apply emits_for_each. intros s job.
  apply emits_bind; [apply emits_lift|intros n].
  apply emits_bind; [apply emits_lift|intros present].
  destruct (negb present); [|apply emits_ret].
  apply emits_bind; [apply emits_http; reflexivity|].
  intros [|status body]; [apply emits_ret|].
  destruct (status =? 200); [|apply emits_ret].
  apply emits_bind; [apply emits_lift|intros i].
  destruct (truthy i); apply emits_ret.
Qed.

(** The requests of a run come in this order, wherever the run ends:
    list calls to the get endpoint, then updates only, then deletes only,
    then creates only; and a run sends nothing else. *)
Theorem run_workflow_request_order ctp (fuel : nat) (config : list (string * json))
    (w : world) :
  exists gets updates deletes creates : list request,
    sent (snd (run_workflow ctp fuel config w))
    = (sent w ++ gets ++ updates ++ deletes ++ creates)%list
    /\ forallb (is_get_to GET_JOB_ENDPOINT) gets = true
    /\ forallb (Scenario.is_post_to UPDATE_JOB_ENDPOINT) updates = true
    /\ forallb (Scenario.is_post_to DELETE_JOB_ENDPOINT) deletes = true
    /\ forallb (Scenario.is_post_to CREATE_JOB_ENDPOINT) creates = true.
Proof.
  assert (S : staged [is_get_to GET_JOB_ENDPOINT;
                      Scenario.is_post_to UPDATE_JOB_ENDPOINT;
                      Scenario.is_post_to DELETE_JOB_ENDPOINT;
                      Scenario.is_post_to CREATE_JOB_ENDPOINT]
                (run_workflow ctp fuel config)).
  { unfold run_workflow.
    apply staged_silent_bind.
    { intros w0. now rewrite (proj1 (process_workflow_reads ctp config w0)). }
    intros [[extended workflow_data] state].
    apply staged_cons_bind; [apply emits_get_jobs_loop|intros existing].
    apply staged_cons_bind; [apply emits_update_jobs_workflow|intros extended1].
    apply staged_cons_bind; [apply emits_delete_jobs_workflow|intros extended2].
    apply staged_cons_bind; [apply emits_create_jobs_workflow|intros _].
    intros w0. exists []. split; [cbn; now rewrite app_nil_r|constructor]. }
  destruct (S w) as (stages & Hs & Fs).
  inversion Fs as [|? g ? r1 Pg F1]; subst.
  inversion F1 as [|? u ? r2 Pu F2]; subst.
  inversion F2 as [|? d ? r3 Pd F3]; subst.
  inversion F3 as [|? c ? r4 Pc F4]; subst.
  inversion F4; subst.
  exists g, u, d, c. cbn [List.concat] in Hs. rewrite app_nil_r in Hs.
  repeat split; assumption.
Qed.

(** ** Phase A in general *)

Lemma dict_set_fresh {A : Type} (k : string) (v : A) (d : list (string * A)) :
  lookup k d = None -> dict_set k v d = (d ++ [(k, v)])%list.
Proof.
  induction d as [|[k' v'] d IH]; cbn [lookup dict_set app]; [reflexivity|].
  destruct (String.eqb k k'); [discriminate|].
  intros H. now rewrite IH.
Qed.

Lemma lookup_app_none {A : Type} (k : string) (d e : list (string * A)) :
  lookup k d = None -> lookup k (d ++ e) = lookup k e.
Proof.
  induction d as [|[k' v'] d IH]; cbn [lookup app]; [reflexivity|].
  destruct (String.eqb k k'); [discriminate|exact IH].
Qed.

Lemma queue_loop (entries : list (string * json)) :
  Forall (fun kv => is_dict (snd kv)) entries ->
  forall (extended : list (string * json)) (queue : list (string * (json * json))),
    NoDup (map fst extended) ->
    (forall k, In k (map fst extended) -> lookup k queue = None) ->
    rfor_each
      (fun queue '(name, details) =>
         (entry <- py_get (JDict entries) name (JDict []) ;;
          current_sate_data <- py_copy entry ;;
          if py_eq details current_sate_data then Ok queue
          else
            '(job_id, _) <- py_pop current_sate_data "job_id" JNone ;;
            Ok (dict_set name (job_id, details) queue))%result)
      extended queue
    = Ok (queue ++ flat_map (classify entries) extended)%list.
Proof.
  intros He.
  induction extended as [|[n details] extended IH]; intros queue Hnd Hq;
    cbn [rfor_each flat_map].
  - now rewrite app_nil_r.
  - change (py_get (JDict entries) n (JDict []))
      with (Ok (dict_get n (JDict []) entries)).
    cbn [rbind]. unfold classify at 1. cbn [fst snd].
    assert (D : is_dict (dict_get n (JDict []) entries)).
    { unfold dict_get. destruct (lookup n entries) as [e|] eqn:E.
      - apply lookup_In in E. rewrite Forall_forall in He. exact (He _ E).
      - now exists []. }
    destruct D as [e De]. rewrite De. cbn [py_copy rbind].
    inversion Hnd as [|? ? Hn Hnd']; subst.
    destruct (py_eq details (JDict e)).
    + cbn [app]. apply IH; [exact Hnd'|].
      intros k Hk. apply Hq. now right.
    + cbn [py_pop rbind entry_job_id].
      rewrite dict_set_fresh by (apply Hq; now left).
      etransitivity.
      { apply IH; [exact Hnd'|].
        intros k Hk. rewrite lookup_app_none by (apply Hq; now right).
        cbn [lookup].
        destruct (String.eqb_spec k n) as [->|]; [contradiction|reflexivity]. }
      cbn [app]. now rewrite <- app_assoc.
Qed.

Lemma jobs_to_update_classified (extended entries : list (string * json)) :
  NoDup (map fst extended) ->
  Forall (fun kv => is_dict (snd kv)) entries ->
  jobs_to_update extended (JDict entries)
  = Ok (flat_map (classify entries) extended).
Proof.
  intros Hnd He. unfold jobs_to_update.
  rewrite (queue_loop entries He extended [] Hnd); [reflexivity|].
  intros k _. reflexivity.
Qed.

(** The queue of Phase A, for a state file whose entries are
    dictionaries: the desired workflows are taken in their order, and
    each one whose job is not equal to its entry (to the empty dictionary
    when it has none) is queued once, under its name, with the identifier
    of the entry ([None] without one) and the desired job. *)
Theorem jobs_to_update_spec (extended entries : list (string * json)) :
  NoDup (map fst extended) ->
  Forall (fun kv => is_dict (snd kv)) entries ->
  jobs_to_update extended (JDict entries)
  = Ok (flat_map (classify entries) extended).
Proof.
  exact (jobs_to_update_classified extended entries).
Qed.

(** ** Rendering the desired jobs *)

Lemma render_job_fields ctp (workflow_details job : json) :
  render_job ctp workflow_details = Ok job ->
  exists d fields,
    workflow_details = JDict d
    /\ job = JDict fields
    /\ map fst fields = job_keys
    /\ lookup "name" fields = Some (dict_get "job_name" (JStr "") d)
    /\ (exists rest, lookup "schedule" fields
          = Some (JDict (("quartz_cron_expression", dict_get "schedule" (JStr "") d)
                         :: rest)))
    /\ has_key "job_id" fields = false.
Proof.
  unfold render_job. intros H.
  destruct workflow_details as [| | | | |d]; try discriminate.
  change (py_get (JDict d) "tasks" (JList [])) with (Ok (dict_get "tasks" (JList []) d)) in H.
  cbn [rbind] in H.
  destruct (py_iter _) as [task_list| |]; try discriminate. cbn [rbind] in H.
  destruct (rfor_each _ task_list _) as [[[tp es] ef]| |]; try discriminate.
  cbn [rbind] in H.
  change (py_get (JDict d) "job_name" (JStr "")) with (Ok (dict_get "job_name" (JStr "") d)) in H.
  change (py_get (JDict d) "schedule" (JStr "")) with (Ok (dict_get "schedule" (JStr "") d)) in H.
  cbn [rbind] in H. injection H as <-.
  eexists d, _. repeat split. eexists. reflexivity.
Qed.

(** A rendered job has the same nine keys whatever the definition, takes
    its name and its schedule from the definition (the empty string when
    the definition has none), and has no "job_id". *)
Theorem render_job_shape ctp (workflow_details job : json) :
  render_job ctp workflow_details = Ok job ->
  exists d fields,
    workflow_details = JDict d
    /\ job = JDict fields
    /\ map fst fields = job_keys
    /\ lookup "name" fields = Some (dict_get "job_name" (JStr "") d)
    /\ (exists rest, lookup "schedule" fields
          = Some (JDict (("quartz_cron_expression", dict_get "schedule" (JStr "") d)
                         :: rest)))
    /\ has_key "job_id" fields = false.
Proof.
  exact (render_job_fields ctp workflow_details job).
Qed.

Lemma render_loop ctp (workflow_data : list (string * json)) :
  forall acc extended : list (string * json),
    NoDup (map fst workflow_data) ->
    (forall k, In k (map fst workflow_data) -> lookup k acc = None) ->
    rfor_each
      (fun extended '(workflow_name, workflow_details) =>
         (data <- render_job ctp workflow_details ;;
          Ok (dict_set workflow_name data extended))%result)
      workflow_data acc = Ok extended ->
    exists jobs,
      Forall2 (fun kv job => render_job ctp (snd kv) = Ok job) workflow_data jobs
      /\ extended = (acc ++ combine (map fst workflow_data) jobs)%list.
Proof.
  induction workflow_data as [|[n details] workflow_data IH];
    intros acc extended Hnd Hq H; cbn [rfor_each] in H.
  - injection H as <-. exists []. split; [constructor|]. now rewrite app_nil_r.
  - destruct (render_job ctp details) as [job| |] eqn:R; try discriminate.
    cbn [rbind] in H.
    cbn [map fst] in Hq, Hnd.
    rewrite dict_set_fresh in H by (apply Hq; now left).
    inversion Hnd as [|? ? Hn Hnd']; subst.
    assert (Hq' : forall k, In k (map fst workflow_data) ->
                    lookup k (acc ++ [(n, job)]) = None).
    { intros k Hk. rewrite lookup_app_none by (apply Hq; now right).
      cbn [lookup].
      destruct (String.eqb_spec k n) as [->|]; [contradiction|reflexivity]. }
    destruct (IH _ _ Hnd' Hq' H) as (jobs & F & E).
    exists (job :: jobs). split; [now constructor|].
    rewrite E. cbn [map fst combine]. now rewrite <- app_assoc.
Qed.

Lemma process_workflow_ok ctp (config : list (string * json)) (w w' : world)
    (extended workflow_data : list (string * json)) (state : json) :
  NoDup (map fst config) ->
  process_workflow ctp config w = (Ok (extended, workflow_data, state), w') ->
  w' = w
  /\ workflow_data = filter (fun kv => String.prefix "workflow" (fst kv)) config
  /\ map fst extended = map fst workflow_data
  /\ Forall2 (fun kv job => fst job = fst kv /\ render_job ctp (snd kv) = Ok (snd job))
       workflow_data extended
  /\ exists current,
       get_object BUCKET_NAME CURRENT_STATE_FILEPATH w = Some (JDict current)
       /\ state = dict_get "config" (JDict []) current.
Proof.
  intros Hnd H.
  pose proof (proj1 (process_workflow_reads ctp config w)) as Hw.
  rewrite H in Hw. cbn [snd] in Hw. subst w'.
  split; [reflexivity|].
  unfold process_workflow, bind, read_json_file_from_s3, lift, ret in H.
  change (negb (truthy (JStr BUCKET_NAME))
          || negb (truthy (JStr CURRENT_STATE_FILEPATH))) with false in H.
  cbv beta iota in H.
  destruct (get_object BUCKET_NAME CURRENT_STATE_FILEPATH w) as [doc|];
    [|discriminate].
  destruct doc as [| | | | |current]; try discriminate.
  cbn [py_get] in H.
  destruct (rfor_each _ _ _) as [e| |] eqn:L; try discriminate.
  injection H as <- <- <-.
  assert (Hnd' : NoDup (map fst (filter (fun kv => String.prefix "workflow" (fst kv))
                                   config))).
  { clear L. induction config as [|[k v] config IH]; cbn; [constructor|].
    inversion Hnd as [|? ? Hk Hc]; subst.
    destruct (prefix "workflow" k); cbn; auto.
    constructor; auto.
    intros Hin. apply Hk. clear -Hin.
    induction config as [|[k' v'] config IH]; cbn in *; [contradiction|].
    destruct (prefix "workflow" k'); cbn in *; tauto. }
  destruct (render_loop ctp _ [] e Hnd' ltac:(reflexivity) L) as (jobs & F & E).
  cbn [app] in E. subst e.
  assert (Len : List.length jobs
                = List.length (filter (fun kv => String.prefix "workflow" (fst kv)) config)).
  { symmetry. eapply Forall2_length. exact F. }
  repeat split.
  - clear -Len. revert jobs Len.
    induction (filter (fun kv => prefix "workflow" (fst kv)) config) as [|kv l IH];
      intros [|j jobs] Len; cbn in *; try discriminate; [reflexivity|].
    f_equal. apply IH. now injection Len.
  - clear -F. induction F as [|kv job l jobs R _ IH]; cbn; constructor; auto.
  - exists current. split; reflexivity.
Qed.

(** [process_workflow], when it returns: the world is as it was; the
    workflow data are the entries of the configuration whose key starts
    with "workflow", in their order; there is one rendered job for each,
    under the same name and in the same order; and the last-applied
    configuration is the "config" of the state file, the empty dictionary
    when the file has none. *)
Theorem process_workflow_returns ctp (config : list (string * json)) (w w' : world)
    (extended workflow_data : list (string * json)) (state : json) :
  NoDup (map fst config) ->
  process_workflow ctp config w = (Ok (extended, workflow_data, state), w') ->
  w' = w
  /\ workflow_data = filter (fun kv => String.prefix "workflow" (fst kv)) config
  /\ map fst extended = map fst workflow_data
  /\ Forall2 (fun kv job => fst job = fst kv /\ render_job ctp (snd kv) = Ok (snd job))
       workflow_data extended
  /\ exists current,
       get_object BUCKET_NAME CURRENT_STATE_FILEPATH w = Some (JDict current)
       /\ state = dict_get "config" (JDict []) current.
Proof.
  exact (process_workflow_ok ctp config w w' extended workflow_data state).
Qed.

(** Every run queues an update for every configured workflow that the
    state file records with an identifier, whatever the two jobs are: a
    rendered job has no "job_id" key and is compared with the entry as it
    is stored. *)
Theorem tracked_workflows_requeued ctp (config : list (string * json)) (w w' : world)
    (extended workflow_data entries : list (string * json)) :
  NoDup (map fst config) ->
  Forall (fun kv => is_dict (snd kv)) entries ->
  process_workflow ctp config w = (Ok (extended, workflow_data, JDict entries), w') ->
  exists queue,
    jobs_to_update extended (JDict entries) = Ok queue
    /\ forall name job entry,
         In (name, job) extended ->
         lookup name entries = Some (JDict entry) ->
         has_key "job_id" entry = true ->
         In (name, (dict_get "job_id" JNone entry, job)) queue.
Proof.
  intros Hnd He H.
  destruct (process_workflow_ok ctp config w w' _ _ _ Hnd H)
    as (_ & Hwf & Hk & F & _).
  assert (Hnd' : NoDup (map fst extended)).
  { rewrite Hk, Hwf. clear -Hnd.
    induction config as [|[k v] config IH]; cbn; [constructor|].
    inversion Hnd as [|? ? Hk Hc]; subst.
    destruct (prefix "workflow" k); cbn; auto.
    constructor; auto.
    intros Hin. apply Hk. clear -Hin.
    induction config as [|[k' v'] config IH]; cbn in *; [contradiction|].
    destruct (prefix "workflow" k'); cbn in *; tauto. }
  exists (flat_map (classify entries) extended).
  split; [now apply jobs_to_update_classified|].
  intros name job entry Hin Hl Hj.
  apply in_flat_map. exists (name, job). split; [exact Hin|].
  assert (D : dict_get name (JDict []) entries = JDict entry).
  { unfold dict_get. now rewrite Hl. }
  unfold classify. cbn [fst snd]. rewrite D.
  assert (R : exists details, render_job ctp details = Ok job).
  { clear -F Hin. induction F as [|kv j l jobs [_ R] _ IH]; [contradiction|].
    destruct Hin as [->|Hin]; [eexists; exact R|auto]. }
  destruct R as (details & R).
  destruct (render_job_fields ctp details job R) as (d & fields & _ & -> & _ & _ & _ & Nk).
  rewrite (py_eq_extra_key fields entry "job_id" Hj Nk).
  cbn [entry_job_id]. now left.
Qed.

(** ** What the reattachment leaves alone *)

Lemma keys_dict_set {A : Type} (k : string) (v : A) (d : list (string * A)) :
  lookup k d <> None -> map fst (dict_set k v d) = map fst d.
Proof.
  induction d as [|[k' v'] d IH]; cbn [lookup dict_set map fst]; [congruence|].
  destruct (String.eqb k k'); cbn [map fst]; [reflexivity|].
  intros H. now rewrite IH.
Qed.

Lemma attach_one_keys names entries acc kv :
  map fst (fst (attach_one names entries acc kv)) = map fst (fst acc).
Proof.
  destruct acc as [extended fresh], kv as [n details]. unfold attach_one.
  destruct (lookup n extended) as [[| | | | |d]|] eqn:E; try reflexivity.
  destruct (is_live names details); cbn [fst].
  - apply keys_dict_set. congruence.
  - destruct fresh as [[|i rest]|]; cbn [fst]; try reflexivity.
    apply keys_dict_set. congruence.
Qed.

Lemma attach_all_keys names entries l : forall acc,
  map fst (fst (fold_left (attach_one names entries) l acc)) = map fst (fst acc).
Proof.
  induction l as [|kv l IH]; intros acc; cbn [fold_left]; [reflexivity|].
  now rewrite IH, attach_one_keys.
Qed.

(** The reattachment, on inputs of the expected shape, neither adds,
    drops nor reorders workflows, leaves every workflow that is not in
    the workflow data as it was, and takes from the queue of fresh
    identifiers one for each workflow outside the inventory, from the
    front, as long as there are any. *)
Theorem reattachment_frame
    (extended workflow_data entries : list (string * json))
    (names : list json) (new_job_ids : option (list json)) :
  Forall (fun kv => is_dict (snd kv)) workflow_data ->
  Forall (fun kv => is_dict (snd kv)) entries ->
  Forall (fun kv => bound_dict extended (fst kv)) workflow_data ->
  exists extended',
    update_extended_workflow_data_with_job_ids
      extended workflow_data (JDict entries) (JList names) new_job_ids
    = Ok (extended',
          option_map (skipn (absent_count names workflow_data)) new_job_ids)
    /\ map fst extended' = map fst extended
    /\ forall k, ~ In k (map fst workflow_data) ->
         lookup k extended' = lookup k extended.
Proof.
  intros Hwf Hst Hb.
  unfold update_extended_workflow_data_with_job_ids.
  rewrite (loop_attach_all names entries Hst workflow_data extended new_job_ids Hwf Hb).
  destruct (attach_all names entries workflow_data extended new_job_ids Hb)
    as (P1 & _ & P3).
  pose proof (attach_all_keys names entries workflow_data (extended, new_job_ids)) as K.
  destruct (fold_left (attach_one names entries) workflow_data (extended, new_job_ids))
    as [extended' left_over].
  cbn [fst snd] in *. subst left_over.
  exists extended'. repeat split; assumption.
Qed.

Lemma reattachment_frame_witness :
  Forall (fun kv => is_dict (snd kv)) Scenario.two_definitions
  /\ Forall (fun kv => is_dict (snd kv)) Scenario.recorded_a
  /\ Forall (fun kv => bound_dict Scenario.two_desired (fst kv)) Scenario.two_definitions
  /\ exists extended',
       update_extended_workflow_data_with_job_ids
         Scenario.two_desired Scenario.two_definitions
         (JDict Scenario.recorded_a) (JList [JStr "jobA"])
         (Some [JInt 99; JInt 100])
       = Ok (extended', Some [JInt 100])
       /\ map fst extended' = ["workflowA"; "workflowB"].
Proof.
  assert (H2 : Forall (fun kv => is_dict (snd kv)) Scenario.two_definitions).
  { repeat constructor; eexists; reflexivity. }
  assert (H3 : Forall (fun kv => is_dict (snd kv)) Scenario.recorded_a).
  { repeat constructor; eexists; reflexivity. }
  assert (H4 : Forall (fun kv => bound_dict Scenario.two_desired (fst kv))
                 Scenario.two_definitions).
  { repeat constructor; eexists; reflexivity. }
  repeat split; try assumption.
  destruct (reattachment_frame Scenario.two_desired Scenario.two_definitions
              Scenario.recorded_a [JStr "jobA"] (Some [JInt 99; JInt 100]) H2 H3 H4)
    as (extended' & Heq & Hk & _).
  exists extended'. split; [exact Heq|exact Hk].
Defined.

(** ** Task payloads *)

Lemma task_type_of_inv (value : json) (task_type : TaskType) :
  task_type_of value = Ok task_type ->
  value = JStr (match task_type with
                | NOTEBOOK => "NOTEBOOK" | PYTHON => "PYTHON"
                | SQL => "SQL" | DBT => "DBT"
                end).
Proof.
  destruct value as [| | |s| |]; try discriminate. cbn [task_type_of].
  destruct (String.eqb_spec s "NOTEBOOK") as [->|_]; [now intros [= <-]|].
  destruct (String.eqb_spec s "PYTHON") as [->|_]; [now intros [= <-]|].
  destruct (String.eqb_spec s "SQL") as [->|_]; [now intros [= <-]|].
  destruct (String.eqb_spec s "DBT") as [->|_]; [now intros [= <-]|].
  discriminate.
Qed.

(** Whenever [create_task_payload] returns a payload, the task is a
    NOTEBOOK or a PYTHON task and the payload is a notebook task on the
    task's file path, keyed by the task's name: a PYTHON task is built as
    a notebook, and no SQL, DBT or spark-python payload is ever
    returned. *)
Theorem create_task_payload_builds_notebooks load_json_file format_value
    (task_config gcp_connection_required payload : json) :
  create_task_payload load_json_file format_value task_config gcp_connection_required
  = Ok payload ->
  exists t p,
    task_config = JDict t
    /\ payload = JDict p
    /\ (lookup "tasktype" t = Some (JStr "NOTEBOOK")
        \/ lookup "tasktype" t = Some (JStr "PYTHON"))
    /\ lookup "notebook_task" p
       = Some (JDict [("notebook_path", dict_get "filepath" JNone t);
                      ("source", JStr "GIT")])
    /\ lookup "task_key" p = lookup "task_name" t
    /\ lookup "sql_task" p = None
    /\ lookup "dbt_task" p = None
    /\ lookup "spark_python_task" p = None.
Proof.
  unfold create_task_payload. intros H.
  destruct task_config as [| | | | |t]; try discriminate.
  exists t.
  change (py_get (JDict t) "task_name" JNone) with (Ok (dict_get "task_name" JNone t)) in H.
  cbn [rbind] in H.
  destruct (truthy (dict_get "task_name" JNone t)) eqn:Tn; cbn [negb] in H;
    [|discriminate].
  change (py_get (JDict t) "cluster_config_path" JNone)
    with (Ok (dict_get "cluster_config_path" JNone t)) in H.
  cbn [rbind] in H.
  match type of H with
  | rbind ?c _ = _ => destruct c as [cluster_config| |]; try discriminate
  end.
  cbn [rbind py_subscript] in H.
  destruct (lookup "tasktype" t) as [tv|] eqn:Tt; [|discriminate].
  cbn [rbind] in H.
  destruct (task_type_of tv) as [task_type| |] eqn:Ty; try discriminate.
  apply task_type_of_inv in Ty. subst tv.
  cbn [rbind] in H.
  assert (B : payload_builder format_value task_type
              = Builder3 (build_notebook_payload format_value)
              \/ exists f, payload_builder format_value task_type = Builder1 f).
  { destruct task_type; cbn; eauto. }
  destruct B as [B|[f B]]; rewrite B in H; cbn [call3 rbind] in H; [|discriminate].
  unfold build_notebook_payload in H.
  change (py_get (JDict t) "filepath" JNone) with (Ok (dict_get "filepath" JNone t)) in H.
  cbn [rbind] in H.
  destruct (truthy (dict_get "filepath" JNone t)) eqn:Tf; cbn [negb] in H;
    [|discriminate].
  match type of H with
  | rbind (rbind ?c _) _ = _ => destruct c as [cc| |]; try discriminate
  end.
  cbn [rbind] in H.
  assert (Ff : lookup "filepath" t = Some (dict_get "filepath" JNone t)).
  { unfold dict_get in *. destruct (lookup "filepath" t); [reflexivity|discriminate]. }
  cbn [py_subscript] in H. rewrite Ff in H. cbn [rbind py_subscript] in H.
  assert (Fn : lookup "task_name" t = Some (dict_get "task_name" JNone t)).
  { unfold dict_get in *. destruct (lookup "task_name" t); [reflexivity|discriminate]. }
  rewrite Fn in H. cbn [rbind py_get py_in] in H.
  match type of H with
  | rbind ?c _ = _ => destruct c as [libraries| |]; try discriminate
  end.
  cbn [rbind py_update] in H.
  destruct (truthy (dict_get "depends_on" JNone t));
    injection H as <-; eexists; (split; [reflexivity|]);
    (split; [reflexivity|]);
    (split; [destruct task_type; try discriminate; auto|]);
    rewrite Fn; repeat split; reflexivity.
Qed.

(** A SQL or DBT task that has a name and whose cluster configuration,
    if it names one, loads, raises [TypeError]: its builder takes one
    argument and is called with three. *)
Theorem sql_and_dbt_tasks_raise load_json_file format_value
    (t : list (string * json)) (gcp_connection_required : json) :
  truthy (dict_get "task_name" JNone t) = true ->
  (truthy (dict_get "cluster_config_path" JNone t) = false
   \/ exists loaded, load_json_file (dict_get "cluster_config_path" JNone t) = Ok loaded) ->
  (lookup "tasktype" t = Some (JStr "SQL") \/ lookup "tasktype" t = Some (JStr "DBT")) ->
  create_task_payload load_json_file format_value (JDict t) gcp_connection_required
  = Raise TypeError.
Proof.
  intros Hn Hc Ht. unfold create_task_payload.
  change (py_get (JDict t) "task_name" JNone) with (Ok (dict_get "task_name" JNone t)).
  cbn [rbind]. rewrite Hn. cbn [negb].
  change (py_get (JDict t) "cluster_config_path" JNone)
    with (Ok (dict_get "cluster_config_path" JNone t)).
  cbn [rbind].
  assert (C : exists cc,
            (if truthy (dict_get "cluster_config_path" JNone t)
             then match load_json_file (dict_get "cluster_config_path" JNone t) with
                  | Raise FileNotFoundError | Raise JSONDecodeError => Raise ValueError
                  | loaded => loaded
                  end
             else Ok (JDict [])) = Ok cc).
  { destruct Hc as [Hc|[loaded Hc]].
    - rewrite Hc. eexists. reflexivity.
    - rewrite Hc.
      destruct (truthy (dict_get "cluster_config_path" JNone t));
        eexists; reflexivity. }
  destruct C as [cc ->]. cbn [rbind py_subscript].
  destruct Ht as [-> | ->]; reflexivity.
Qed.

Lemma sql_and_dbt_tasks_raise_witness :
  let t := [("task_name", JStr "load"); ("tasktype", JStr "SQL");
            ("filepath", JStr "q.sql"); ("sql_file_path", JStr "q.sql")] in
  truthy (dict_get "task_name" JNone t) = true
  /\ truthy (dict_get "cluster_config_path" JNone t) = false
  /\ lookup "tasktype" t = Some (JStr "SQL")
  /\ create_task_payload (fun _ => Raise FileNotFoundError) py_format (JDict t) JNone
     = Raise TypeError.
Proof.
  intros t. do 3 (split; [reflexivity|]).
  exact (sql_and_dbt_tasks_raise (fun _ => Raise FileNotFoundError) py_format t JNone
           eq_refl (or_introl eq_refl) (or_introl eq_refl)).
Defined.

(** A notebook or Python task with a GCP connection block but without a
    cluster configuration file raises [KeyError]: the Spark settings are
    put into the "spark_conf" of the cluster configuration, which is
    empty when no file was named. *)
Theorem gcp_connection_needs_cluster_config load_json_file format_value
    (t g : list (string * json)) :
  truthy (dict_get "task_name" JNone t) = true ->
  truthy (dict_get "cluster_config_path" JNone t) = false ->
  (lookup "tasktype" t = Some (JStr "NOTEBOOK")
   \/ lookup "tasktype" t = Some (JStr "PYTHON")) ->
  truthy (dict_get "filepath" JNone t) = true ->
  g <> [] ->
  create_task_payload load_json_file format_value (JDict t) (JDict g)
  = Raise KeyError.
Proof.
  intros Hn Hc Ht Hf Hg. unfold create_task_payload.
  change (py_get (JDict t) "task_name" JNone) with (Ok (dict_get "task_name" JNone t)).
  cbn [rbind]. rewrite Hn. cbn [negb].
  change (py_get (JDict t) "cluster_config_path" JNone)
    with (Ok (dict_get "cluster_config_path" JNone t)).
  cbn [rbind]. rewrite Hc. cbn [rbind py_subscript].
  assert (B : exists task_type,
            (v <- match lookup "tasktype" t with
                  | Some x => Ok x
                  | None => Raise KeyError
                  end ;; task_type_of v)%result = Ok task_type
            /\ payload_builder format_value task_type
               = Builder3 (build_notebook_payload format_value)).
  { destruct Ht as [-> | ->]; [exists NOTEBOOK|exists PYTHON]; split; reflexivity. }
  destruct B as (task_type & Ty & B).
  destruct (lookup "tasktype" t) as [tv|]; [|destruct Ht; discriminate].
  cbn [rbind] in Ty |- *. rewrite Ty. cbn [rbind]. rewrite B. cbn [call3].
  unfold build_notebook_payload.
  change (py_get (JDict t) "filepath" JNone) with (Ok (dict_get "filepath" JNone t)).
  cbn [rbind]. rewrite Hf. cbn [negb].
  assert (Tg : truthy (JDict g) = true) by (destruct g; [congruence|reflexivity]).
  rewrite Tg. reflexivity.
Qed.

Lemma gcp_connection_needs_cluster_config_witness :
  let t := [("task_name", JStr "ingest"); ("tasktype", JStr "NOTEBOOK");
            ("filepath", JStr "notebooks/ingest")] in
  let g := [("project_id", JStr "p1")] in
  truthy (dict_get "task_name" JNone t) = true
  /\ truthy (dict_get "cluster_config_path" JNone t) = false
  /\ lookup "tasktype" t = Some (JStr "NOTEBOOK")
  /\ truthy (dict_get "filepath" JNone t) = true
  /\ g <> []
  /\ create_task_payload (fun _ => Raise FileNotFoundError) py_format (JDict t) (JDict g)
     = Raise KeyError.
Proof.
  intros t g. do 4 (split; [reflexivity|]). split; [discriminate|].
  exact (gcp_connection_needs_cluster_config (fun _ => Raise FileNotFoundError)
           py_format t g eq_refl eq_refl (or_introl eq_refl) eq_refl
           ltac:(discriminate)).
Defined.

(** A PYTHON task with a cluster configuration file and a dependency. *)
Lemma create_task_payload_builds_notebooks_witness :
  let t := [("task_name", JStr "clean"); ("tasktype", JStr "PYTHON");
            ("filepath", JStr "jobs/clean.py");
            ("cluster_config_path", JStr "cluster.json");
            ("depends_on", JStr "ingest")] in
  let load := fun _ : json => Ok (JDict [("num_workers", JInt 2)]) in
  create_task_payload load py_format (JDict t) JNone
  = Ok (JDict [("notebook_task",
                JDict [("notebook_path", JStr "jobs/clean.py"); ("source", JStr "GIT")]);
               ("task_key", JStr "clean");
               ("new_cluster", JDict [("num_workers", JInt 2)]);
               ("libraries", JList []);
               ("timeout_seconds", JInt 0);
               ("email_notifications",
                JDict [("on_success", JList []); ("on_failure", JList [])]);
               ("depends_on", JList [JDict [("task_key", JStr "ingest")]])])
  /\ exists p,
       lookup "notebook_task" p
       = Some (JDict [("notebook_path", JStr "jobs/clean.py"); ("source", JStr "GIT")])
       /\ lookup "spark_python_task" p = None.
Proof.
  intros t load. split; [reflexivity|].
  destruct (create_task_payload_builds_notebooks load py_format (JDict t) JNone _ eq_refl)
    as (t' & p & Et & Ep & _ & Hnb & _ & _ & _ & Hpy).
  exists p. injection Et as <-. split; [exact Hnb|exact Hpy].
Defined.

(** ** Tasks and notifications of a rendered job *)

Lemma tasks_loop ctp (tasks : list json) :
  forall tp es ef tp' es' ef' : list json,
    rfor_each
      (fun '(tasks_payload, email_on_success, email_on_failure) task_configurations =>
         (has_gcp <- py_in (JStr "gcp_connection") task_configurations ;;
          task_payload <-
            (if (has_gcp : bool) then
               gcp_connection_required <- py_subscript task_configurations "gcp_connection" ;;
               ctp task_configurations gcp_connection_required
             else ctp task_configurations JNone) ;;
          on_success <- py_get task_configurations "email_on_success" (JList []) ;;
          on_success <- py_iter on_success ;;
          on_failure <- py_get task_configurations "email_on_failure" (JList []) ;;
          on_failure <- py_iter on_failure ;;
          Ok (tasks_payload ++ [task_payload],
              email_on_success ++ on_success,
              email_on_failure ++ on_failure)%list)%result)
      tasks (tp, es, ef) = Ok (tp', es', ef') ->
    exists payloads,
      Forall2 (fun task payload => ctp task (task_gcp task) = Ok payload) tasks payloads
      /\ tp' = (tp ++ payloads)%list
      /\ es' = (es ++ flat_map (task_emails "email_on_success") tasks)%list
      /\ ef' = (ef ++ flat_map (task_emails "email_on_failure") tasks)%list.
Proof.
  induction tasks as [|task tasks IH]; intros tp es ef tp' es' ef' H;
    cbn [rfor_each] in H.
  - injection H as <- <- <-. exists []. rewrite !app_nil_r.
    repeat split. constructor.
  - match type of H with
    | rbind ?c _ = _ => destruct c as [[[tp1 es1] ef1]| |] eqn:Step; try discriminate
    end.
    cbn [rbind] in H.
    destruct (IH _ _ _ _ _ _ H) as (payloads & F & -> & -> & ->). clear IH H.
    assert (S : exists payload,
              ctp task (task_gcp task) = Ok payload
              /\ tp1 = (tp ++ [payload])%list
              /\ es1 = (es ++ task_emails "email_on_success" task)%list
              /\ ef1 = (ef ++ task_emails "email_on_failure" task)%list).
    { destruct task as [| | |s|l|t]; try discriminate.
      - cbn [py_in rbind] in Step.
        destruct (is_substring "gcp_connection" s); cbn [rbind py_subscript] in Step;
          [discriminate|].
        destruct (ctp (JStr s) JNone); discriminate.
      - cbn [py_in rbind] in Step.
        destruct (existsb _ l); cbn [rbind py_subscript] in Step; [discriminate|].
        destruct (ctp (JList l) JNone); discriminate.
      - cbn [py_in rbind task_gcp] in Step. unfold task_emails.
        assert (G : (if has_key "gcp_connection" t
                     then (g <- py_subscript (JDict t) "gcp_connection" ;;
                           ctp (JDict t) g)%result
                     else ctp (JDict t) JNone)
                    = ctp (JDict t) (dict_get "gcp_connection" JNone t)).
        { unfold has_key, dict_get. cbn [py_subscript].
          destruct (lookup "gcp_connection" t); reflexivity. }
        rewrite G in Step.
        destruct (ctp (JDict t) (dict_get "gcp_connection" JNone t)) as [payload| |]
          eqn:P; try discriminate.
        cbn [rbind py_get] in Step.
        destruct (py_iter (dict_get "email_on_success" (JList []) t)) as [s1| |];
          try discriminate.
        cbn [rbind] in Step.
        destruct (py_iter (dict_get "email_on_failure" (JList []) t)) as [f1| |];
          try discriminate.
        cbn [rbind] in Step. injection Step as <- <- <-.
        exists payload. repeat split. exact P. }
    destruct S as (payload & P & -> & -> & ->).
    exists (payload :: payloads). cbn [flat_map].
    rewrite <- !app_assoc. repeat split. now constructor.
Qed.

(** The tasks of a rendered job are the payloads built for the tasks of
    the definition, one for each and in their order, each built with the
    task's own GCP block; and the notification lists of the job are the
    tasks' lists put end to end, in task order, repeated addresses
    kept. *)
Theorem render_job_tasks ctp (d : list (string * json)) (tasks : list json)
    (job : json) :
  render_job ctp (JDict d) = Ok job ->
  dict_get "tasks" (JList []) d = JList tasks ->
  exists payloads fields,
    job = JDict fields
    /\ Forall2 (fun task payload => ctp task (task_gcp task) = Ok payload) tasks payloads
    /\ lookup "tasks" fields = Some (JList payloads)
    /\ lookup "email_notifications" fields
       = Some (JDict [("on_success",
                       JList (flat_map (task_emails "email_on_success") tasks));
                      ("on_failure",
                       JList (flat_map (task_emails "email_on_failure") tasks))]).
Proof.
  unfold render_job. intros H Ht.
  change (py_get (JDict d) "tasks" (JList [])) with (Ok (dict_get "tasks" (JList []) d)) in H.
  cbn [rbind] in H. rewrite Ht in H. cbn [py_iter rbind] in H.
  destruct (rfor_each _ tasks _) as [[[tp es] ef]| |] eqn:L; try discriminate.
  destruct (tasks_loop ctp tasks _ _ _ _ _ _ L) as (payloads & F & -> & -> & ->).
  cbn [rbind py_get app] in H. injection H as <-.
  exists payloads. eexists. repeat split. exact F.
Qed.

(** ** Listing the bucket *)

Lemma split_on_nonempty (sep : ascii) (l : list ascii) : split_on sep l <> [].
Proof.
  destruct l as [|c l]; cbn [split_on]; [discriminate|].
  destruct (Ascii.eqb c sep); [discriminate|].
  destruct (split_on sep l); discriminate.
Qed.

Lemma split_on_no_sep (sep : ascii) (l : list ascii) :
  Forall (fun c => Ascii.eqb c sep = false) l -> split_on sep l = [l].
Proof.
  induction 1 as [|c l Hc _ IH]; cbn [split_on]; [reflexivity|].
  now rewrite Hc, IH.
Qed.

Lemma split_on_with_sep (sep : ascii) (l : list ascii) :
  In sep l -> exists p q qs, split_on sep l = p :: q :: qs.
Proof.
  induction l as [|c l IH]; intros H; [contradiction|]. cbn [split_on].
  destruct (Ascii.eqb_spec c sep) as [->|N].
  - pose proof (split_on_nonempty sep l) as NE.
    destruct (split_on sep l) as [|q qs]; [congruence|]. now exists [], q, qs.
  - destruct H as [->|H]; [congruence|].
    destruct (IH H) as (p & q & qs & ->). now exists (c :: p), q, qs.
Qed.

(** The last piece of a split is free of the separator and ends the
    string, right after a separator if anything is before it. *)
Lemma last_piece (sep : ascii) (l : list ascii) :
  Forall (fun c => Ascii.eqb c sep = false) (List.last (split_on sep l) [])
  /\ exists before,
       l = (before ++ List.last (split_on sep l) [])%list
       /\ (before = [] \/ exists b, before = (b ++ [sep])%list).
Proof.
  induction l as [|c l (IH1 & before & IH2 & IH3)]; cbn [split_on].
  - split; [constructor|]. exists []. split; [reflexivity|now left].
  - pose proof (split_on_nonempty sep l) as NE.
    destruct (Ascii.eqb_spec c sep) as [->|N].
    + destruct (split_on sep l) as [|p ps] eqn:E; [congruence|].
      change (List.last ([] :: p :: ps) []) with (List.last (p :: ps) (@nil ascii)).
      split; [exact IH1|].
      exists (sep :: before). split; [cbn [app]; now f_equal|].
      right. destruct IH3 as [->|[b ->]]; [now exists []|now exists (sep :: b)].
    + destruct (split_on sep l) as [|p [|q qs]] eqn:E; [congruence| |].
      * cbn [List.last] in IH1, IH2 |- *.
        assert (B : before = []).
        { destruct IH3 as [->|[b ->]]; [reflexivity|].
          destruct (split_on_with_sep sep l) as (p' & q' & qs' & E').
          - rewrite IH2, !in_app_iff. cbn. tauto.
          - congruence. }
        subst before. cbn [app] in IH2. subst p.
        split; [constructor; [now apply Ascii.eqb_neq|exact IH1]|].
        exists []. split; [reflexivity|now left].
      * change (List.last ((c :: p) :: q :: qs) []) with (List.last (p :: q :: qs) (@nil ascii)).
        split; [exact IH1|].
        exists (c :: before). split; [cbn [app]; now f_equal|].
        right. destruct IH3 as [->|[b ->]]; [|now exists (c :: b)].
        exfalso. cbn [app] in IH2.
        rewrite (split_on_no_sep sep l) in E by (rewrite IH2; exact IH1).
        discriminate.
Qed.

Lemma basename_after_last_slash (key : string) :
  after_last_slash key (basename key).
Proof.
  unfold after_last_slash, basename. cbv zeta.
  rewrite list_ascii_of_string_of_list_ascii.
  destruct (last_piece "/" (list_ascii_of_string key)) as (F & before & E & B).
  split.
  - intros I. rewrite Forall_forall in F. now apply F in I.
  - destruct B as [->|[dir ->]]; [now left|].
    right. exists dir. now rewrite <- app_assoc in E.
Qed.

Lemma basenames_after_last_slash (keys : list string) :
  Forall2 after_last_slash keys (map basename keys).
Proof.
  induction keys; constructor; [apply basename_after_last_slash|assumption].
Qed.

Lemma keys_loop (objects : list json) :
  forall acc files : list string,
    rfor_each
      (fun (files : list string) obj =>
         (file_path <- py_subscript obj "Key" ;;
          match file_path with
          | JStr file_path => Ok (files ++ [basename file_path])%list
          | _ => Raise AttributeError
          end)%result)
      objects acc = Ok files ->
    files = (acc ++ map basename (flat_map object_key objects))%list.
Proof.
  induction objects as [|obj objects IH]; intros acc files H; cbn [rfor_each] in H.
  - injection H as <-. cbn. now rewrite app_nil_r.
  - destruct obj as [| | | | |o]; try discriminate H.
    cbn [py_subscript] in H. cbn [flat_map object_key].
    destruct (lookup "Key" o) as [[| | |key| |]|]; try discriminate H.
    cbn [rbind] in H. rewrite (IH _ _ H). cbn [app map].
    now rewrite <- app_assoc.
Qed.

Lemma keys_loop_strings (l : list json) :
  (forall x, In x l -> exists s, x = JStr s) ->
  forall acc files : list string,
    rfor_each
      (fun (files : list string) obj =>
         (file_path <- py_subscript obj "Key" ;;
          match file_path with
          | JStr file_path => Ok (files ++ [basename file_path])%list
          | _ => Raise AttributeError
          end)%result)
      l acc = Ok files ->
    files = acc.
Proof.
  destruct l as [|x l]; intros S acc files H; cbn [rfor_each] in H.
  - now injection H as <-.
  - destruct (S x (or_introl eq_refl)) as [s ->]. discriminate H.
Qed.

Lemma pages_keys_loop (pages : list json) :
  forall acc files : list string,
    rfor_each
      (fun (files : list string) page =>
         (has_contents <- py_in (JStr "Contents") page ;;
          if (has_contents : bool) then
            contents <- py_subscript page "Contents" ;;
            objects <- py_iter contents ;;
            rfor_each
              (fun (files : list string) obj =>
                 file_path <- py_subscript obj "Key" ;;
                 match file_path with
                 | JStr file_path => Ok (files ++ [basename file_path])%list
                 | _ => Raise AttributeError
                 end)
              objects files
          else Ok files)%result)
      pages acc = Ok files ->
    files = (acc ++ map basename (flat_map page_keys pages))%list.
Proof.
  induction pages as [|page pages IH]; intros acc files H; cbn [rfor_each] in H.
  - injection H as <-. cbn. now rewrite app_nil_r.
  - match type of H with
    | rbind ?c _ = _ => destruct c as [acc'| |] eqn:Step; try discriminate
    end.
    cbn [rbind] in H. rewrite (IH _ _ H). clear IH H.
    cbn [flat_map]. rewrite map_app, app_assoc. f_equal.
    destruct (py_in (JStr "Contents") page) as [[|]| |] eqn:P; try discriminate;
      cbn [rbind] in Step.
    + destruct page as [| | | | |p]; try discriminate Step.
      cbn [py_subscript page_keys] in Step |- *.
      destruct (lookup "Contents" p) as [contents|]; [|discriminate].
      cbn [rbind] in Step.
      destruct contents as [| | |s|objects|d]; try discriminate Step;
        cbn [py_iter rbind] in Step.
      * rewrite app_nil_r. apply (keys_loop_strings _) in Step; [exact Step|].
        intros x I. apply in_map_iff in I. destruct I as (c & <- & _). now eexists.
      * now apply keys_loop.
      * rewrite app_nil_r. apply (keys_loop_strings _) in Step; [exact Step|].
        intros x I. apply in_map_iff in I. destruct I as (kv & <- & _). now eexists.
    + injection Step as <-.
      assert (K : page_keys page = []).
      { destruct page as [| | | | |p]; try reflexivity.
        cbn [py_in] in P. injection P as P. unfold has_key in P.
        cbn [page_keys]. destruct (lookup "Contents" p); [discriminate|reflexivity]. }
      rewrite K. cbn. now rewrite app_nil_r.
Qed.

(** The names [list_all_objects_in_s3_path] returns are those of the keys
    the listing of the path (closed by a "/") holds, one for each key and
    in the order of the listing, and the name of a key is what stands
    after the key's last "/". *)
Theorem listed_names_are_basenames list_objects_v2 (bucket_name s3_path : string)
    (files : list string) :
  list_all_objects_in_s3_path list_objects_v2 bucket_name s3_path = Ok files ->
  exists pages : list json,
    list_objects_v2 bucket_name (listing_prefix s3_path) = Ok pages
    /\ Forall2 after_last_slash (flat_map page_keys pages) files.
Proof.
  unfold list_all_objects_in_s3_path, listing_prefix.
  destruct (_ || _); [discriminate|].
  destruct (ends_with "/" s3_path); cbn [negb];
    (destruct (list_objects_v2 _ _) as [pages| |]; try discriminate);
    cbn [rbind]; intros H; exists pages; (split; [reflexivity|]);
    apply pages_keys_loop in H; subst files; apply basenames_after_last_slash.
Qed.

From Stdlib Require Import Sorting.Sorted Sorting.Permutation.

Lemma version_loop (files : list string) :
  forall acc fv : list (string * Z),
    rfor_each
      (fun (acc : list (string * Z)) f =>
         if is_version_file f then
           (version <- file_version f ;;
            Ok (acc ++ [(f, version)])%list)%result
         else Ok acc)
      files acc = Ok fv ->
    fv = (acc ++ version_files files)%list.
Proof.
  induction files as [|f files IH]; intros acc fv H; cbn [rfor_each] in H.
  - injection H as <-. unfold version_files. cbn. now rewrite app_nil_r.
  - unfold version_files. cbn [flat_map]. fold (version_files files).
    destruct (is_version_file f).
    + destruct (file_version f) as [v| |]; try discriminate.
      cbn [rbind] in H. rewrite (IH _ _ H). now rewrite <- app_assoc.
    + cbn [rbind] in H. now rewrite (IH _ _ H).
Qed.

(** [get_previous_version_file] does not see the files the state file
    update names: those start with "state_file_", it looks for names that
    start with "sate_file_", and so it returns [None] on a path that
    holds only such files. *)
Theorem previous_version_file_misses_state_files list_objects_v2
    (bucket_name historic_state_path : string) (files : list string) :
  list_all_objects_in_s3_path list_objects_v2 bucket_name historic_state_path
  = Ok files ->
  Forall (fun f => exists version, f = "state_file_" ++ version ++ ".json") files ->
  get_previous_version_file list_objects_v2 bucket_name historic_state_path = Ok None.
Proof.
  intros Hl Hf. unfold get_previous_version_file. rewrite Hl. cbn [rbind].
  assert (L : forall acc,
            rfor_each
              (fun (acc : list (string * Z)) f =>
                 if is_version_file f then
                   (version <- file_version f ;;
                    Ok (acc ++ [(f, version)])%list)%result
                 else Ok acc)
              files acc = Ok acc).
  { clear Hl.
    induction Hf as [|f files [v ->] _ IH]; intros acc; cbn [rfor_each];
      [reflexivity|].
    change (is_version_file ("state_file_" ++ v ++ ".json")) with false.
    cbn [rbind]. apply IH. }
  rewrite L. reflexivity.
Qed.

Lemma previous_version_file_misses_state_files_witness :
  let listing := fun (_ _ : string) =>
    Ok [JDict [("Contents",
                JList [JDict [("Key", JStr "historic_state.json/state_file_1.0.json")];
                       JDict [("Key", JStr "historic_state.json/state_file_1.1.json")]])]] in
  list_all_objects_in_s3_path listing BUCKET_NAME HISTORIC_STATE_FILEPATH
  = Ok ["state_file_1.0.json"; "state_file_1.1.json"]
  /\ get_previous_version_file listing BUCKET_NAME HISTORIC_STATE_FILEPATH = Ok None.
Proof.
  intros listing. split; [reflexivity|].
  apply (previous_version_file_misses_state_files listing BUCKET_NAME
           HISTORIC_STATE_FILEPATH ["state_file_1.0.json"; "state_file_1.1.json"]).
  - reflexivity.
  - constructor; [now exists "1.0"|].
    constructor; [now exists "1.1"|constructor].
Defined.

Lemma insert_by_version_perm x l : Permutation (insert_by_version x l) (x :: l).
Proof.
  induction l as [|y l IH]; cbn [insert_by_version]; [reflexivity|].
  destruct (snd x <? snd y); [reflexivity|].
  rewrite IH. apply perm_swap.
Qed.

Lemma insert_by_version_sorted x l :
  StronglySorted (fun a b => snd a <= snd b) l ->
  StronglySorted (fun a b => snd a <= snd b) (insert_by_version x l).
Proof.
  induction 1 as [|y l Hs IH Hy]; cbn [insert_by_version].
  - repeat constructor.
  - destruct (Z.ltb_spec (snd x) (snd y)) as [L|G].
    + constructor; [now constructor|].
      constructor; [lia|].
      eapply Forall_impl; [|exact Hy]. cbn. intros a Ha. lia.
    + constructor; [exact IH|].
      eapply Permutation_Forall; [symmetry; apply insert_by_version_perm|].
      constructor; [lia|exact Hy].
Qed.

Lemma sort_by_version_spec l :
  Permutation (sort_by_version l) l
  /\ StronglySorted (fun a b => snd a <= snd b) (sort_by_version l).
Proof.
  unfold sort_by_version.
  assert (G : forall acc,
            StronglySorted (fun a b => snd a <= snd b) acc ->
            Permutation (fold_left (fun sorted x => insert_by_version x sorted) l acc)
              (acc ++ l)
            /\ StronglySorted (fun a b => snd a <= snd b)
                 (fold_left (fun sorted x => insert_by_version x sorted) l acc)).
  { induction l as [|x l IH]; intros acc Ha; cbn [fold_left].
    - rewrite app_nil_r. split; [reflexivity|exact Ha].
    - destruct (IH (insert_by_version x acc) (insert_by_version_sorted x acc Ha))
        as [P S].
      split; [|exact S].
      rewrite P, insert_by_version_perm.
      cbn [app]. apply Permutation_middle. }
  destruct (G [] ltac:(constructor)) as [P S]. split; assumption.
Qed.

Lemma sorted_last_two {A : Type} (R : A -> A -> Prop) (pre : list A) (f g : A) :
  StronglySorted R (pre ++ [f; g]) -> Forall (fun x => R x f) pre /\ R f g.
Proof.
  induction pre as [|x pre IH]; cbn [app]; intros H.
  - inversion H as [|? ? _ Hf]; subst. inversion Hf; subst. split; [constructor|assumption].
  - inversion H as [|? ? Hs Hx]; subst.
    destruct (IH Hs) as [F Rfg]. split; [|exact Rfg].
    constructor; [|exact F].
    rewrite Forall_app in Hx. destruct Hx as [_ Hx]. now inversion Hx.
Qed.

(** When [get_previous_version_file] returns a path, it is the listed
    version file with the second highest version, joined to the historic
    path: one version file has a version at least as high, and all the
    others have versions at most as high.  (The version of a file is the
    integer between its last "_" and the next "."; a single version file
    gives no path.) *)
Theorem previous_version_file_is_second_highest list_objects_v2
    (bucket_name historic_state_path path : string) :
  get_previous_version_file list_objects_v2 bucket_name historic_state_path
  = Ok (Some path) ->
  exists files others f g,
    list_all_objects_in_s3_path list_objects_v2 bucket_name historic_state_path
    = Ok files
    /\ Permutation (version_files files) (others ++ [f; g])
    /\ Forall (fun x => snd x <= snd f) others
    /\ snd f <= snd g
    /\ path = path_join historic_state_path (fst f).
Proof.
  unfold get_previous_version_file. intros H.
  destruct (list_all_objects_in_s3_path _ _ _) as [files| |]; try discriminate.
  cbn [rbind] in H.
  destruct (rfor_each _ files []) as [fv| |] eqn:L; try discriminate.
  apply version_loop in L. cbn [app] in L. subst fv.
  cbn [rbind] in H.
  destruct (sort_by_version_spec (version_files files)) as [P S].
  set (sorted := sort_by_version (version_files files)) in *.
  destruct (Nat.ltb_spec 1 (List.length sorted)) as [Len|Len]; [|discriminate].
  destruct (Nat.eqb_spec (List.length sorted) 1) as [E|_]; [lia|].
  assert (D : exists others f g, sorted = (others ++ [f; g])%list
                                 /\ List.length others = (List.length sorted - 2)%nat).
  { clear -Len.
    exists (firstn (List.length sorted - 2) sorted).
    pose proof (firstn_skipn (List.length sorted - 2) sorted) as FS.
    pose proof (length_skipn (List.length sorted - 2) sorted) as LS.
    destruct (skipn (List.length sorted - 2) sorted) as [|f [|g [|h r]]] eqn:Sk;
      cbn [List.length] in LS; try lia.
    exists f, g. split; [now symmetry|].
    rewrite length_firstn. lia. }
  destruct D as (others & f & g & D & Lo).
  rewrite <- Lo, D in H.
  rewrite nth_error_app2 in H by lia.
  rewrite Nat.sub_diag in H. cbn [nth_error] in H.
  destruct f as [fn fv]. injection H as <-.
  exists files, others, (fn, fv), g.
  rewrite D in P, S.
  destruct (sorted_last_two _ _ _ _ S) as [F R].
  repeat split; try assumption. now symmetry.
Qed.

(** ** The statements above at work *)

Lemma create_jobs_skips_listed_witness :
  let jobs :=
    [Scenario.alpha_job; JDict [("name", JStr "beta")]; JDict [("name", JStr "gamma")]] in
  let w := Scenario.start (Scenario.workspace ["beta"] 42) [] in
  let v := Scenario.start workspace_answering_lists [] in
  Forall (fun job => job_name_of job <> None) jobs
  /\ create_jobs (JList [JStr "beta"]) CREATE_JOB_ENDPOINT jobs w
     = (Ok [JInt 42; JInt 42],
        after_requests w [Post CREATE_JOB_ENDPOINT Scenario.alpha_job;
                          Post CREATE_JOB_ENDPOINT (JDict [("name", JStr "gamma")])])
  /\ create_jobs (JList [JStr "beta"]) CREATE_JOB_ENDPOINT jobs v
     = (Raise AttributeError,
        after_requests v [Post CREATE_JOB_ENDPOINT Scenario.alpha_job]).
Proof.
  intros jobs w v.
  assert (H1 : Forall (fun job => job_name_of job <> None) jobs).
  { repeat constructor; discriminate. }
  split; [exact H1|]. split.
  - exact (proj1 (create_jobs_skips_listed [JStr "beta"] CREATE_JOB_ENDPOINT jobs w H1)).
  - exact (proj1 (create_jobs_skips_listed [JStr "beta"] CREATE_JOB_ENDPOINT jobs v H1)).
Defined.

Lemma well_formed_first_page : well_formed_page first_page.
Proof.
  split; [eexists; reflexivity|].
  repeat constructor; eexists; (split; [reflexivity|eexists; reflexivity]).
Qed.

Lemma well_formed_second_page : well_formed_page second_page.
Proof.
  split; [eexists; reflexivity|].
  repeat constructor; eexists; (split; [reflexivity|eexists; reflexivity]).
Qed.

Lemma get_jobs_pages_witness :
  let w := Scenario.start paged_workspace [] in
  serves (server w) GET_JOB_ENDPOINT (sent w) JNone [first_page; second_page]
  /\ get_jobs 5 GET_JOB_ENDPOINT w
     = (Ok (JList [JStr "alpha"; JStr "unknown job name"; JStr "gamma"]),
        after_requests w [Get GET_JOB_ENDPOINT JNone; Get GET_JOB_ENDPOINT (JStr "p2")]).
Proof.
  intros w.
  assert (H : serves (server w) GET_JOB_ENDPOINT (sent w) JNone [first_page; second_page]).
  { split; [reflexivity|]. split; [exact well_formed_first_page|].
    split; [reflexivity|].
    split; [reflexivity|]. split; [exact well_formed_second_page|reflexivity]. }
  split; [exact H|].
  exact (get_jobs_pages GET_JOB_ENDPOINT [first_page; second_page] 3 w H).
Defined.

Lemma get_jobs_fails_on_any_page_witness :
  let w := Scenario.start paged_workspace_failing [] in
  fails_after (server w) GET_JOB_ENDPOINT (sent w) JNone [first_page]
  /\ get_jobs 5 GET_JOB_ENDPOINT w
     = (Ok JNone,
        after_requests w [Get GET_JOB_ENDPOINT JNone; Get GET_JOB_ENDPOINT (JStr "p2")]).
Proof.
  intros w.
  assert (H : fails_after (server w) GET_JOB_ENDPOINT (sent w) JNone [first_page]).
  { split; [reflexivity|]. split; [exact well_formed_first_page|].
    split; reflexivity. }
  split; [exact H|].
  exact (get_jobs_fails_on_any_page GET_JOB_ENDPOINT [first_page] 3 w H).
Defined.

Lemma jobs_to_update_spec_witness :
  let entries := [("workflow1", Scenario.with_job_id (JInt 7) Scenario.earlier_alpha_job);
                  ("workflow0", Scenario.with_job_id (JInt 3) Scenario.earlier_alpha_job)] in
  NoDup (map fst Scenario.desired)
  /\ Forall (fun kv => is_dict (snd kv)) entries
  /\ jobs_to_update Scenario.desired (JDict entries)
     = Ok [("workflow1", (JInt 7, Scenario.alpha_job))].
Proof.
  intros entries.
  assert (H1 : NoDup (map fst Scenario.desired)).
  { repeat constructor. intros []. }
  assert (H2 : Forall (fun kv => is_dict (snd kv)) entries).
  { repeat constructor; eexists; reflexivity. }
  split; [exact H1|]. split; [exact H2|].
  exact (jobs_to_update_spec Scenario.desired entries H1 H2).
Defined.

Lemma render_job_shape_witness :
  render_job Scenario.no_tasks Scenario.alpha_details = Ok Scenario.alpha_job
  /\ exists fields,
       Scenario.alpha_job = JDict fields
       /\ lookup "name" fields = Some (JStr "alpha")
       /\ has_key "job_id" fields = false.
Proof.
  split; [reflexivity|].
  destruct (render_job_shape Scenario.no_tasks Scenario.alpha_details
              Scenario.alpha_job eq_refl)
    as (d & fields & Hd & Hj & _ & Hn & _ & Hk).
  exists fields. injection Hd as <-. repeat split; assumption.
Defined.

Lemma config_keys_distinct : NoDup (map fst Scenario.config).
Proof.
  repeat constructor; cbn; intuition discriminate.
Qed.

Lemma process_workflow_returns_witness :
  NoDup (map fst Scenario.config)
  /\ process_workflow Scenario.no_tasks Scenario.config Scenario.settled
     = (Ok (Scenario.desired, Scenario.definitions,
            JDict [("workflow1", Scenario.with_job_id (JInt 7) Scenario.alpha_job)]),
        Scenario.settled)
  /\ map fst Scenario.desired = map fst Scenario.definitions.
Proof.
  split; [exact config_keys_distinct|]. split; [reflexivity|].
  exact (proj1 (proj2 (proj2
           (process_workflow_returns Scenario.no_tasks Scenario.config
              Scenario.settled Scenario.settled _ _ _ config_keys_distinct eq_refl)))).
Defined.

Lemma tracked_workflows_requeued_witness :
  let entries := [("workflow1", Scenario.with_job_id (JInt 7) Scenario.alpha_job)] in
  NoDup (map fst Scenario.config)
  /\ Forall (fun kv => is_dict (snd kv)) entries
  /\ process_workflow Scenario.no_tasks Scenario.config Scenario.settled
     = (Ok (Scenario.desired, Scenario.definitions, JDict entries), Scenario.settled)
  /\ exists queue,
       jobs_to_update Scenario.desired (JDict entries) = Ok queue
       /\ In ("workflow1", (JInt 7, Scenario.alpha_job)) queue.
Proof.
  intros entries.
  assert (H2 : Forall (fun kv => is_dict (snd kv)) entries).
  { repeat constructor; eexists; reflexivity. }
  split; [exact config_keys_distinct|]. split; [exact H2|]. split; [reflexivity|].
  destruct (tracked_workflows_requeued Scenario.no_tasks Scenario.config
              Scenario.settled Scenario.settled Scenario.desired Scenario.definitions
              entries config_keys_distinct H2 eq_refl)
    as (queue & Hq & Hin).
  exists queue. split; [exact Hq|].
  refine (Hin "workflow1" Scenario.alpha_job _ (or_introl eq_refl) eq_refl eq_refl).
Defined.

Lemma render_job_tasks_witness :
  let ctp := create_task_payload (fun _ => Raise FileNotFoundError) py_format in
  let t1 := JDict [("task_name", JStr "ingest"); ("tasktype", JStr "NOTEBOOK");
                   ("filepath", JStr "nb/ingest");
                   ("email_on_success", JList [JStr "a@x.org"])] in
  let t2 := JDict [("task_name", JStr "clean"); ("tasktype", JStr "PYTHON");
                   ("filepath", JStr "jobs/clean.py");
                   ("email_on_success", JList [JStr "a@x.org"; JStr "b@x.org"]);
                   ("email_on_failure", JList [JStr "ops@x.org"])] in
  let d := [("job_name", JStr "nightly"); ("tasks", JList [t1; t2])] in
  exists job fields,
    render_job ctp (JDict d) = Ok job
    /\ job = JDict fields
    /\ lookup "email_notifications" fields
       = Some (JDict [("on_success",
                       JList [JStr "a@x.org"; JStr "a@x.org"; JStr "b@x.org"]);
                      ("on_failure", JList [JStr "ops@x.org"])]).
Proof.
  intros ctp t1 t2 d.
  destruct (render_job ctp (JDict d)) as [job| |] eqn:R;
    [|vm_compute in R; discriminate|vm_compute in R; discriminate].
  destruct (render_job_tasks ctp d [t1; t2] job R eq_refl)
    as (payloads & fields & Hj & _ & _ & He).
  exists job, fields. split; [reflexivity|]. split; [exact Hj|exact He].
Defined.

Lemma listed_names_are_basenames_witness :
  let listing := fun (_ _ : string) =>
    Ok [JDict [("Contents",
                JList [JDict [("Key", JStr "historic_state.json/state_file_1.0.json")];
                       JDict [("Key", JStr "historic_state.json/old/state_file_0.9.json")]])];
        JDict [("KeyCount", JInt 0)]] in
  list_all_objects_in_s3_path listing BUCKET_NAME HISTORIC_STATE_FILEPATH
  = Ok ["state_file_1.0.json"; "state_file_0.9.json"]
  /\ Forall2 after_last_slash
       ["historic_state.json/state_file_1.0.json";
        "historic_state.json/old/state_file_0.9.json"]
       ["state_file_1.0.json"; "state_file_0.9.json"].
Proof.
  intros listing. split; [reflexivity|].
  destruct (listed_names_are_basenames listing BUCKET_NAME HISTORIC_STATE_FILEPATH
              ["state_file_1.0.json"; "state_file_0.9.json"] eq_refl)
    as (pages & E & F).
  injection E as <-. exact F.
Defined.

Lemma previous_version_file_is_second_highest_witness :
  let listing := fun (_ _ : string) =>
    Ok [JDict [("Contents",
                JList [JDict [("Key", JStr "historic_state.json/sate_file_1.json")];
                       JDict [("Key", JStr "historic_state.json/sate_file_3.json")];
                       JDict [("Key", JStr "historic_state.json/sate_file_2.json")];
                       JDict [("Key", JStr "historic_state.json/state_file_9.json")]])]] in
  get_previous_version_file listing BUCKET_NAME HISTORIC_STATE_FILEPATH
  = Ok (Some "historic_state.json/sate_file_2.json")
  /\ exists others f g,
       Permutation
         [("sate_file_1.json", 1); ("sate_file_3.json", 3); ("sate_file_2.json", 2)]
         (others ++ [f; g])
       /\ Forall (fun x => snd x <= snd f) others
       /\ snd f <= snd g
       /\ "historic_state.json/sate_file_2.json"
          = path_join HISTORIC_STATE_FILEPATH (fst f).
Proof.
  intros listing. split; [reflexivity|].
  destruct (previous_version_file_is_second_highest listing BUCKET_NAME
              HISTORIC_STATE_FILEPATH "historic_state.json/sate_file_2.json" eq_refl)
    as (files & others & f & g & Hl & Hp & Hf & Hg & He).
  exists others, f, g.
  assert (E : files = ["sate_file_1.json"; "sate_file_3.json"; "sate_file_2.json";
                       "state_file_9.json"]).
  { vm_compute in Hl. now injection Hl as <-. }
  subst files. repeat split; assumption.
Defined.

(** Every run also queues an update, with no identifier, for every
    configured workflow that the state file does not know: Phase A sends
    a job that is yet to be created to the update endpoint first, with
    "job_id" null. *)
Theorem unknown_workflows_updated_without_id ctp (config : list (string * json))
    (w w' : world) (extended workflow_data entries : list (string * json)) :
  NoDup (map fst config) ->
  Forall (fun kv => is_dict (snd kv)) entries ->
  process_workflow ctp config w = (Ok (extended, workflow_data, JDict entries), w') ->
  exists queue,
    jobs_to_update extended (JDict entries) = Ok queue
    /\ forall name job,
         In (name, job) extended ->
         lookup name entries = None ->
         In (Post UPDATE_JOB_ENDPOINT
               (JDict [("job_id", JNone); ("new_settings", job)]))
           (update_batch queue).
Proof.
  intros Hnd He H.
  destruct (process_workflow_ok ctp config w w' _ _ _ Hnd H)
    as (_ & Hwf & Hk & F & _).
  assert (Hnd' : NoDup (map fst extended)).
  { rewrite Hk, Hwf. clear -Hnd.
    induction config as [|[k v] config IH]; cbn; [constructor|].
    inversion Hnd as [|? ? Hk Hc]; subst.
    destruct (prefix "workflow" k); cbn; auto.
    constructor; auto.
    intros Hin. apply Hk. clear -Hin.
    induction config as [|[k' v'] config IH]; cbn in *; [contradiction|].
    destruct (prefix "workflow" k'); cbn in *; tauto. }
  exists (flat_map (classify entries) extended).
  split; [now apply jobs_to_update_classified|].
  intros name job Hin Hl.
  unfold update_batch. apply in_map_iff.
  exists (name, (JNone, job)). split; [reflexivity|].
  apply in_flat_map. exists (name, job). split; [exact Hin|].
  assert (D : dict_get name (JDict []) entries = JDict []).
  { unfold dict_get. now rewrite Hl. }
  unfold classify. cbn [fst snd]. rewrite D.
  assert (R : exists details, render_job ctp details = Ok job).
  { clear -F Hin. induction F as [|kv j l jobs [_ R] _ IH]; [contradiction|].
    destruct Hin as [->|Hin]; [eexists; exact R|auto]. }
  destruct R as (details & R).
  destruct (render_job_fields ctp details job R) as (d & fields & _ & -> & Hkeys & _).
  destruct fields as [|[k v] fields]; [discriminate|].
  cbn. now left.
Qed.

Lemma unknown_workflows_updated_without_id_witness :
  let w := Scenario.start (Scenario.workspace [] 42)
             [(CURRENT_STATE_FILEPATH, Scenario.snapshot "1.0" [])] in
  NoDup (map fst Scenario.config)
  /\ Forall (fun kv : string * json => is_dict (snd kv)) []
  /\ process_workflow Scenario.no_tasks Scenario.config w
     = (Ok (Scenario.desired, Scenario.definitions, JDict []), w)
  /\ exists queue,
       jobs_to_update Scenario.desired (JDict []) = Ok queue
       /\ In (Post UPDATE_JOB_ENDPOINT
                (JDict [("job_id", JNone); ("new_settings", Scenario.alpha_job)]))
            (update_batch queue).
Proof.
  intros w.
  split; [exact config_keys_distinct|]. split; [constructor|]. split; [reflexivity|].
  destruct (unknown_workflows_updated_without_id Scenario.no_tasks Scenario.config
              w w Scenario.desired Scenario.definitions []
              config_keys_distinct (Forall_nil _) eq_refl)
    as (queue & Hq & Hin).
  exists queue. split; [exact Hq|].
  exact (Hin "workflow1" Scenario.alpha_job (or_introl eq_refl) eq_refl).
Defined.
